(** * Category-weighted casualty aggregation of the NYC collision scripts

    A shallow embedding of the aggregation loops of
    - [yearly_trends_analysis.py]   ([extract_yearly_data_by_category]),
    - [bike_vs_ebike_analysis.py]    ([extract_bike_data_by_year]),
    - [pedestrian_analysis.py]       ([extract_vehicle_types]),
    - [pedestrian_analysis_consolidated.py]
                                     ([extract_and_categorize_vehicles]),
    with their lookup tables, and the properties of the split, the
    classifier and the 2025 projection.

    Numbers.  The scripts compute in Python floats; here every tally is an
    exact rational ([Qc], canonical fractions, Leibniz equality), so the
    equalities below are the exact-arithmetic ones.

    Cells.  A label cell of the data frame is [None] for a missing value
    (what [pd.notna] rejects) and [Some s] for a text [s] (ASCII).  A
    numeric cell is given as the value [pd.to_numeric(cell,
    errors='coerce')] has: a finite number, or NaN for a missing or
    non-numeric cell. *)

From Stdlib Require Import QArith Qcanon Ascii.
From stdpp Require Import numbers strings list fin_maps gmap sorting.

Local Open Scope Z_scope.
Local Open Scope Qc_scope.

(** ** Python strings: [str.strip] and [str.upper] on ASCII text *)

Module PyStr.

(** [str.isspace] on the ASCII range: TAB, LF, VT, FF, CR, FS, GS, RS,
    US and the space. *)
Definition isspace (a : ascii) : bool :=
  let n := N_of_ascii a in
  ((9 <=? n) && (n <=? 13) || (28 <=? n) && (n <=? 32))%N.

Fixpoint lstrip (s : string) : string :=
  match s with
  | EmptyString => EmptyString
  | String a s' => if isspace a then lstrip s' else s
  end.

Definition rstrip (s : string) : string :=
  String.rev (lstrip (String.rev s)).

Definition strip (s : string) : string := rstrip (lstrip s).

Definition upper_ascii (a : ascii) : ascii :=
  let n := N_of_ascii a in
  if ((97 <=? n) && (n <=? 122))%N then ascii_of_N (n - 32) else a.

Fixpoint upper (s : string) : string :=
  match s with
  | EmptyString => EmptyString
  | String a s' => String (upper_ascii a) (upper s')
  end.

End PyStr.

(** ** Numeric cells and the "safe conversion" of the casualty counts *)

Inductive numeric : Type :=
| Fin (q : Qc)
| NaN.

(** Python truthiness of a number: zero is false, everything else,
    NaN included, is true. *)
Definition truthy (x : numeric) : bool :=
  match x with
  | Fin q => negb (bool_decide (q = 0))
  | NaN => true
  end.

(** [x or 0] *)
Definition or_zero (x : numeric) : numeric :=
  if truthy x then x else Fin 0.

(** [int(x)]: truncation toward zero; [int(nan)] raises [ValueError],
    which is [None] here. *)
Definition py_int (x : numeric) : option Z :=
  match x with
  | Fin q => Some (Z.quot (Qnum q) (Zpos (Qden q)))
  | NaN => None
  end.

(** [int(pd.to_numeric(cell, errors='coerce') or 0)] *)
Definition safe_count (cell : numeric) : option Z := py_int (or_zero cell).

(** [a / b] of Python: [ZeroDivisionError] ([None]) on a zero divisor. *)
Definition py_truediv (a b : Qc) : option Qc :=
  if bool_decide (b = 0) then None else Some (a / b).

(** ** The rows of the data frame *)

Record row : Type := Row {
  NUMBER_OF_PEDESTRIANS_INJURED : numeric;
  NUMBER_OF_PEDESTRIANS_KILLED : numeric;
  YEAR : numeric;
  VEHICLE_TYPE_CODE_1 : option string;
  VEHICLE_TYPE_CODE_2 : option string;
  VEHICLE_TYPE_CODE_3 : option string;
  VEHICLE_TYPE_CODE_4 : option string;
  VEHICLE_TYPE_CODE_5 : option string
}.

(** [[row[col] for col in vehicle_cols]] *)
Definition vehicle_cols (r : row) : list (option string) :=
  [ VEHICLE_TYPE_CODE_1 r; VEHICLE_TYPE_CODE_2 r; VEHICLE_TYPE_CODE_3 r;
    VEHICLE_TYPE_CODE_4 r; VEHICLE_TYPE_CODE_5 r ].

(** ** The lookup tables *)

Definition Other_Unknown : string := "Other/Unknown".

(** [get_vehicle_category_mapping()], the same literal in
    [yearly_trends_analysis.py] and [pedestrian_analysis_consolidated.py]. *)
Definition vehicle_category_items : list (string * string) :=
  [ ("Sedan", "Passenger Vehicles");
    ("SEDAN", "Passenger Vehicles");
    ("4 dr sedan", "Passenger Vehicles");
    ("Station Wagon/Sport Utility Vehicle", "Passenger Vehicles");
    ("SPORT UTILITY / STATION WAGON", "Passenger Vehicles");
    ("PASSENGER VEHICLE", "Passenger Vehicles");
    ("Pick-up Truck", "Passenger Vehicles");
    ("PICK-UP TRUCK", "Passenger Vehicles");
    ("PK", "Passenger Vehicles");
    ("Convertible", "Passenger Vehicles");
    ("Taxi", "Taxi/Livery");
    ("TAXI", "Taxi/Livery");
    ("LIVERY VEHICLE", "Taxi/Livery");
    ("Bus", "Large/Commercial Vehicles");
    ("BUS", "Large/Commercial Vehicles");
    ("Box Truck", "Large/Commercial Vehicles");
    ("BOX TRUCK", "Large/Commercial Vehicles");
    ("Dump", "Large/Commercial Vehicles");
    ("DUMP", "Large/Commercial Vehicles");
    ("Tractor Truck Diesel", "Large/Commercial Vehicles");
    ("TRACTOR TRUCK DIESEL", "Large/Commercial Vehicles");
    ("Garbage or Refuse", "Large/Commercial Vehicles");
    ("GARBAGE OR REFUSE", "Large/Commercial Vehicles");
    ("LARGE COM VEH(6 OR MORE TIRES)", "Large/Commercial Vehicles");
    ("SMALL COM VEH(4 TIRES)", "Large/Commercial Vehicles");
    ("Ambulance", "Large/Commercial Vehicles");
    ("AMBULANCE", "Large/Commercial Vehicles");
    ("Fire Truck", "Large/Commercial Vehicles");
    ("FIRE TRUCK", "Large/Commercial Vehicles");
    ("Flat Bed", "Large/Commercial Vehicles");
    ("Motorcycle", "Motorcycles");
    ("MOTORCYCLE", "Motorcycles");
    ("Motorbike", "Motorcycles");
    ("Moped", "Motorcycles");
    ("MOPED", "Motorcycles");
    ("Bike", "Bicycles/Scooters");
    ("BIKE", "Bicycles/Scooters");
    ("E-Bike", "Bicycles/Scooters");
    ("E-BIKE", "Bicycles/Scooters");
    ("E-Scooter", "Bicycles/Scooters");
    ("E-SCOOTER", "Bicycles/Scooters");
    ("Van", "Van");
    ("VAN", "Van");
    ("UNKNOWN", "Other/Unknown");
    ("OTHER", "Other/Unknown") ].

Definition get_vehicle_category_mapping : gmap string string :=
  list_to_map vehicle_category_items.

(** [bike_mapping] of [extract_bike_data_by_year]. *)
Definition bike_mapping_items : list (string * string) :=
  [ ("Bike", "Traditional Bicycle");
    ("BIKE", "Traditional Bicycle");
    ("E-Bike", "E-Bike");
    ("E-BIKE", "E-Bike");
    ("E-Scooter", "E-Scooter");
    ("E-SCOOTER", "E-Scooter") ].

Definition bike_mapping : gmap string string :=
  list_to_map bike_mapping_items.

(** [category_mapping.get(vehicle_type, 'Other/Unknown')] *)
Definition classify (vehicle_type : string) : string :=
  default Other_Unknown (get_vehicle_category_mapping !! vehicle_type).

(** The test of the three category scripts on one label cell:
    [pd.notna(vehicle) and str(vehicle).strip() and
     str(vehicle).strip().upper() not in ['', 'UNKNOWN', 'NAN']]. *)
Definition valid_vehicle (vehicle : option string) : bool :=
  match vehicle with
  | None => false
  | Some s =>
      negb (bool_decide (PyStr.strip s = ""%string))
      && negb (bool_decide
                 (PyStr.upper (PyStr.strip s) ∈ [""; "UNKNOWN"; "NAN"]%string))
  end.

(** ** The aggregate tables

    A tally is the dict [{'injured': .., 'killed': ..}]; the tables are the
    [defaultdict]s of the scripts, as finite maps: reading an absent key
    gives the default ([{}] or the zero tally) and the [+=] stores it. *)

Record tally : Type := Tally { injured : Qc; killed : Qc }.

Definition zero_tally : tally := Tally 0 0.

Definition add_tally (c : tally) (di dk : Qc) : tally :=
  Tally (injured c + di) (killed c + dk).

(** [t[key]['injured'] += di; t[key]['killed'] += dk] on a
    [defaultdict(lambda: {'injured': 0, 'killed': 0})]. *)
Definition bump `{Countable K} (t : gmap K tally) (key : K) (di dk : Qc)
  : gmap K tally :=
  <[key := add_tally (default zero_tally (t !! key)) di dk]> t.

(** [yearly_data[category][year]['injured'] += di] and the same for
    ['killed'], on the nested [defaultdict]. *)
Definition bump_year (yearly_data : gmap string (gmap Z tally))
    (category : string) (year : Z) (di dk : Qc)
  : gmap string (gmap Z tally) :=
  <[category := bump (default ∅ (yearly_data !! category)) year di dk]>
    yearly_data.

(** Reading a tally without storing anything ([.get] with the zero
    default, as the report code does). *)
Definition tally_at (t : gmap string (gmap Z tally)) (category : string)
    (year : Z) : tally :=
  default zero_tally (default ∅ (t !! category) !! year).

Definition tally_of `{Countable K} (t : gmap K tally) (key : K) : tally :=
  default zero_tally (t !! key).

(** [list(dict.fromkeys(l))]: the keys in first-seen order. *)
Definition dict_fromkeys (l : list string) : list string :=
  foldl (λ keys x, if bool_decide (x ∈ keys) then keys else keys ++ [x]) [] l.

(** [len(l)] as the divisor of a true division. *)
Definition len (l : list string) : Qc := Qc_of_Z (Z.of_nat (length l)).

(** [for _, row in df.iterrows(): body]; [None] is an exception that
    leaves the loop. *)
Fixpoint iterrows {T : Type} (body : T → row → option T) (acc : T)
    (df : list row) : option T :=
  match df with
  | [] => Some acc
  | r :: df' => acc' ← body acc r; iterrows body acc' df'
  end.

(** ** The 2025 projection factor

    [days_in_2025] is [(latest_date - pd.Timestamp("2025-01-01")).days + 1],
    taken as an input.
    [projection_factor = 365 / days_in_2025 if days_in_2025 > 0 else 1.0] *)
Definition projection_factor (days_in_2025 : Z) : option Qc :=
  if bool_decide (0 < days_in_2025)%Z
  then py_truediv (Qc_of_Z 365) (Qc_of_Z days_in_2025)
  else Some 1.

(** ** [yearly_trends_analysis.py] *)

Module Yearly.

(** The [try] block: the three conversions; [None] is the [except
    (ValueError, TypeError)] branch. *)
Definition convert (r : row) : option (Z * Z * Z) :=
  injured ← safe_count (NUMBER_OF_PEDESTRIANS_INJURED r);
  killed ← safe_count (NUMBER_OF_PEDESTRIANS_KILLED r);
  year ← py_int (YEAR r);
  Some (injured, killed, year).

(** [if year == 2025: x *= projection_factor] *)
Definition scaled (factor : Qc) (year : Z) (x : Z) : Qc :=
  if bool_decide (year = 2025%Z) then Qc_of_Z x * factor else Qc_of_Z x.

(** One label cell: kept and classified, or dropped. *)
Definition category_of (vehicle : option string) : option string :=
  if valid_vehicle vehicle
  then (λ s, classify (PyStr.strip s)) <$> vehicle
  else None.

Definition vehicles_in_collision (r : row) : list string :=
  omap category_of (vehicle_cols r).

(** Lines 172-181: deduplicate, split, accumulate. *)
Definition distribute (yearly_data : gmap string (gmap Z tally))
    (vehicles : list string) (year : Z) (injured killed : Qc)
  : option (gmap string (gmap Z tally)) :=
  let unique_vehicles := dict_fromkeys vehicles in
  per_injured ← py_truediv injured (len unique_vehicles);
  per_killed ← py_truediv killed (len unique_vehicles);
  Some (foldl (λ t category, bump_year t category year per_injured per_killed)
              yearly_data unique_vehicles).

(** The body of the loop over the rows. *)
Definition body (factor : Qc) (yearly_data : gmap string (gmap Z tally))
    (r : row) : option (gmap string (gmap Z tally)) :=
  match convert r with
  | None => Some yearly_data
  | Some (injured, killed, year) =>
      let injured := scaled factor year injured in
      let killed := scaled factor year killed in
      match vehicles_in_collision r with
      | [] => Some yearly_data
      | vehicles => distribute yearly_data vehicles year injured killed
      end
  end.

Definition fold_rows (factor : Qc) (df : list row)
  : option (gmap string (gmap Z tally)) :=
  iterrows (body factor) ∅ df.

Definition extract_yearly_data_by_category (days_in_2025 : Z)
    (df : list row) : option (gmap string (gmap Z tally)) :=
  factor ← projection_factor days_in_2025;
  fold_rows factor df.

End Yearly.

(** ** [bike_vs_ebike_analysis.py] *)

Module Bike.

(** [if pd.notna(vehicle) and str(vehicle).strip() in bike_mapping:
      bike_type = bike_mapping[str(vehicle).strip()]] *)
Definition bike_of (vehicle : option string) : option string :=
  s ← vehicle; bike_mapping !! PyStr.strip s.

Definition bikes_in_collision (r : row) : list string :=
  omap bike_of (vehicle_cols r).

Definition body (factor : Qc) (yearly_data : gmap string (gmap Z tally))
    (r : row) : option (gmap string (gmap Z tally)) :=
  match Yearly.convert r with
  | None => Some yearly_data
  | Some (injured, killed, year) =>
      if bool_decide (year < 2020)%Z then Some yearly_data else
      let injured := Yearly.scaled factor year injured in
      let killed := Yearly.scaled factor year killed in
      match bikes_in_collision r with
      | [] => Some yearly_data
      | bikes => Yearly.distribute yearly_data bikes year injured killed
      end
  end.

Definition fold_rows (factor : Qc) (df : list row)
  : option (gmap string (gmap Z tally)) :=
  iterrows (body factor) ∅ df.

Definition extract_bike_data_by_year (days_in_2025 : Z) (df : list row)
  : option (gmap string (gmap Z tally)) :=
  factor ← projection_factor days_in_2025;
  fold_rows factor df.

End Bike.

(** ** [pedestrian_analysis.py] and [pedestrian_analysis_consolidated.py] *)

Module Flat.

(** The [try] block of both scripts: any failure sets both counts to 0. *)
Definition convert (r : row) : Z * Z :=
  match safe_count (NUMBER_OF_PEDESTRIANS_INJURED r),
        safe_count (NUMBER_OF_PEDESTRIANS_KILLED r) with
  | Some injured, Some killed => (injured, killed)
  | _, _ => (0%Z, 0%Z)
  end.

(** [extract_vehicle_types]: the trimmed labels themselves, no table. *)
Definition label_of (vehicle : option string) : option string :=
  if valid_vehicle vehicle then PyStr.strip <$> vehicle else None.

Definition body_vehicle_types (vehicle_casualties : gmap string tally)
    (r : row) : option (gmap string tally) :=
  let '(injured, killed) := convert r in
  match omap label_of (vehicle_cols r) with
  | [] => Some vehicle_casualties
  | vehicles =>
      per_injured ← py_truediv (Qc_of_Z injured) (len vehicles);
      per_killed ← py_truediv (Qc_of_Z killed) (len vehicles);
      Some (foldl (λ t vehicle, bump t vehicle per_injured per_killed)
                  vehicle_casualties vehicles)
  end.

Definition extract_vehicle_types (df : list row)
  : option (gmap string tally) :=
  iterrows body_vehicle_types ∅ df.

(** [extract_and_categorize_vehicles]: classified and deduplicated. *)
Definition body_categories (category_casualties : gmap string tally)
    (r : row) : option (gmap string tally) :=
  let '(injured, killed) := convert r in
  match Yearly.vehicles_in_collision r with
  | [] => Some category_casualties
  | vehicles =>
      let unique_vehicles := dict_fromkeys vehicles in
      per_injured ← py_truediv (Qc_of_Z injured) (len unique_vehicles);
      per_killed ← py_truediv (Qc_of_Z killed) (len unique_vehicles);
      Some (foldl (λ t category, bump t category per_injured per_killed)
                  category_casualties unique_vehicles)
  end.

Definition extract_and_categorize_vehicles (df : list row)
  : option (gmap string tally) :=
  iterrows body_categories ∅ df.

End Flat.

(** A row with finite counts, a finite year and up to five labels. *)
Definition mk_row (injured killed year : Z) (labels : list string) : row :=
  Row (Fin (Qc_of_Z injured)) (Fin (Qc_of_Z killed)) (Fin (Qc_of_Z year))
      (labels !! 0%nat) (labels !! 1%nat) (labels !! 2%nat)
      (labels !! 3%nat) (labels !! 4%nat).

(** The trimmed labels of a row that pass the test (the list that
    [extract_vehicle_types] splits over). *)
Definition labels_in_collision (r : row) : list string :=
  omap Flat.label_of (vehicle_cols r).

(** [vehicle_mapping] of [clean_vehicle_types] in [pedestrian_analysis.py]. *)
Definition vehicle_mapping_items : list (string * string) :=
  [ ("Station Wagon/Sport Utility Vehicle", "SUV/Station Wagon");
    ("SPORT UTILITY / STATION WAGON", "SUV/Station Wagon");
    ("Sedan", "Sedan");
    ("SEDAN", "Sedan");
    ("Pick-up Truck", "Pickup Truck");
    ("PICK-UP TRUCK", "Pickup Truck");
    ("Box Truck", "Box Truck");
    ("BOX TRUCK", "Box Truck");
    ("Taxi", "Taxi");
    ("TAXI", "Taxi");
    ("Bus", "Bus");
    ("BUS", "Bus");
    ("Bike", "Bicycle");
    ("BIKE", "Bicycle");
    ("E-Bike", "E-Bike");
    ("E-BIKE", "E-Bike");
    ("E-Scooter", "E-Scooter");
    ("E-SCOOTER", "E-Scooter");
    ("Motorcycle", "Motorcycle");
    ("MOTORCYCLE", "Motorcycle");
    ("Tractor Truck Diesel", "Tractor Truck");
    ("TRACTOR TRUCK DIESEL", "Tractor Truck");
    ("Dump", "Dump Truck");
    ("DUMP", "Dump Truck");
    ("Garbage or Refuse", "Garbage Truck");
    ("GARBAGE OR REFUSE", "Garbage Truck");
    ("Ambulance", "Ambulance");
    ("AMBULANCE", "Ambulance");
    ("Fire Truck", "Fire Truck");
    ("FIRE TRUCK", "Fire Truck");
    ("Van", "Van");
    ("VAN", "Van");
    ("Moped", "Moped");
    ("MOPED", "Moped") ].

Definition vehicle_mapping : gmap string string :=
  list_to_map vehicle_mapping_items.

(** [clean_vehicle_types]: the per-label tallies merged under
    [vehicle_mapping.get(vehicle, vehicle)]. *)
Definition clean_vehicle_types (vehicle_casualties : gmap string tally)
  : gmap string tally :=
  map_fold (λ vehicle casualties cleaned,
              bump cleaned (default vehicle (vehicle_mapping !! vehicle))
                   (injured casualties) (killed casualties))
           ∅ vehicle_casualties.

(** ** The projector of the specification *)

Definition scale_tally (factor : Qc) (c : tally) : tally :=
  Tally (injured c * factor) (killed c * factor).

(** The projector as the specification words it (a step of its own, after
    the fold; the scripts scale each 2025 record before they split it):
    both fields of every category's tally for [incomplete_bucket] are
    multiplied by the factor, the other buckets are left alone. *)
Definition scale_bucket (table : gmap string (gmap Z tally))
    (incomplete_bucket : Z) (factor : Qc) : gmap string (gmap Z tally) :=
  alter (scale_tally factor) incomplete_bucket <$> table.

(** [factor = nominal_period_days / observed_days], and 1 when
    [observed_days <= 0], in the specification's words. *)
Definition spec_factor (observed_days nominal_period_days : Z) : Qc :=
  if bool_decide (observed_days ≤ 0)%Z then 1
  else Qc_of_Z nominal_period_days / Qc_of_Z observed_days.

Definition project_spec (table : gmap string (gmap Z tally))
    (incomplete_bucket observed_days nominal_period_days : Z)
  : gmap string (gmap Z tally) :=
  scale_bucket table incomplete_bucket
    (spec_factor observed_days nominal_period_days).

(** The amount a row of year [y] adds when the bucket [b] is the scaled
    one. *)
Definition in_bucket (b : Z) (factor : Qc) (y : Z) (d : Qc) : Qc :=
  if bool_decide (y = b) then d * factor else d.

(** ** Sums, counts and the predicates of the claims *)

(** [n] times a rational. *)
Definition times (n : nat) (q : Qc) : Qc := Qc_of_Z (Z.of_nat n) * q.

(** The sum of a list of rationals. *)
Definition sumQ (l : list Qc) : Qc := foldr Qcplus 0 l.

(** How often a key occurs in a list. *)
Definition occurrences `{EqDecision K} (k : K) (l : list K) : nat :=
  length (filter (λ x, x = k) l).


(** A count cell that is not negative (a missing one counts as such: its
    row is skipped). *)
Definition nonneg_cell (x : numeric) : Prop :=
  match x with
  | Fin q => 0 ≤ q
  | NaN => True
  end.

Definition nonneg_row (r : row) : Prop :=
  nonneg_cell (NUMBER_OF_PEDESTRIANS_INJURED r)
  ∧ nonneg_cell (NUMBER_OF_PEDESTRIANS_KILLED r).

(** Every tally stored in the table has both fields at least 0. *)
Definition entries_nonneg (t : gmap string (gmap Z tally)) : Prop :=
  ∀ c by_year y tl,
    t !! c = Some by_year → by_year !! y = Some tl →
    0 ≤ injured tl ∧ 0 ≤ killed tl.

Definition reads_nonneg (t : gmap string (gmap Z tally)) : Prop :=
  ∀ c y, 0 ≤ injured (tally_at t c y) ∧ 0 ≤ killed (tally_at t c y).

(** A label cell that is missing, empty after trimming, or one of the
    missing-value words (unknown, nan) after trimming, in any case. *)
Definition sentinel_cell (vehicle : option string) : Prop :=
  match vehicle with
  | None => True
  | Some s =>
      PyStr.strip s = ""%string
      ∨ PyStr.upper (PyStr.strip s) = "UNKNOWN"%string
      ∨ PyStr.upper (PyStr.strip s) = "NAN"%string
  end.

Definition before_2020 (r : row) : Prop :=
  ∃ i k y, Yearly.convert r = Some (i, k, y) ∧ (y < 2020)%Z.

(** ** Sample rows *)

Definition Traditional_Bicycle : string := "Traditional Bicycle".
Definition E_Bike : string := "E-Bike".

Definition sample_row : row := mk_row 6 2 2021 ["Sedan"; "SEDAN"; "Bike"].


(** The three records of the scenario, in year [y]. *)
Definition scenario_rows (y : Z) : list row :=
  [ mk_row 10 0 y ["Bike"];
    mk_row 6 0 y ["Bike"; "Car"];
    mk_row 9 0 y ["BIKE"; "E-BIKE"] ].

(** A bike row of 2021 with a missing injured count and two killed. *)
Definition nan_injured_row : row :=
  Row NaN (Fin (Qc_of_Z 2)) (Fin (Qc_of_Z 2021))
      (Some "Bike"%string) None None None None.

Definition negative_row : row := mk_row (-3) 1 2021 ["Sedan"].


(** Five injured by a bicycle in 2019. *)
Definition bike_row_2019 : row := mk_row 5 0 2019 ["Bike"].

(** ** Reading the folded tables *)

(** [year in yearly_data.get(category, {})]: the table has a tally for the
    category in that year. *)
Definition has_bucket (t : gmap string (gmap Z tally)) (category : string)
    (year : Z) : Prop :=
  is_Some (default ∅ (t !! category) !! year).


(** The categories the coarse table can give, the fallback included. *)
Definition coarse_categories : list string :=
  [ "Passenger Vehicles"; "Taxi/Livery"; "Large/Commercial Vehicles";
    "Motorcycles"; "Bicycles/Scooters"; "Van"; "Other/Unknown" ].

(** The bike types of [bike_mapping]. *)
Definition bike_categories : list string :=
  [ "Traditional Bicycle"; "E-Bike"; "E-Scooter" ].

(** A loop body that, for every row, bumps the tallies of a list of
    categories in one year by one amount (or does nothing: the empty
    list); [touch r c y] says the row bumps category [c] in year [y]. *)
Definition bucket_body
    (body : gmap string (gmap Z tally) → row → option (gmap string (gmap Z tally)))
    (touch : row → string → Z → Prop) : Prop :=
  ∀ r, ∃ (l : list string) (y : Z) (di dk : Qc),
    (∀ t, body t r = Some (foldl (λ t c, bump_year t c y di dk) t l)) ∧
    (∀ c y', c ∈ l ∧ y = y' ↔ touch r c y').

(** The rows that reach the split of the yearly loop, and of the bike
    loop, with a category in a year. *)
Definition yearly_touch (r : row) (c : string) (y : Z) : Prop :=
  ∃ i k, Yearly.convert r = Some (i, k, y) ∧ c ∈ Yearly.vehicles_in_collision r.

Definition bike_touch (r : row) (c : string) (y : Z) : Prop :=
  ∃ i k, Yearly.convert r = Some (i, k, y) ∧ (2020 ≤ y)%Z
         ∧ c ∈ Bike.bikes_in_collision r.

(** No category of the table has an empty dict of years. *)
Definition inner_nonempty (t : gmap string (gmap Z tally)) : Prop :=
  ∀ c by_year, t !! c = Some by_year → ∃ y, is_Some (by_year !! y).

(** ** The totals of the reports *)

(** [sum(v[field] for v in data.values())], the totals of
    [generate_report] and [generate_console_report]. *)
Definition map_sum `{Countable K} {A : Type} (f : A → Qc) (m : gmap K A) : Qc :=
  map_fold (λ _ a acc, acc + f a) 0 m.

(** [vehicle_mapping.get(vehicle, vehicle)] *)
Definition clean_name (vehicle : string) : string :=
  default vehicle (vehicle_mapping !! vehicle).

(** [totals_by_year] of [generate_yearly_report] (and [total_by_year] of
    the summary chart): the tallies of all categories added up per year,
    on a [defaultdict]. *)
Definition totals_by_year (yearly_data : gmap string (gmap Z tally))
  : gmap Z tally :=
  map_fold (λ _ category_data totals,
              map_fold (λ year data totals,
                          bump totals year (injured data) (killed data))
                       totals category_data)
           ∅ yearly_data.

(** What a row adds to the total of its year in the yearly fold: its
    (scaled) count when the conversions succeed and it has a category. *)
Definition row_total (factor : Qc) (field : Z * Z * Z → Z) (r : row) (year : Z)
  : Qc :=
  match Yearly.convert r with
  | Some (i, k, y) =>
      if bool_decide (y = year ∧ Yearly.vehicles_in_collision r ≠ [])
      then Yearly.scaled factor y (field (i, k, y))
      else 0
  | None => 0
  end.

(** What a row adds to the grand total of a flat fold: its converted count
    when it has a label. *)
Definition labelled_count (field : Z * Z → Z) (r : row) : Qc :=
  match labels_in_collision r with
  | [] => 0
  | _ => Qc_of_Z (field (Flat.convert r))
  end.

(** [(killed / total * 100) if total > 0 else 0], the guarded rate of the
    reports ([generate_yearly_report], [generate_console_report],
    [create_summary_table], [generate_bike_analysis_data]). *)
Definition fatal_rate (injured killed : Qc) : option Qc :=
  let total := injured + killed in
  if bool_decide (0 < total)
  then q ← py_truediv killed total; Some (q * Qc_of_Z 100)
  else Some 0.

(** [(total_killed/grand_total)*100] of [generate_console_report], with
    the totals it sums first; the division has no guard. *)
Definition console_overall_rate (category_data : gmap string tally)
  : option Qc :=
  let total_injured := map_sum injured category_data in
  let total_killed := map_sum killed category_data in
  let grand_total := total_injured + total_killed in
  q ← py_truediv total_killed grand_total; Some (q * Qc_of_Z 100).

(** ** The bike filter of [load_and_preprocess_data] *)

(** [bike_types] of the bike script's loader. *)
Definition bike_types : list string :=
  [ "Bike"; "BIKE"; "E-Bike"; "E-BIKE"; "E-Scooter"; "E-SCOOTER" ].

(** [Series.isin(values)] on one cell: the exact text, nothing for a
    missing cell. *)
Definition isin (cell : option string) (values : list string) : bool :=
  match cell with
  | Some s => bool_decide (s ∈ values)
  | None => false
  end.

(** [bike_mask = False; for col in vehicle_cols:
      bike_mask |= pedestrian_collisions[col].isin(bike_types)],
    row by row. *)
Definition bike_mask (r : row) : bool :=
  foldl (λ mask cell, mask || isin cell bike_types) false (vehicle_cols r).

Definition Bicycles_Scooters : string := "Bicycles/Scooters".

(** A bike label with blanks around it. *)
Definition padded_bike_row : row := mk_row 4 0 2022 [" Bike "].

(** What a row adds to the total of its year in the bike fold: its
    (scaled) count when the conversions succeed, the year is 2020 or
    later and the row has a bike label. *)
Definition bike_row_total (factor : Qc) (field : Z * Z * Z → Z) (r : row)
    (year : Z) : Qc :=
  match Yearly.convert r with
  | Some (i, k, y) =>
      if bool_decide (y = year ∧ (2020 ≤ y)%Z ∧ Bike.bikes_in_collision r ≠ [])
      then Yearly.scaled factor y (field (i, k, y))
      else 0
  | None => 0
  end.

(** ** [casualty_rate_analysis.py] *)

Module Rates.

(** An entry of [yearly_totals]:
    [{'injured': .., 'killed': .., 'total': ..}]. *)
Record totals : Type :=
  Totals { total_injured : Qc; total_killed : Qc; total : Qc }.

Definition zero_totals : totals := Totals 0 0 0.

(** The three [+=] on [yearly_totals[year]] for one bike type's tally. *)
Definition add_casualties (yearly_totals : gmap Z totals) (year : Z)
    (casualties : tally) : gmap Z totals :=
  let cur := default zero_totals (yearly_totals !! year) in
  <[year := Totals (total_injured cur + injured casualties)
                   (total_killed cur + killed casualties)
                   (total cur + (injured casualties + killed casualties))]>
    yearly_totals.

(** The first loop of [calculate_casualty_rates]. *)
Definition yearly_totals (bike_casualties : gmap string (gmap Z tally))
  : gmap Z totals :=
  map_fold (λ _ year_data acc,
              map_fold (λ year casualties acc, add_casualties acc year casualties)
                       acc year_data)
           ∅ bike_casualties.

(** An entry of [casualty_rates]. *)
Record rate : Type := Rate {
  r_year : Z;
  r_rides : Z;
  r_casualties : Qc;
  r_injured : Qc;
  r_killed : Qc;
  casualty_rate_per_million : Qc;
  injury_rate_per_million : Qc;
  fatality_rate_per_million : Qc;
  is_projected : bool
}.

Definition million : Qc := Qc_of_Z 1000000.

(** The body of the [if] of the second loop. *)
Definition rate_of (year rides : Z) (tot : totals) : option rate :=
  casualty_rate ← py_truediv (total tot) (Qc_of_Z rides);
  injury_rate ← py_truediv (total_injured tot) (Qc_of_Z rides);
  fatality_rate ← py_truediv (total_killed tot) (Qc_of_Z rides);
  Some (Rate year rides (total tot) (total_injured tot) (total_killed tot)
             (casualty_rate * million) (injury_rate * million)
             (fatality_rate * million) (bool_decide (year = 2025%Z))).

(** [for year in years: if year in yearly_totals and
      RIDERSHIP_DATA[year] > 0: casualty_rates.append(...)]; a missing
    ridership key is a [KeyError], a zero divisor a
    [ZeroDivisionError]. *)
Fixpoint rates_loop (ridership : gmap Z Z) (yearly_totals : gmap Z totals)
    (years : list Z) : option (list rate) :=
  match years with
  | [] => Some []
  | year :: years' =>
      match yearly_totals !! year with
      | Some tot =>
          rides ← ridership !! year;
          if bool_decide (0 < rides)%Z
          then r ← rate_of year rides tot;
               rs ← rates_loop ridership yearly_totals years';
               Some (r :: rs)
          else rates_loop ridership yearly_totals years'
      | None => rates_loop ridership yearly_totals years'
      end
  end.

(** [sorted(RIDERSHIP_DATA.keys())] *)
Definition sorted_keys (ridership : gmap Z Z) : list Z :=
  merge_sort Z.le (elements (dom ridership)).

(** [calculate_casualty_rates], with the two tables it reads as
    arguments. *)
Definition casualty_rates_of (ridership : gmap Z Z)
    (bike_casualties : gmap string (gmap Z tally)) : option (list rate) :=
  rates_loop ridership (yearly_totals bike_casualties) (sorted_keys ridership).

Definition RIDERSHIP_DATA : gmap Z Z :=
  list_to_map
    [ (2012, 1611856); (2013, 323533); (2014, 9261909); (2015, 13797937);
      (2016, 16005658); (2017, 14481794); (2018, 12544736);
      (2019, 12346460); (2020, 13577322); (2021, 13690962);
      (2022, 14621312); (2023, 17466861); (2024, 21064730);
      (2025, 20783683) ]%Z.

Definition by_year (l : list (Z * (Z * Z))) : gmap Z tally :=
  list_to_map ((λ e, (e.1, Tally (Qc_of_Z e.2.1) (Qc_of_Z e.2.2))) <$> l).

(** [get_bike_casualty_data_by_year()] *)
Definition get_bike_casualty_data_by_year : gmap string (gmap Z tally) :=
  list_to_map
    [ ("Traditional Bicycle"%string,
       by_year [ (2012, (0, 0)); (2013, (2, 0)); (2014, (0, 0));
                 (2015, (1, 0)); (2016, (39, 0)); (2017, (79, 4));
                 (2018, (88, 0)); (2019, (96, 3)); (2020, (187, 0));
                 (2021, (194, 0)); (2022, (228, 3)); (2023, (264, 0));
                 (2024, (298, 2)); (2025, (243, 2)) ]%Z);
      ("E-Bike"%string,
       by_year [ (2015, (0, 0)); (2016, (188, 0)); (2017, (186, 0));
                 (2018, (123, 0)); (2019, (132, 0)); (2020, (62, 0));
                 (2021, (165, 3)); (2022, (209, 2)); (2023, (205, 3));
                 (2024, (166, 0)); (2025, (125, 3)) ]%Z);
      ("E-Scooter"%string,
       by_year [ (2019, (53, 0)); (2020, (71, 2)); (2021, (100, 0));
                 (2022, (117, 1)); (2023, (118, 0)); (2024, (99, 1));
                 (2025, (53, 0)) ]%Z) ].

Definition calculate_casualty_rates : option (list rate) :=
  casualty_rates_of RIDERSHIP_DATA get_bike_casualty_data_by_year.

End Rates.

(** What [calculate_casualty_rates] promises of an entry. *)
Definition rate_entry_ok (ridership : gmap Z Z)
    (bc : gmap string (gmap Z tally)) (r : Rates.rate) : Prop :=
  ridership !! Rates.r_year r = Some (Rates.r_rides r) ∧
  (0 < Rates.r_rides r)%Z ∧
  Rates.r_injured r = map_sum (λ m, injured (tally_of m (Rates.r_year r))) bc ∧
  Rates.r_killed r = map_sum (λ m, killed (tally_of m (Rates.r_year r))) bc ∧
  Rates.r_casualties r = Rates.r_injured r + Rates.r_killed r ∧
  Rates.casualty_rate_per_million r
    = Rates.r_casualties r / Qc_of_Z (Rates.r_rides r) * Rates.million ∧
  Rates.casualty_rate_per_million r
    = Rates.injury_rate_per_million r + Rates.fatality_rate_per_million r ∧
  Rates.is_projected r = bool_decide (Rates.r_year r = 2025%Z).

(** ** [yearly_ridership.py] *)

Module Ridership.

Definition is_leap (y : Z) : bool :=
  ((y mod 4 =? 0) && negb (y mod 100 =? 0) || (y mod 400 =? 0))%Z.

Definition days_in_months (y : Z) : list Z :=
  [ 31; if is_leap y then 29 else 28; 31; 30; 31; 30; 31; 31; 30; 31; 30; 31 ]%Z.

(** [date(y, m, d).timetuple().tm_yday] *)
Definition tm_yday (y m d : Z) : Z :=
  (foldr Z.add 0 (take (Z.to_nat (m - 1)) (days_in_months y)) + d)%Z.

(** [project_2025_ridership]; [yearly_counts] is the frame of (year,
    counts) rows.  [None] is the [IndexError] of [.iloc[0]] on an empty
    selection.  The growth rate of 2022-2024 that the function also
    computes is only printed and is left out. *)
Definition project_2025_ridership (yearly_counts : list (Z * Z))
  : option (Qc * Z) :=
  ridership_2025_ytd ←
    snd <$> head (filter (λ row : Z * Z, row.1 = 2025%Z) yearly_counts);
  let day_of_year := tm_yday 2025 8 24 in
  let days_remaining := (365 - day_of_year)%Z in
  daily_rate_2025 ←
    py_truediv (Qc_of_Z ridership_2025_ytd) (Qc_of_Z day_of_year);
  let seasonal_factor := Qc_of_Z 85 / Qc_of_Z 100 in
  let projection_seasonal :=
    Qc_of_Z ridership_2025_ytd
    + daily_rate_2025 * Qc_of_Z days_remaining * seasonal_factor in
  Some (projection_seasonal, ridership_2025_ytd).

End Ridership.


(** ** Infinite cells

    [pd.to_numeric] also gives the two infinities, for a cell that reads
    inf or -inf or holds a literal beyond the float range.  [numeric]
    above is a cell that is finite or missing; [number] is any cell.
    [int(inf)] raises [OverflowError], which the [except (ValueError,
    TypeError)] of the loops does not catch: it leaves the loop and the
    function.  The definitions of this module are the loops again on such
    rows, with the exception that ends a run made explicit. *)

Inductive number : Type :=
| Num (x : numeric)
| Inf (negative : bool).

Inductive exn : Type := ValueError | OverflowError | ZeroDivisionError.

(** The outcome of a piece of code: a value, or the exception raised. *)
Inductive run (A : Type) : Type :=
| Return (a : A)
| Raise (e : exn).

Arguments Return {A} a.
Arguments Raise {A} e.

#[global] Instance run_bind : MBind run :=
  λ A B f m, match m with Return a => f a | Raise e => Raise e end.

(** An [option] result of the definitions above, whose [None] is the
    exception [e]. *)
Definition or_raise {A : Type} (e : exn) (o : option A) : run A :=
  match o with Some a => Return a | None => Raise e end.

Module Wide.

(** Python truthiness: an infinity is true. *)
Definition truthy (x : number) : bool :=
  match x with
  | Num (Fin q) => negb (bool_decide (q = 0))
  | Num NaN => true
  | Inf _ => true
  end.

(** [x or 0] *)
Definition or_zero (x : number) : number :=
  if truthy x then x else Num (Fin 0).

(** [int(x)]: [ValueError] for NaN, [OverflowError] for an infinity. *)
Definition py_int (x : number) : run Z :=
  match x with
  | Num (Fin q) => Return (Z.quot (Qnum q) (Zpos (Qden q)))
  | Num NaN => Raise ValueError
  | Inf _ => Raise OverflowError
  end.

(** [int(pd.to_numeric(cell, errors='coerce') or 0)] *)
Definition safe_count (cell : number) : run Z := py_int (or_zero cell).

Record row : Type := Row {
  NUMBER_OF_PEDESTRIANS_INJURED : number;
  NUMBER_OF_PEDESTRIANS_KILLED : number;
  YEAR : number;
  VEHICLE_TYPE_CODE_1 : option string;
  VEHICLE_TYPE_CODE_2 : option string;
  VEHICLE_TYPE_CODE_3 : option string;
  VEHICLE_TYPE_CODE_4 : option string;
  VEHICLE_TYPE_CODE_5 : option string
}.

Definition vehicle_cols (r : row) : list (option string) :=
  [ VEHICLE_TYPE_CODE_1 r; VEHICLE_TYPE_CODE_2 r; VEHICLE_TYPE_CODE_3 r;
    VEHICLE_TYPE_CODE_4 r; VEHICLE_TYPE_CODE_5 r ].

(** [for _, row in df.iterrows(): body]; an exception the body raises
    leaves the loop. *)
Fixpoint iterrows {T : Type} (body : T → row → run T) (acc : T)
    (df : list row) : run T :=
  match df with
  | [] => Return acc
  | r :: df' => acc' ← body acc r; iterrows body acc' df'
  end.

(** The statements of the [try] block of the yearly and of the bike loop,
    in their order: the first that raises decides. *)
Definition convert (r : row) : run (Z * Z * Z) :=
  injured ← safe_count (NUMBER_OF_PEDESTRIANS_INJURED r);
  killed ← safe_count (NUMBER_OF_PEDESTRIANS_KILLED r);
  year ← py_int (YEAR r);
  Return (injured, killed, year).

Definition vehicles_in_collision (r : row) : list string :=
  omap Yearly.category_of (vehicle_cols r).

Definition bikes_in_collision (r : row) : list string :=
  omap Bike.bike_of (vehicle_cols r).

Definition labels_in_collision (r : row) : list string :=
  omap Flat.label_of (vehicle_cols r).

(** The body of the loop of [extract_yearly_data_by_category]:
    [except (ValueError, TypeError): continue]; any other exception goes
    through. *)
Definition yearly_body (factor : Qc)
    (yearly_data : gmap string (gmap Z tally)) (r : row)
  : run (gmap string (gmap Z tally)) :=
  match convert r with
  | Raise ValueError => Return yearly_data
  | Raise e => Raise e
  | Return (injured, killed, year) =>
      let injured := Yearly.scaled factor year injured in
      let killed := Yearly.scaled factor year killed in
      match vehicles_in_collision r with
      | [] => Return yearly_data
      | vehicles =>
          or_raise ZeroDivisionError
            (Yearly.distribute yearly_data vehicles year injured killed)
      end
  end.

Definition extract_yearly_data_by_category (days_in_2025 : Z)
    (df : list row) : run (gmap string (gmap Z tally)) :=
  factor ← or_raise ZeroDivisionError (projection_factor days_in_2025);
  iterrows (yearly_body factor) ∅ df.

(** The body of the loop of [extract_bike_data_by_year]. *)
Definition bike_body (factor : Qc)
    (yearly_data : gmap string (gmap Z tally)) (r : row)
  : run (gmap string (gmap Z tally)) :=
  match convert r with
  | Raise ValueError => Return yearly_data
  | Raise e => Raise e
  | Return (injured, killed, year) =>
      if bool_decide (year < 2020)%Z then Return yearly_data else
      let injured := Yearly.scaled factor year injured in
      let killed := Yearly.scaled factor year killed in
      match bikes_in_collision r with
      | [] => Return yearly_data
      | bikes =>
          or_raise ZeroDivisionError
            (Yearly.distribute yearly_data bikes year injured killed)
      end
  end.

Definition extract_bike_data_by_year (days_in_2025 : Z) (df : list row)
  : run (gmap string (gmap Z tally)) :=
  factor ← or_raise ZeroDivisionError (projection_factor days_in_2025);
  iterrows (bike_body factor) ∅ df.

(** The [try] block of the two flat loops:
    [except (ValueError, TypeError): injured = killed = 0]. *)
Definition flat_convert (r : row) : run (Z * Z) :=
  match (injured ← safe_count (NUMBER_OF_PEDESTRIANS_INJURED r);
         killed ← safe_count (NUMBER_OF_PEDESTRIANS_KILLED r);
         Return (injured, killed)) with
  | Raise ValueError => Return (0%Z, 0%Z)
  | outcome => outcome
  end.

(** The body of the loop of [extract_vehicle_types]. *)
Definition body_vehicle_types (vehicle_casualties : gmap string tally)
    (r : row) : run (gmap string tally) :=
  '(injured, killed) ← flat_convert r;
  match labels_in_collision r with
  | [] => Return vehicle_casualties
  | vehicles =>
      or_raise ZeroDivisionError
        (per_injured ← py_truediv (Qc_of_Z injured) (len vehicles);
         per_killed ← py_truediv (Qc_of_Z killed) (len vehicles);
         Some (foldl (λ t vehicle, bump t vehicle per_injured per_killed)
                     vehicle_casualties vehicles))
  end.

Definition extract_vehicle_types (df : list row) : run (gmap string tally) :=
  iterrows body_vehicle_types ∅ df.

(** The body of the loop of [extract_and_categorize_vehicles]. *)
Definition body_categories (category_casualties : gmap string tally)
    (r : row) : run (gmap string tally) :=
  '(injured, killed) ← flat_convert r;
  match vehicles_in_collision r with
  | [] => Return category_casualties
  | vehicles =>
      let unique_vehicles := dict_fromkeys vehicles in
      or_raise ZeroDivisionError
        (per_injured ← py_truediv (Qc_of_Z injured) (len unique_vehicles);
         per_killed ← py_truediv (Qc_of_Z killed) (len unique_vehicles);
         Some (foldl (λ t category, bump t category per_injured per_killed)
                     category_casualties unique_vehicles))
  end.

Definition extract_and_categorize_vehicles (df : list row)
  : run (gmap string tally) :=
  iterrows body_categories ∅ df.

End Wide.

(** A row whose numeric cells are finite or missing, among all rows. *)
Definition widen (r : row) : Wide.row :=
  Wide.Row (Num (NUMBER_OF_PEDESTRIANS_INJURED r))
           (Num (NUMBER_OF_PEDESTRIANS_KILLED r)) (Num (YEAR r))
           (VEHICLE_TYPE_CODE_1 r) (VEHICLE_TYPE_CODE_2 r)
           (VEHICLE_TYPE_CODE_3 r) (VEHICLE_TYPE_CODE_4 r)
           (VEHICLE_TYPE_CODE_5 r).

(** An infinite cell read as a missing one. *)
Definition as_missing (x : number) : numeric :=
  match x with
  | Num x => x
  | Inf _ => NaN
  end.

(** The row with every infinite cell read as a missing one: the loops
    treat the two alike unless a conversion reaches the infinite cell. *)
Definition narrow (r : Wide.row) : row :=
  Row (as_missing (Wide.NUMBER_OF_PEDESTRIANS_INJURED r))
      (as_missing (Wide.NUMBER_OF_PEDESTRIANS_KILLED r))
      (as_missing (Wide.YEAR r))
      (Wide.VEHICLE_TYPE_CODE_1 r) (Wide.VEHICLE_TYPE_CODE_2 r)
      (Wide.VEHICLE_TYPE_CODE_3 r) (Wide.VEHICLE_TYPE_CODE_4 r)
      (Wide.VEHICLE_TYPE_CODE_5 r).

(** The conversions of the yearly (and bike) loop reach an infinite
    cell. *)
Definition overflows (r : Wide.row) : Prop :=
  Wide.convert r = Raise OverflowError.

(** The conversions of the flat loops reach an infinite cell. *)
Definition flat_overflows (r : Wide.row) : Prop :=
  Wide.flat_convert r = Raise OverflowError.

(** What one row adds to the tally of a category in a year, by the body of
    the yearly loop on any row. *)
Definition wide_contribution (factor : Qc) (r : Wide.row)
    (category : string) (year : Z) : tally :=
  match Wide.convert r with
  | Return (injured, killed, y) =>
      let unique_vehicles := dict_fromkeys (Wide.vehicles_in_collision r) in
      if bool_decide (category ∈ unique_vehicles ∧ year = y)
      then Tally (Yearly.scaled factor y injured / len unique_vehicles)
                 (Yearly.scaled factor y killed / len unique_vehicles)
      else zero_tally
  | Raise _ => zero_tally
  end.

(** Seven injured of which the cell reads inf, one killed, and no usable
    label. *)
Definition infinite_unlabelled_row : Wide.row :=
  Wide.Row (Inf false) (Num (Fin (Qc_of_Z 1))) (Num (Fin (Qc_of_Z 2021)))
           None (Some "   "%string) (Some " unKnown "%string)
           (Some "NaN"%string) (Some ""%string).

(** A missing injured count before an infinite killed count. *)
Definition nan_then_inf_row : Wide.row :=
  Wide.Row (Num NaN) (Inf false) (Num (Fin (Qc_of_Z 2021)))
           (Some "Taxi"%string) None None None None.

(** An infinite killed count after a finite injured count. *)
Definition inf_killed_row : Wide.row :=
  Wide.Row (Num (Fin (Qc_of_Z 3))) (Inf false) (Num (Fin (Qc_of_Z 2021)))
           (Some "Taxi"%string) None None None None.

(** Four injured and two killed by a sedan and a bicycle in 2025. *)
Definition projected_row : row := mk_row 4 2 2025 ["Sedan"; "Bike"].

(** A cell that holds a finite number, a missing one, an infinite one. *)
Definition finite (x : number) : Prop := ∃ q, x = Num (Fin q).
Definition missing (x : number) : Prop := x = Num NaN.
Definition infinite (x : number) : Prop := ∃ negative, x = Inf negative.

(** The first cell that is not finite, in the order of the conversions of
    the yearly and of the bike loop, is a missing one. *)
Definition missing_first (r : Wide.row) : Prop :=
  missing (Wide.NUMBER_OF_PEDESTRIANS_INJURED r)
  ∨ (finite (Wide.NUMBER_OF_PEDESTRIANS_INJURED r)
     ∧ missing (Wide.NUMBER_OF_PEDESTRIANS_KILLED r))
  ∨ (finite (Wide.NUMBER_OF_PEDESTRIANS_INJURED r)
     ∧ finite (Wide.NUMBER_OF_PEDESTRIANS_KILLED r)
     ∧ missing (Wide.YEAR r)).

(** The first cell that is not finite is an infinite one. *)
Definition infinite_first (r : Wide.row) : Prop :=
  infinite (Wide.NUMBER_OF_PEDESTRIANS_INJURED r)
  ∨ (finite (Wide.NUMBER_OF_PEDESTRIANS_INJURED r)
     ∧ infinite (Wide.NUMBER_OF_PEDESTRIANS_KILLED r))
  ∨ (finite (Wide.NUMBER_OF_PEDESTRIANS_INJURED r)
     ∧ finite (Wide.NUMBER_OF_PEDESTRIANS_KILLED r)
     ∧ infinite (Wide.YEAR r)).

(** The same for the two count cells, which are all the flat loops
    convert. *)
Definition missing_count_first (r : Wide.row) : Prop :=
  missing (Wide.NUMBER_OF_PEDESTRIANS_INJURED r)
  ∨ (finite (Wide.NUMBER_OF_PEDESTRIANS_INJURED r)
     ∧ missing (Wide.NUMBER_OF_PEDESTRIANS_KILLED r)).

Definition infinite_count_first (r : Wide.row) : Prop :=
  infinite (Wide.NUMBER_OF_PEDESTRIANS_INJURED r)
  ∨ (finite (Wide.NUMBER_OF_PEDESTRIANS_INJURED r)
     ∧ infinite (Wide.NUMBER_OF_PEDESTRIANS_KILLED r)).

Example strip_ex : PyStr.strip "  E-Bike  " = "E-Bike"%string.
Proof. reflexivity. Qed.

Example classify_ex : classify "SEDAN" = "Passenger Vehicles"%string.
Proof. vm_compute. reflexivity. Qed.

Example classify_ex2 : classify "Car" = Other_Unknown.
Proof. vm_compute. reflexivity. Qed.

Example valid_ex : valid_vehicle (Some " unKnown ") = false.
Proof. vm_compute. reflexivity. Qed.

Example safe_ex : safe_count (Fin (Q2Qc (7 # 2))) = Some 3%Z.
Proof. vm_compute. reflexivity. Qed.

(** ** Lemmas on the conversions *)

Lemma Qc_of_Z_num (z : Z) : Qnum (Qc_of_Z z) = z.
Proof. reflexivity. Qed.

Lemma py_int_of_Z (z : Z) : py_int (Fin (Qc_of_Z z)) = Some z.
Proof. simpl. f_equal. apply Z.quot_1_r. Qed.

Lemma Qc_of_Z_eq_0 (z : Z) : Qc_of_Z z = 0 → z = 0%Z.
Proof. intros E. apply (f_equal (λ q : Qc, Qnum q)) in E. exact E. Qed.

Lemma safe_count_of_Z (z : Z) : safe_count (Fin (Qc_of_Z z)) = Some z.
Proof.
  unfold safe_count, or_zero, truthy.
  case_bool_decide as E; simpl.
  - apply Qc_of_Z_eq_0 in E. subst z. reflexivity.
  - f_equal. apply Z.quot_1_r.
Qed.

Lemma safe_count_NaN : safe_count NaN = None.
Proof. reflexivity. Qed.

Lemma convert_mk_row (i k y : Z) (labels : list string) :
  Yearly.convert (mk_row i k y labels) = Some (i, k, y).
Proof.
  unfold Yearly.convert, mk_row; simpl NUMBER_OF_PEDESTRIANS_INJURED;
    simpl NUMBER_OF_PEDESTRIANS_KILLED; simpl YEAR.
  rewrite !safe_count_of_Z, py_int_of_Z. reflexivity.
Qed.

Lemma len_ne_0 (l : list string) : l ≠ [] → len l ≠ 0.
Proof.
  intros Hl E. apply Qc_of_Z_eq_0 in E. destruct l; [done | simpl in E; lia].
Qed.

Lemma py_truediv_len (a : Qc) (l : list string) :
  l ≠ [] → py_truediv a (len l) = Some (a / len l).
Proof.
  intros Hl. unfold py_truediv. rewrite bool_decide_eq_false_2; [done |].
  by apply len_ne_0.
Qed.

(** ** Lemmas on [dict.fromkeys] *)

Section fromkeys.

Local Abbreviation step :=
  (λ (keys : list string) (x : string),
     if bool_decide (x ∈ keys) then keys else keys ++ [x]).

Lemma fromkeys_snoc (l : list string) (x : string) :
  dict_fromkeys (l ++ [x]) = step (dict_fromkeys l) x.
Proof. unfold dict_fromkeys. by rewrite foldl_app. Qed.

(** Starting from keys already seen only filters the later ones. *)
Lemma fromkeys_from (keys l : list string) :
  foldl step keys l = keys ++ filter (λ y, y ∉ keys) (dict_fromkeys l).
Proof.
  induction l as [| x l IH] using rev_ind.
  - simpl. by rewrite app_nil_r.
  - rewrite fromkeys_snoc, foldl_app. simpl. rewrite IH.
    destruct (decide (x ∈ dict_fromkeys l)) as [Hd | Hd].
    + rewrite (bool_decide_eq_true_2 (x ∈ dict_fromkeys l)) by done.
      rewrite bool_decide_eq_true_2; [done |].
      destruct (decide (x ∈ keys)); [set_solver |].
      apply elem_of_app. right. by apply list_elem_of_filter.
    + rewrite (bool_decide_eq_false_2 (x ∈ dict_fromkeys l)) by done.
      rewrite filter_app.
      destruct (decide (x ∈ keys)) as [Hk | Hk].
      * rewrite bool_decide_eq_true_2 by set_solver.
        rewrite filter_cons_False by (simpl; tauto).
        by rewrite filter_nil, app_nil_r.
      * rewrite bool_decide_eq_false_2.
        -- rewrite filter_cons_True by done. by rewrite filter_nil, app_assoc.
        -- rewrite elem_of_app, list_elem_of_filter. tauto.
Qed.

(** First-seen order: the head stays in front, its later copies go. *)
Lemma dict_fromkeys_cons (x : string) (l : list string) :
  dict_fromkeys (x :: l) = x :: filter (λ y, y ≠ x) (dict_fromkeys l).
Proof.
  unfold dict_fromkeys at 1. simpl. rewrite fromkeys_from. simpl. f_equal.
  apply list_filter_iff. intros y. rewrite list_elem_of_singleton. tauto.
Qed.

Lemma dict_fromkeys_nil : dict_fromkeys [] = [].
Proof. reflexivity. Qed.

Lemma elem_of_dict_fromkeys (x : string) (l : list string) :
  x ∈ dict_fromkeys l ↔ x ∈ l.
Proof.
  induction l as [| a l IH].
  - done.
  - rewrite dict_fromkeys_cons, !elem_of_cons, list_elem_of_filter, IH.
    destruct (decide (x = a)); tauto.
Qed.

Lemma NoDup_dict_fromkeys (l : list string) : NoDup (dict_fromkeys l).
Proof.
  induction l as [| a l IH].
  - constructor.
  - rewrite dict_fromkeys_cons. constructor.
    + rewrite list_elem_of_filter. tauto.
    + by apply NoDup_filter.
Qed.

Lemma dict_fromkeys_ne_nil (l : list string) :
  l ≠ [] → dict_fromkeys l ≠ [].
Proof. destruct l; [done |]. by rewrite dict_fromkeys_cons. Qed.

Lemma dict_fromkeys_length (l : list string) :
  (length (dict_fromkeys l) ≤ length l)%nat.
Proof.
  induction l as [| a l IH]; [done |].
  rewrite dict_fromkeys_cons. simpl.
  pose proof (length_filter (λ y, y ≠ a) (dict_fromkeys l)). lia.
Qed.

End fromkeys.

(** ** Lemmas on the accumulation *)

Lemma times_0 (q : Qc) : times 0 q = 0.
Proof. unfold times. change (Z.of_nat 0) with 0%Z. rewrite Z2Qc_inj_0. ring. Qed.

Lemma times_S (n : nat) (q : Qc) : times (S n) q = q + times n q.
Proof.
  unfold times. rewrite Nat2Z.inj_succ, <- Z.add_1_r, Z2Qc_inj_add.
  rewrite Z2Qc_inj_1. ring.
Qed.

Lemma times_1 (q : Qc) : times 1 q = q.
Proof. rewrite times_S, times_0. ring. Qed.


Lemma times_len_div (l : list string) (q : Qc) :
  l ≠ [] → times (length l) (q / len l) = q.
Proof.
  intros Hl. unfold times. fold (len l). field. by apply len_ne_0.
Qed.

Lemma add_tally_0 (c : tally) : add_tally c 0 0 = c.
Proof. destruct c as [i k]. unfold add_tally; simpl. f_equal; ring. Qed.

Lemma add_tally_add (c : tally) (a b a' b' : Qc) :
  add_tally (add_tally c a b) a' b' = add_tally c (a + a') (b + b').
Proof. unfold add_tally; simpl. f_equal; ring. Qed.

Section accumulate.
Context `{Countable K}.
Implicit Types (t : gmap K tally) (k : K) (l : list K).

Lemma occurrences_cons k a l :
  occurrences k (a :: l) =
    ((if decide (a = k) then 1 else 0) + occurrences k l)%nat.
Proof. unfold occurrences. rewrite filter_cons. by destruct (decide (a = k)). Qed.

Lemma occurrences_not_elem k l : k ∉ l → occurrences k l = 0%nat.
Proof.
  induction l as [| a l IH]; [done |].
  rewrite not_elem_of_cons, occurrences_cons. intros [Hne Hl].
  rewrite decide_False by done. by rewrite IH.
Qed.

Lemma occurrences_NoDup k l : NoDup l → k ∈ l → occurrences k l = 1%nat.
Proof.
  induction 1 as [| a l Ha Hl IH]; [by rewrite elem_of_nil |].
  rewrite elem_of_cons, occurrences_cons. intros [-> | Hk].
  - rewrite decide_True by done. by rewrite occurrences_not_elem.
  - rewrite decide_False by (intros ->; done). by rewrite IH.
Qed.




Lemma tally_of_bump t k k' di dk :
  tally_of (bump t k di dk) k' =
    if decide (k = k') then add_tally (tally_of t k) di dk else tally_of t k'.
Proof.
  unfold tally_of, bump. destruct (decide (k = k')) as [-> | Hne].
  - by rewrite lookup_insert_eq.
  - by rewrite lookup_insert_ne.
Qed.



End accumulate.


(** The nested table, read through [tally_at]. *)

Lemma tally_at_bump_year (t : gmap string (gmap Z tally)) c y di dk c' y' :
  tally_at (bump_year t c y di dk) c' y' =
    if decide (c = c' ∧ y = y') then add_tally (tally_at t c y) di dk
    else tally_at t c' y'.
Proof.
  unfold tally_at, bump_year. destruct (decide (c = c')) as [-> | Hc].
  - rewrite lookup_insert_eq. simpl.
    pose proof (tally_of_bump (default ∅ (t !! c')) y y' di dk) as E.
    unfold tally_of in E. rewrite E.
    destruct (decide (y = y')); [rewrite decide_True by done|rewrite decide_False by tauto]; done.
  - rewrite lookup_insert_ne by done. rewrite decide_False by tauto. done.
Qed.

Lemma tally_at_foldl_bump_year (t : gmap string (gmap Z tally)) l y di dk c y' :
  tally_at (foldl (λ t c, bump_year t c y di dk) t l) c y' =
    if decide (y = y')
    then add_tally (tally_at t c y)
           (times (occurrences c l) di) (times (occurrences c l) dk)
    else tally_at t c y'.
Proof.
  revert t. induction l as [| a l IH]; intros t; simpl.
  - change (occurrences c []) with 0%nat. rewrite !times_0, add_tally_0.
    by destruct (decide (y = y')) as [-> |].
  - rewrite IH. destruct (decide (y = y')) as [<- | Hy].
    + rewrite tally_at_bump_year, occurrences_cons.
      destruct (decide (a = c)) as [-> | Hne].
      * rewrite decide_True by done. rewrite add_tally_add.
        simpl Nat.add. by rewrite !times_S.
      * rewrite decide_False by tauto. done.
    + rewrite tally_at_bump_year. rewrite decide_False by tauto. done.
Qed.

Lemma dom_foldl_bump_year (t : gmap string (gmap Z tally)) l y di dk :
  dom (foldl (λ t c, bump_year t c y di dk) t l) = dom t ∪ list_to_set l.
Proof.
  revert t. induction l as [| a l IH]; intros t; simpl.
  - set_solver.
  - rewrite IH. unfold bump_year. rewrite dom_insert_L. set_solver.
Qed.

(** ** Lemmas on the loop bodies *)

Lemma category_of_label_of (vehicle : option string) :
  Yearly.category_of vehicle = classify <$> Flat.label_of vehicle.
Proof.
  unfold Yearly.category_of, Flat.label_of.
  destruct (valid_vehicle vehicle); [by destruct vehicle | done].
Qed.

Lemma vehicles_in_collision_labels (r : row) :
  Yearly.vehicles_in_collision r = classify <$> labels_in_collision r.
Proof.
  unfold Yearly.vehicles_in_collision, labels_in_collision.
  induction (vehicle_cols r) as [| v l IH]; [done |].
  cbn [omap list_omap]. rewrite category_of_label_of, IH.
  by destruct (Flat.label_of v).
Qed.


Lemma scaled_other_year (factor : Qc) (year x : Z) :
  year ≠ 2025%Z → Yearly.scaled factor year x = Qc_of_Z x.
Proof. intros Hy. unfold Yearly.scaled. by rewrite bool_decide_eq_false_2. Qed.

Lemma scaled_factor_1 (year x : Z) : Yearly.scaled 1 year x = Qc_of_Z x.
Proof. unfold Yearly.scaled. case_bool_decide; [ring | done]. Qed.

Lemma distribute_Some (t : gmap string (gmap Z tally)) vehicles y i k :
  vehicles ≠ [] →
  Yearly.distribute t vehicles y i k =
    Some (foldl (λ t c, bump_year t c y
                          (i / len (dict_fromkeys vehicles))
                          (k / len (dict_fromkeys vehicles)))
                t (dict_fromkeys vehicles)).
Proof.
  intros Hv. unfold Yearly.distribute.
  rewrite !py_truediv_len by (by apply dict_fromkeys_ne_nil). done.
Qed.

Lemma yearly_body_rows (factor : Qc) (t : gmap string (gmap Z tally)) r i k y :
  Yearly.convert r = Some (i, k, y) →
  Yearly.vehicles_in_collision r ≠ [] →
  Yearly.body factor t r =
    Yearly.distribute t (Yearly.vehicles_in_collision r) y
      (Yearly.scaled factor y i) (Yearly.scaled factor y k).
Proof.
  intros Hc Hv. unfold Yearly.body. rewrite Hc.
  by destruct (Yearly.vehicles_in_collision r).
Qed.


Lemma body_vehicle_types_Some (t : gmap string tally) r :
  labels_in_collision r ≠ [] →
  Flat.body_vehicle_types t r =
    Some (foldl (λ t v, bump t v
                   (Qc_of_Z (Flat.convert r).1 / len (labels_in_collision r))
                   (Qc_of_Z (Flat.convert r).2 / len (labels_in_collision r)))
                t (labels_in_collision r)).
Proof.
  intros Hl. unfold Flat.body_vehicle_types.
  destruct (Flat.convert r) as [i k]. fold (labels_in_collision r).
  destruct (labels_in_collision r) as [| v l] eqn:E; [done |].
  rewrite !py_truediv_len by done. done.
Qed.

Lemma body_categories_Some (t : gmap string tally) r :
  Yearly.vehicles_in_collision r ≠ [] →
  Flat.body_categories t r =
    let u := dict_fromkeys (Yearly.vehicles_in_collision r) in
    Some (foldl (λ t c, bump t c (Qc_of_Z (Flat.convert r).1 / len u)
                                 (Qc_of_Z (Flat.convert r).2 / len u)) t u).
Proof.
  intros Hl. unfold Flat.body_categories.
  destruct (Flat.convert r) as [i k].
  destruct (Yearly.vehicles_in_collision r) as [| v l] eqn:E; [done |].
  rewrite !py_truediv_len by (by apply dict_fromkeys_ne_nil). done.
Qed.




(** ** The claims *)

(** C1, the claim as stated fails for a record of the projected year: the
    yearly fold multiplies the counts of a 2025 record by the projection
    factor before it splits them, so with 146 days of 2025 seen (factor
    365 / 146 = 5 / 2) the shares of a record with 4 injured and 2 killed
    sum to 10 and 5. *)
Lemma projected_record_not_conserved :
  Yearly.convert projected_row = Some (4, 2, 2025)%Z ∧
  dict_fromkeys (Yearly.vehicles_in_collision projected_row)
    = ["Passenger Vehicles"; "Bicycles/Scooters"]%string ∧
  ∃ t', Yearly.extract_yearly_data_by_category 146 [projected_row] = Some t' ∧
    sumQ ((λ c, injured (tally_at t' c 2025) - injured (tally_at ∅ c 2025))
            <$> dict_fromkeys (Yearly.vehicles_in_collision projected_row))
      = Qc_of_Z 10 ∧
    sumQ ((λ c, killed (tally_at t' c 2025) - killed (tally_at ∅ c 2025))
            <$> dict_fromkeys (Yearly.vehicles_in_collision projected_row))
      = Qc_of_Z 5 ∧
    Qc_of_Z 10 ≠ Qc_of_Z 4 ∧ Qc_of_Z 5 ≠ Qc_of_Z 2.
Proof.
  split; [vm_compute; reflexivity |].
  split; [vm_compute; reflexivity |].
  eexists. split; [vm_compute; reflexivity |].
  split; [apply Qc_is_canon; vm_compute; reflexivity |].
  split; [apply Qc_is_canon; vm_compute; reflexivity |].
  split; intros E; vm_compute in E; discriminate E.
Qed.



(** Duplicate-free lists: each listed key is bumped once. *)
Lemma tally_at_foldl_NoDup (t : gmap string (gmap Z tally)) u y di dk c y' :
  NoDup u →
  tally_at (foldl (λ t c, bump_year t c y di dk) t u) c y' =
    if decide (c ∈ u ∧ y' = y) then add_tally (tally_at t c y) di dk
    else tally_at t c y'.
Proof.
  intros Hu. rewrite tally_at_foldl_bump_year.
  destruct (decide (y = y')) as [<- | Hy].
  - destruct (decide (c ∈ u)) as [Hc | Hc].
    + rewrite decide_True by done.
      by rewrite occurrences_NoDup, !times_1.
    + rewrite decide_False by tauto.
      by rewrite occurrences_not_elem, !times_0, add_tally_0.
  - rewrite decide_False; [done |]. intros [_ ->]. done.
Qed.



(** Equality of tallies, from the rational values of the two fields. *)
Lemma tally_ext (c d : tally) :
  (injured c == injured d)%Q → (killed c == killed d)%Q → c = d.
Proof.
  destruct c, d; simpl. intros Ei Ek.
  f_equal; by apply Qc_is_canon.
Qed.

Ltac tally_compute := apply tally_ext; vm_compute; reflexivity.




(** ** The bike script *)

Lemma projection_factor_Some (days_in_2025 : Z) :
  ∃ factor, projection_factor days_in_2025 = Some factor.
Proof.
  unfold projection_factor, py_truediv. case_bool_decide as Hd; [| eauto].
  rewrite bool_decide_eq_false_2; [eauto |].
  intros E. apply Qc_of_Z_eq_0 in E. lia.
Qed.

Lemma bike_body_rows (factor : Qc) (t : gmap string (gmap Z tally)) r i k y :
  Yearly.convert r = Some (i, k, y) →
  (2020 ≤ y)%Z →
  Bike.bikes_in_collision r ≠ [] →
  Bike.body factor t r =
    Yearly.distribute t (Bike.bikes_in_collision r) y
      (Yearly.scaled factor y i) (Yearly.scaled factor y k).
Proof.
  intros Hc Hy Hv. unfold Bike.body. rewrite Hc.
  rewrite bool_decide_eq_false_2 by lia.
  by destruct (Bike.bikes_in_collision r).
Qed.

(** What one row of a year from 2020 on does to the bike table. *)
Lemma bike_body_tally (factor : Qc) (t : gmap string (gmap Z tally)) r i k y u :
  Yearly.convert r = Some (i, k, y) →
  (2020 ≤ y)%Z →
  dict_fromkeys (Bike.bikes_in_collision r) = u →
  u ≠ [] →
  ∃ t', Bike.body factor t r = Some t' ∧
    dom t' = dom t ∪ list_to_set u ∧
    ∀ c y', tally_at t' c y' =
      if decide (c ∈ u ∧ y' = y)
      then add_tally (tally_at t c y)
             (Yearly.scaled factor y i / len u)
             (Yearly.scaled factor y k / len u)
      else tally_at t c y'.
Proof.
  intros Hc Hy <- Hu.
  assert (Hv : Bike.bikes_in_collision r ≠ [])
    by (intros E; by rewrite E in Hu).
  eexists. split.
  { rewrite (bike_body_rows _ _ _ _ _ _ Hc Hy Hv). by apply distribute_Some. }
  split; [apply dom_foldl_bump_year |].
  intros c y'. apply tally_at_foldl_NoDup, NoDup_dict_fromkeys.
Qed.

Ltac mem_true := apply (bool_decide_unpack _); vm_compute; exact I.
Ltac mem_false := apply (bool_decide_eq_false_1 _); vm_compute; reflexivity.

Lemma tally_at_empty (c : string) (y : Z) : tally_at ∅ c y = zero_tally.
Proof. unfold tally_at. by rewrite lookup_empty. Qed.

(** C3, the scenario as stated fails: in 2021 the fine-grained fold gives
    Traditional Bicycle 20.5 injured, not 17.5, and no Other/Unknown entry
    at all (the label Car is not in [bike_mapping] and is dropped, so the
    second record goes whole to Traditional Bicycle); and the same three
    records in 2019 leave the table empty. *)
Lemma bike_scenario_as_stated_fails :
  ¬ (∃ t, Bike.extract_bike_data_by_year 236 (scenario_rows 2021) = Some t ∧
          injured (tally_at t Traditional_Bicycle 2021)
            = Qc_of_Z 35 / Qc_of_Z 2 ∧
          injured (tally_at t Other_Unknown 2021) = Qc_of_Z 3 ∧
          injured (tally_at t E_Bike 2021) = Qc_of_Z 9 / Qc_of_Z 2) ∧
  Bike.extract_bike_data_by_year 236 (scenario_rows 2019) = Some ∅.
Proof.
  split; [| by vm_compute].
  intros (t & Ht & _ & Ho & _).
  assert (Hq : (t0 ← Bike.extract_bike_data_by_year 236 (scenario_rows 2021);
                Some (this (injured (tally_at t0 Other_Unknown 2021))))
               = Some 0%Q) by (vm_compute; reflexivity).
  rewrite Ht in Hq. simpl in Hq. rewrite Ho in Hq. vm_compute in Hq.
  discriminate Hq.
Qed.

(** C3, amended: in a year from 2020 on other than the projected 2025 the
    three records give Traditional Bicycle 20.5 injured (10 + 6 + 4.5),
    E-Bike 4.5, no Other/Unknown entry, killed all 0, and the total of 25
    injured is preserved. *)
Theorem bike_scenario (days_in_2025 y : Z) :
  (2020 ≤ y)%Z → y ≠ 2025%Z →
  ∃ t, Bike.extract_bike_data_by_year days_in_2025 (scenario_rows y) = Some t ∧
       tally_at t Traditional_Bicycle y = Tally (Qc_of_Z 41 / Qc_of_Z 2) 0 ∧
       tally_at t E_Bike y = Tally (Qc_of_Z 9 / Qc_of_Z 2) 0 ∧
       t !! Other_Unknown = None ∧
       dom t = {[ Traditional_Bicycle; E_Bike ]} ∧
       injured (tally_at t Traditional_Bicycle y) + injured (tally_at t E_Bike y)
         = Qc_of_Z 25.
Proof.
  intros Hy H25. destruct (projection_factor_Some days_in_2025) as [f Hf].
  unfold Bike.extract_bike_data_by_year. rewrite Hf.
  unfold Bike.fold_rows, scenario_rows. cbn [mbind option_bind iterrows].
  destruct (bike_body_tally f ∅ (mk_row 10 0 y ["Bike"]) 10 0 y
              [Traditional_Bicycle])
    as (t1 & Hb1 & Hd1 & Ht1);
    [apply convert_mk_row | done | by vm_compute | done |].
  destruct (bike_body_tally f t1 (mk_row 6 0 y ["Bike"; "Car"]) 6 0 y
              [Traditional_Bicycle])
    as (t2 & Hb2 & Hd2 & Ht2);
    [apply convert_mk_row | done | by vm_compute | done |].
  destruct (bike_body_tally f t2 (mk_row 9 0 y ["BIKE"; "E-BIKE"]) 9 0 y
              [Traditional_Bicycle; E_Bike])
    as (t3 & Hb3 & Hd3 & Ht3);
    [apply convert_mk_row | done | by vm_compute | done |].
  rewrite Hb1. cbn [mbind option_bind]. rewrite Hb2. cbn [mbind option_bind].
  rewrite Hb3. cbn [mbind option_bind].
  exists t3. split; [done |].
  assert (Hdom : dom t3 = {[ Traditional_Bicycle; E_Bike ]}).
  { rewrite Hd3, Hd2, Hd1, dom_empty_L. simpl. set_solver. }
  assert (HT : tally_at t3 Traditional_Bicycle y
               = Tally (Qc_of_Z 41 / Qc_of_Z 2) 0).
  { rewrite Ht3, decide_True by (split; [mem_true | done]).
    rewrite Ht2, decide_True by (split; [mem_true | done]).
    rewrite Ht1, decide_True by (split; [mem_true | done]).
    rewrite tally_at_empty, !scaled_other_year by done. tally_compute. }
  assert (HE : tally_at t3 E_Bike y = Tally (Qc_of_Z 9 / Qc_of_Z 2) 0).
  { rewrite Ht3, decide_True by (split; [mem_true | done]).
    rewrite Ht2, decide_False by (intros [Hm _]; revert Hm; mem_false).
    rewrite Ht1, decide_False by (intros [Hm _]; revert Hm; mem_false).
    rewrite tally_at_empty, !scaled_other_year by done. tally_compute. }
  split; [exact HT | split; [exact HE |]].
  split.
  { apply not_elem_of_dom. rewrite Hdom. set_solver. }
  split; [exact Hdom |].
  rewrite HT, HE. simpl. apply Qc_is_canon. vm_compute. reflexivity.
Qed.

Lemma bike_scenario_witness :
  (2020 ≤ 2021)%Z ∧ 2021 ≠ 2025%Z ∧
  ∃ t, Bike.extract_bike_data_by_year 236 (scenario_rows 2021) = Some t ∧
       tally_at t Traditional_Bicycle 2021 = Tally (Qc_of_Z 41 / Qc_of_Z 2) 0.
Proof.
  assert (Hy : (2020 ≤ 2021)%Z) by lia.
  assert (H25 : 2021 ≠ 2025%Z) by lia.
  split; [exact Hy | split; [exact H25 |]].
  destruct (bike_scenario 236 2021 Hy H25) as (t & Ht & HT & _).
  exists t. split; [exact Ht | exact HT].
Defined.

(** ** The classifiers *)

Lemma category_items_fallback :
  Forall (λ kv : string * string,
            kv.2 = Other_Unknown → kv.1 = "OTHER"%string ∨ kv.1 = "UNKNOWN"%string)
         vehicle_category_items.
Proof. apply (bool_decide_unpack _). vm_compute. exact I. Qed.

Lemma bike_items_no_fallback :
  Forall (λ kv : string * string, kv.2 ≠ Other_Unknown) bike_mapping_items.
Proof. apply (bool_decide_unpack _). vm_compute. exact I. Qed.

Lemma classify_fallback_iff (s : string) :
  classify s = Other_Unknown ↔
    get_vehicle_category_mapping !! s = None
    ∨ s = "OTHER"%string ∨ s = "UNKNOWN"%string.
Proof.
  unfold classify. split.
  - destruct (get_vehicle_category_mapping !! s) as [c |] eqn:E; [| by left].
    simpl. intros ->. right.
    apply elem_of_list_to_map_2 in E.
    pose proof category_items_fallback as HF.
    rewrite Forall_forall in HF. exact (HF _ E eq_refl).
  - intros [-> | [-> | ->]]; [done | by vm_compute | by vm_compute].
Qed.

(** C4, the claim as stated fails on both tables: OTHER is an explicit key
    of the coarse table and passes the sentinel test, yet it maps to the
    fallback category; and the fine-grained lookup has no fallback, the
    label Car gets no category at all. *)
Lemma fallback_exactly_off_table_fails :
  ¬ (∀ s, valid_vehicle (Some s) = true →
          (classify (PyStr.strip s) = Other_Unknown ↔
           get_vehicle_category_mapping !! PyStr.strip s = None)) ∧
  ¬ (∀ s, valid_vehicle (Some s) = true →
          ∃ c, Bike.bike_of (Some s) = Some c ∧
               (c = Other_Unknown ↔ bike_mapping !! PyStr.strip s = None)).
Proof.
  split.
  - intros Hall.
    destruct (Hall "OTHER"%string) as [Hto _]; [by vm_compute |].
    assert (Hf : classify (PyStr.strip "OTHER") = Other_Unknown) by (by vm_compute).
    specialize (Hto Hf). vm_compute in Hto. discriminate Hto.
  - intros Hall.
    destruct (Hall "Car"%string) as (c & Hc & _); [by vm_compute |].
    vm_compute in Hc. discriminate Hc.
Qed.

(** C4, amended: every label that passes the sentinel test gets a category
    from the coarse classifier, the fallback whenever the trimmed label is
    not a key of the table, and besides only for the keys OTHER and
    UNKNOWN, which the table maps to Other/Unknown itself; the fine-grained
    lookup returns a category exactly for the keys of [bike_mapping], never
    Other/Unknown, and drops every other label. *)
Theorem classifier_total_with_fallback (s : string) :
  (valid_vehicle (Some s) = true →
     Yearly.category_of (Some s) = Some (classify (PyStr.strip s))) ∧
  (get_vehicle_category_mapping !! s = None → classify s = Other_Unknown) ∧
  (classify s = Other_Unknown ↔
     get_vehicle_category_mapping !! s = None
     ∨ s = "OTHER"%string ∨ s = "UNKNOWN"%string) ∧
  Bike.bike_of (Some s) = bike_mapping !! PyStr.strip s ∧
  (is_Some (Bike.bike_of (Some s)) ↔ PyStr.strip s ∈ dom bike_mapping) ∧
  Bike.bike_of (Some s) ≠ Some Other_Unknown.
Proof.
  split; [| split; [| split; [| split; [| split]]]].
  - intros Hv. unfold Yearly.category_of. by rewrite Hv.
  - intros E. apply classify_fallback_iff. by left.
  - apply classify_fallback_iff.
  - done.
  - simpl. by rewrite elem_of_dom.
  - simpl. intros E. apply elem_of_list_to_map_2 in E.
    pose proof bike_items_no_fallback as HF.
    rewrite Forall_forall in HF. exact (HF _ E eq_refl).
Qed.

Lemma classifier_total_with_fallback_witness :
  valid_vehicle (Some " Car ") = true ∧
  get_vehicle_category_mapping !! "Car"%string = None ∧
  Yearly.category_of (Some " Car ") = Some Other_Unknown ∧
  classify "Car" = Other_Unknown.
Proof.
  assert (Hv : valid_vehicle (Some " Car ") = true) by (vm_compute; reflexivity).
  assert (Hn : get_vehicle_category_mapping !! "Car"%string = None)
    by (vm_compute; reflexivity).
  split; [exact Hv | split; [exact Hn |]].
  split.
  - rewrite (proj1 (classifier_total_with_fallback " Car ") Hv).
    vm_compute. reflexivity.
  - exact (proj1 (proj2 (classifier_total_with_fallback "Car")) Hn).
Defined.

(** ** Malformed counts *)


(** C5, at the failing input: NaN is truthy, so [NaN or 0] is NaN and
    [int] raises; the yearly and the bike fold then skip the whole record
    (its two killed are lost), and the two flat folds set both counts to
    0, the valid killed count included. *)
Theorem malformed_count_loses_record :
  or_zero NaN = NaN ∧ safe_count NaN = None ∧
  (∀ factor t, Bike.body factor t nan_injured_row = Some t) ∧
  (∀ factor t, Yearly.body factor t nan_injured_row = Some t) ∧
  Flat.convert nan_injured_row = (0%Z, 0%Z) ∧
  (∃ t, Flat.body_vehicle_types ∅ nan_injured_row = Some t ∧
        tally_of t "Bike" = zero_tally) ∧
  (∃ t, Flat.body_categories ∅ nan_injured_row = Some t ∧
        tally_of t "Bicycles/Scooters" = zero_tally).
Proof.
  split; [done | split; [done |]].
  split; [done | split; [done | split; [done |]]].
  split.
  - eexists. split; [vm_compute; reflexivity | tally_compute].
  - eexists. split; [vm_compute; reflexivity | tally_compute].
Qed.

(** ** Signs of the tallies *)

Lemma reads_nonneg_entries (t : gmap string (gmap Z tally)) :
  reads_nonneg t → entries_nonneg t.
Proof.
  intros Hr c m y tl Hc Hy. specialize (Hr c y).
  unfold tally_at in Hr. rewrite Hc in Hr. simpl in Hr. by rewrite Hy in Hr.
Qed.

Lemma Qc_mul_nonneg (a b : Qc) : 0 ≤ a → 0 ≤ b → 0 ≤ a * b.
Proof.
  intros Ha Hb. rewrite <- (Qcmult_0_r a). by apply Qcmult_le_mono_nonneg_l.
Qed.

Lemma Qc_div_nonneg (a b : Qc) : 0 ≤ a → 0 < b → 0 ≤ a / b.
Proof.
  intros Ha Hb. unfold Qcdiv. apply Qc_mul_nonneg; [done |].
  apply Qclt_le_weak. by apply Qcinv_pos.
Qed.

Lemma Qc_of_Z_nonneg (z : Z) : (0 ≤ z)%Z → 0 ≤ Qc_of_Z z.
Proof.
  intros Hz. apply (proj1 (Z2Qc_inj_le 0 z)) in Hz. by rewrite Z2Qc_inj_0 in Hz.
Qed.

Lemma Qc_of_Z_pos (z : Z) : (0 < z)%Z → 0 < Qc_of_Z z.
Proof.
  intros Hz. apply (proj1 (Z2Qc_inj_lt 0 z)) in Hz. by rewrite Z2Qc_inj_0 in Hz.
Qed.

Lemma len_pos (l : list string) : l ≠ [] → 0 < len l.
Proof.
  intros Hl. unfold len. apply Qc_of_Z_pos.
  destruct l; [done | simpl; lia].
Qed.

Lemma safe_count_nonneg (x : numeric) (z : Z) :
  nonneg_cell x → safe_count x = Some z → (0 ≤ z)%Z.
Proof.
  destruct x as [q |]; [| done]. simpl. intros Hq.
  unfold safe_count, or_zero, truthy. case_bool_decide as E; simpl.
  - intros [= <-]. done.
  - intros [= <-]. apply Z.quot_pos; [| done].
    unfold Qcle, Qle in Hq. simpl in Hq. lia.
Qed.

Lemma projection_factor_nonneg (days_in_2025 : Z) (factor : Qc) :
  projection_factor days_in_2025 = Some factor → 0 ≤ factor.
Proof.
  unfold projection_factor, py_truediv. case_bool_decide as Hd.
  - case_bool_decide; [done |]. intros [= <-].
    apply Qc_div_nonneg; [by apply Qc_of_Z_nonneg | by apply Qc_of_Z_pos].
  - intros [= <-]. done.
Qed.

Lemma scaled_nonneg (factor : Qc) (y x : Z) :
  0 ≤ factor → (0 ≤ x)%Z → 0 ≤ Yearly.scaled factor y x.
Proof.
  intros Hf Hx. unfold Yearly.scaled. case_bool_decide.
  - apply Qc_mul_nonneg; [by apply Qc_of_Z_nonneg | done].
  - by apply Qc_of_Z_nonneg.
Qed.

Lemma iterrows_invariant {T : Type} (P : T → Prop) (Q : row → Prop)
    (body : T → row → option T) :
  (∀ t r, Q r → P t → ∃ t', body t r = Some t' ∧ P t') →
  ∀ df t, Forall Q df → P t → ∃ t', iterrows body t df = Some t' ∧ P t'.
Proof.
  intros Hstep df. induction df as [| r df IH]; intros t Hdf Ht; simpl.
  - eauto.
  - apply Forall_cons in Hdf as [Hr Hdf].
    destruct (Hstep t r Hr Ht) as (t1 & -> & Ht1). simpl. by apply IH.
Qed.

Lemma yearly_body_nonneg (factor : Qc) (t : gmap string (gmap Z tally)) (r : row) :
  0 ≤ factor → nonneg_row r → reads_nonneg t →
  ∃ t', Yearly.body factor t r = Some t' ∧ reads_nonneg t'.
Proof.
  intros Hf [Hi Hk] Ht.
  destruct (Yearly.convert r) as [[[i k] y] |] eqn:Hc;
    [| exists t; unfold Yearly.body; by rewrite Hc].
  destruct (decide (Yearly.vehicles_in_collision r = [])) as [Hv | Hv].
  { exists t. unfold Yearly.body. by rewrite Hc, Hv. }
  assert (Hik : (0 ≤ i)%Z ∧ (0 ≤ k)%Z).
  { unfold Yearly.convert in Hc.
    destruct (safe_count (NUMBER_OF_PEDESTRIANS_INJURED r)) as [i' |] eqn:Ei;
      [| done].
    destruct (safe_count (NUMBER_OF_PEDESTRIANS_KILLED r)) as [k' |] eqn:Ek;
      [| done].
    simpl in Hc. destruct (py_int (YEAR r)); [| done]. simpl in Hc.
    injection Hc as -> -> _. eauto using safe_count_nonneg. }
  destruct Hik as [Hi0 Hk0].
  eexists. split.
  { rewrite (yearly_body_rows _ _ _ _ _ _ Hc Hv). by apply distribute_Some. }
  intros c y'. rewrite tally_at_foldl_NoDup by apply NoDup_dict_fromkeys.
  case_decide; [| apply Ht]. simpl.
  assert (Hp : 0 < len (dict_fromkeys (Yearly.vehicles_in_collision r)))
    by (by apply len_pos, dict_fromkeys_ne_nil).
  split; apply Qcplus_nonneg_nonneg;
    try apply Ht; apply Qc_div_nonneg; auto using scaled_nonneg.
Qed.

Lemma reads_nonneg_empty : reads_nonneg ∅.
Proof. intros c y. by rewrite tally_at_empty. Qed.

(** C6, the invariant as stated fails: a record with -3 injured (and one
    killed) is folded as it is, and the Passenger Vehicles tally of its
    year has injured = -3. *)
Lemma negative_count_negative_tally :
  ¬ (∀ days df t,
       Yearly.extract_yearly_data_by_category days df = Some t →
       entries_nonneg t) ∧
  ∃ t, Yearly.extract_yearly_data_by_category 236 [negative_row] = Some t ∧
       tally_at t "Passenger Vehicles" 2021 = Tally (Qc_of_Z (-3)) 1.
Proof.
  assert (Hex : ∃ t,
    Yearly.extract_yearly_data_by_category 236 [negative_row] = Some t ∧
    tally_at t "Passenger Vehicles" 2021 = Tally (Qc_of_Z (-3)) 1).
  { eexists. split; [vm_compute; reflexivity | tally_compute]. }
  split; [| exact Hex].
  intros Hall. destruct Hex as (t & Ht & Hv).
  specialize (Hall _ _ _ Ht).
  unfold tally_at in Hv.
  destruct (t !! "Passenger Vehicles"%string) as [m |] eqn:Em;
    [| simpl in Hv; rewrite lookup_empty in Hv; discriminate Hv].
  simpl in Hv.
  destruct (m !! 2021%Z) as [tl |] eqn:Etl; [| discriminate Hv].
  simpl in Hv. destruct (Hall _ _ _ _ Em Etl) as [Hneg _].
  rewrite Hv in Hneg. simpl in Hneg. vm_compute in Hneg. by apply Hneg.
Qed.

(** C6, amended: when no record carries a negative injured or killed
    count, the fold returns a table, after the whole frame and after every
    prefix of it, in which every stored tally has injured >= 0 and
    killed >= 0; negative counts are not clamped. *)
Theorem tallies_nonneg (days_in_2025 : Z) (df : list row) :
  Forall nonneg_row df →
  (∃ t, Yearly.extract_yearly_data_by_category days_in_2025 df = Some t
        ∧ entries_nonneg t) ∧
  (∀ df', df' `prefix_of` df →
     ∃ t', Yearly.extract_yearly_data_by_category days_in_2025 df' = Some t'
           ∧ entries_nonneg t').
Proof.
  intros Hdf.
  assert (Hgen : ∀ l, Forall nonneg_row l →
    ∃ t, Yearly.extract_yearly_data_by_category days_in_2025 l = Some t
         ∧ entries_nonneg t).
  { intros l Hl. unfold Yearly.extract_yearly_data_by_category.
    destruct (projection_factor days_in_2025) as [f |] eqn:Hf;
      [| destruct (projection_factor_Some days_in_2025); congruence].
    simpl. apply projection_factor_nonneg in Hf.
    destruct (iterrows_invariant reads_nonneg nonneg_row (Yearly.body f)
                (λ t r, yearly_body_nonneg f t r Hf) l ∅ Hl reads_nonneg_empty)
      as (t & Ht & Hr).
    exists t. split; [exact Ht | by apply reads_nonneg_entries]. }
  split; [by apply Hgen |].
  intros df' [rest ->]. apply Hgen. by apply Forall_app in Hdf as [? _].
Qed.

Lemma tallies_nonneg_witness :
  Forall nonneg_row [sample_row; nan_injured_row] ∧
  ∃ t, Yearly.extract_yearly_data_by_category 236
         [sample_row; nan_injured_row] = Some t ∧ entries_nonneg t.
Proof.
  assert (Hrows : Forall nonneg_row [sample_row; nan_injured_row]).
  { repeat constructor; vm_compute; discriminate. }
  split; [exact Hrows |].
  exact (proj1 (tallies_nonneg 236 _ Hrows)).
Defined.

(** ** Records without a usable label *)








(** ** The cutoff of the bike script *)

(** C10.  A record of a year before 2020 leaves the table of the bike fold
    as it was, whatever its labels and counts; a frame of such records
    gives the empty table. *)
Theorem bike_rows_before_2020_excluded (factor : Qc)
    (t : gmap string (gmap Z tally)) (r : row) (i k y : Z) (df : list row) :
  Yearly.convert r = Some (i, k, y) → (y < 2020)%Z → Forall before_2020 df →
  Bike.body factor t r = Some t ∧
  Bike.fold_rows factor df = Some ∅.
Proof.
  intros Hc Hy Hdf. split.
  - unfold Bike.body. rewrite Hc. by rewrite bool_decide_eq_true_2.
  - unfold Bike.fold_rows. generalize (∅ : gmap string (gmap Z tally)).
    induction Hdf as [| r' df' (i' & k' & y' & Hc' & Hy') _ IH]; intros t0;
      cbn [iterrows]; [done |].
    assert (Hb : Bike.body factor t0 r' = Some t0).
    { unfold Bike.body. rewrite Hc'. by rewrite bool_decide_eq_true_2. }
    rewrite Hb. cbn [mbind option_bind]. apply IH.
Qed.

Lemma bike_rows_before_2020_excluded_witness :
  Yearly.convert bike_row_2019 = Some (5, 0, 2019)%Z ∧ (2019 < 2020)%Z ∧
  Forall before_2020 [bike_row_2019] ∧
  Bike.bikes_in_collision bike_row_2019 = ["Traditional Bicycle"%string] ∧
  Bike.body 1 ∅ bike_row_2019 = Some ∅ ∧
  Bike.fold_rows 1 [bike_row_2019] = Some ∅.
Proof.
  assert (Hc : Yearly.convert bike_row_2019 = Some (5, 0, 2019)%Z)
    by (vm_compute; reflexivity).
  assert (Hy : (2019 < 2020)%Z) by lia.
  assert (Hdf : Forall before_2020 [bike_row_2019]).
  { repeat constructor. exists 5%Z, 0%Z, 2019%Z. split; [exact Hc | exact Hy]. }
  split; [exact Hc | split; [exact Hy | split; [exact Hdf |]]].
  split; [vm_compute; reflexivity |].
  exact (bike_rows_before_2020_excluded 1 ∅ bike_row_2019 5 0 2019 _ Hc Hy Hdf).
Defined.

(** ** The projection *)

Lemma scale_tally_1 (c : tally) : scale_tally 1 c = c.
Proof. destruct c. unfold scale_tally. simpl. f_equal; ring. Qed.

Lemma scale_bucket_1 (t : gmap string (gmap Z tally)) (b : Z) :
  scale_bucket t b 1 = t.
Proof.
  unfold scale_bucket. apply map_eq. intros c. rewrite lookup_fmap.
  destruct (t !! c) as [m |]; [| done]. simpl. f_equal.
  apply map_eq. intros y. rewrite lookup_alter. case_decide; [subst |]; [| done].
  destruct (m !! y); [| done]. simpl. by rewrite scale_tally_1.
Qed.

Lemma projection_factor_spec (days_in_2025 : Z) :
  projection_factor days_in_2025 = Some (spec_factor days_in_2025 365).
Proof.
  unfold projection_factor, spec_factor, py_truediv.
  case_bool_decide as Hd.
  - rewrite bool_decide_eq_false_2.
    + by rewrite bool_decide_eq_false_2 by lia.
    + intros E. apply Qc_of_Z_eq_0 in E. lia.
  - by rewrite bool_decide_eq_true_2 by lia.
Qed.

Lemma bump_scale (m : gmap Z tally) (b : Z) (f : Qc) (y : Z) (di dk : Qc) :
  bump (alter (scale_tally f) b m) y (in_bucket b f y di) (in_bucket b f y dk)
  = alter (scale_tally f) b (bump m y di dk).
Proof.
  apply map_eq. intros y'. unfold bump, in_bucket.
  destruct (decide (y = y')) as [<- | Hy].
  - rewrite lookup_insert_eq, !lookup_alter.
    destruct (decide (b = y)) as [-> | Hb].
    + rewrite lookup_insert_eq, bool_decide_eq_true_2 by done. simpl. f_equal.
      destruct (m !! y) as [c |]; simpl;
        unfold add_tally, scale_tally; simpl; f_equal; ring.
    + rewrite lookup_insert_eq, bool_decide_eq_false_2 by done. done.
  - rewrite lookup_insert_ne by done. rewrite !lookup_alter.
    destruct (decide (b = y')) as [-> | Hb].
    + by rewrite lookup_insert_ne by done.
    + by rewrite lookup_insert_ne by done.
Qed.

Lemma bump_year_scale (t : gmap string (gmap Z tally)) (b : Z) (f : Qc)
    (c : string) (y : Z) (di dk : Qc) :
  bump_year (scale_bucket t b f) c y (in_bucket b f y di) (in_bucket b f y dk)
  = scale_bucket (bump_year t c y di dk) b f.
Proof.
  apply map_eq. intros c'. unfold bump_year, scale_bucket.
  destruct (decide (c = c')) as [<- | Hc].
  - rewrite lookup_insert_eq, !lookup_fmap, lookup_insert_eq. simpl. f_equal.
    destruct (t !! c) as [m |]; simpl.
    + apply bump_scale.
    + rewrite <- (alter_empty (scale_tally f) b) at 1. apply bump_scale.
  - rewrite lookup_insert_ne by done.
    rewrite !lookup_fmap. by rewrite lookup_insert_ne by done.
Qed.

Lemma foldl_bump_year_scale (t : gmap string (gmap Z tally)) (b : Z) (f : Qc)
    (l : list string) (y : Z) (di dk : Qc) :
  foldl (λ t c, bump_year t c y (in_bucket b f y di) (in_bucket b f y dk))
        (scale_bucket t b f) l
  = scale_bucket (foldl (λ t c, bump_year t c y di dk) t l) b f.
Proof.
  revert t. induction l as [| c l IH]; intros t; simpl; [done |].
  by rewrite bump_year_scale, IH.
Qed.

Lemma scaled_div_in_bucket (f : Qc) (y x : Z) (n : Qc) :
  Yearly.scaled f y x / n = in_bucket 2025 f y (Qc_of_Z x / n).
Proof.
  unfold Yearly.scaled, in_bucket. case_bool_decide; [| done].
  unfold Qcdiv. ring.
Qed.

Lemma yearly_body_scale (f : Qc) (t : gmap string (gmap Z tally)) (r : row) :
  Yearly.body f (scale_bucket t 2025 f) r
  = (λ t', scale_bucket t' 2025 f) <$> Yearly.body 1 t r.
Proof.
  unfold Yearly.body.
  destruct (Yearly.convert r) as [[[i k] y] |]; [| done].
  destruct (Yearly.vehicles_in_collision r) as [| v vs] eqn:Ev; [done |].
  rewrite <- Ev. assert (Hv : Yearly.vehicles_in_collision r ≠ [])
    by (by rewrite Ev).
  rewrite !distribute_Some by done. simpl. f_equal.
  rewrite !scaled_factor_1, !scaled_div_in_bucket.
  apply foldl_bump_year_scale.
Qed.

Lemma bike_body_scale (f : Qc) (t : gmap string (gmap Z tally)) (r : row) :
  Bike.body f (scale_bucket t 2025 f) r
  = (λ t', scale_bucket t' 2025 f) <$> Bike.body 1 t r.
Proof.
  unfold Bike.body.
  destruct (Yearly.convert r) as [[[i k] y] |]; [| done].
  case_bool_decide; [done |].
  destruct (Bike.bikes_in_collision r) as [| v vs] eqn:Ev; [done |].
  rewrite <- Ev. assert (Hv : Bike.bikes_in_collision r ≠ [])
    by (by rewrite Ev).
  rewrite !distribute_Some by done. simpl. f_equal.
  rewrite !scaled_factor_1, !scaled_div_in_bucket.
  apply foldl_bump_year_scale.
Qed.

Lemma iterrows_scale (f : Qc)
    (body : Qc → gmap string (gmap Z tally) → row
            → option (gmap string (gmap Z tally))) :
  (∀ t r, body f (scale_bucket t 2025 f) r
          = (λ t', scale_bucket t' 2025 f) <$> body 1 t r) →
  ∀ df t, iterrows (body f) (scale_bucket t 2025 f) df
          = (λ t', scale_bucket t' 2025 f) <$> iterrows (body 1) t df.
Proof.
  intros Hbody df. induction df as [| r df IH]; intros t; cbn [iterrows];
    [done |].
  rewrite Hbody. destruct (body 1 t r) as [t1 |]; [| done].
  simpl. apply IH.
Qed.

Lemma yearly_body_total (f : Qc) (t : gmap string (gmap Z tally)) (r : row) :
  ∃ t', Yearly.body f t r = Some t'.
Proof.
  unfold Yearly.body.
  destruct (Yearly.convert r) as [[[i k] y] |]; [| eauto].
  destruct (Yearly.vehicles_in_collision r) as [| v vs] eqn:Ev; [eauto |].
  rewrite distribute_Some by done. eauto.
Qed.

Lemma bike_body_total (f : Qc) (t : gmap string (gmap Z tally)) (r : row) :
  ∃ t', Bike.body f t r = Some t'.
Proof.
  unfold Bike.body.
  destruct (Yearly.convert r) as [[[i k] y] |]; [| eauto].
  case_bool_decide; [eauto |].
  destruct (Bike.bikes_in_collision r) as [| v vs] eqn:Ev; [eauto |].
  rewrite distribute_Some by done. eauto.
Qed.

Lemma iterrows_total {T : Type} (body : T → row → option T) :
  (∀ t r, ∃ t', body t r = Some t') →
  ∀ df t, ∃ t', iterrows body t df = Some t'.
Proof.
  intros Hbody df t.
  destruct (iterrows_invariant (λ _, True) (λ _, True) body) with (df := df) (t := t)
    as (t' & Ht & _); eauto.
  - intros t0 r _ _. destruct (Hbody t0 r) as [t1 Ht1]. eauto.
  - by apply Forall_forall.
Qed.

(** C8.  For every frame and every factor the fold returns a table, and
    scaling the 2025 bucket of the table folded without projection
    (factor 1) gives exactly the table that the fold builds when it
    multiplies the injured and killed values of every 2025 record by the
    factor before splitting them, in the yearly and in the bike script;
    with the factor of [days_in_2025] this is the table of
    [extract_yearly_data_by_category]. *)
Theorem projection_commutes_with_fold (factor : Qc) (df : list row) :
  (∃ t, Yearly.fold_rows 1 df = Some t ∧
        Yearly.fold_rows factor df = Some (scale_bucket t 2025 factor) ∧
        ∀ days_in_2025,
          Yearly.extract_yearly_data_by_category days_in_2025 df
          = Some (project_spec t 2025 days_in_2025 365)) ∧
  (∃ t, Bike.fold_rows 1 df = Some t ∧
        Bike.fold_rows factor df = Some (scale_bucket t 2025 factor)).
Proof.
  assert (He : ∀ f, scale_bucket ∅ 2025 f = ∅)
    by (intros f; apply fmap_empty).
  split.
  - destruct (iterrows_total (Yearly.body 1) (yearly_body_total 1) df ∅)
      as [t Ht].
    assert (Hf : ∀ f, Yearly.fold_rows f df = Some (scale_bucket t 2025 f)).
    { intros f. unfold Yearly.fold_rows. rewrite <- (He f) at 1.
      rewrite (iterrows_scale f Yearly.body (yearly_body_scale f)), Ht. done. }
    exists t. split; [exact Ht | split; [apply Hf |]].
    intros days. unfold Yearly.extract_yearly_data_by_category.
    rewrite projection_factor_spec. simpl. apply Hf.
  - destruct (iterrows_total (Bike.body 1) (bike_body_total 1) df ∅)
      as [t Ht].
    exists t. split; [exact Ht |].
    unfold Bike.fold_rows. rewrite <- (He factor) at 1.
    rewrite (iterrows_scale factor Bike.body (bike_body_scale factor)), Ht. done.
Qed.

(** C9.  The factor is 365 / days_in_2025 when days_in_2025 > 0 and 1
    otherwise, the division is never by zero (the factor is always
    returned); with days_in_2025 <= 0 the counts of the 2025 records are
    folded as they are, so the table is the one folded with factor 1, and
    the projector of the specification leaves every tally unchanged. *)
Theorem projection_zero_guard (days_in_2025 : Z) :
  ((0 < days_in_2025)%Z →
     projection_factor days_in_2025
     = Some (Qc_of_Z 365 / Qc_of_Z days_in_2025)
     ∧ Qc_of_Z days_in_2025 ≠ 0) ∧
  ((days_in_2025 ≤ 0)%Z →
     projection_factor days_in_2025 = Some 1 ∧
     (∀ t bucket nominal, project_spec t bucket days_in_2025 nominal = t) ∧
     (∀ y x, Yearly.scaled 1 y x = Qc_of_Z x) ∧
     (∀ df, Yearly.extract_yearly_data_by_category days_in_2025 df
            = Yearly.fold_rows 1 df
            ∧ Bike.extract_bike_data_by_year days_in_2025 df
              = Bike.fold_rows 1 df)) ∧
  is_Some (projection_factor days_in_2025).
Proof.
  split; [| split].
  - intros Hd.
    assert (Hne : Qc_of_Z days_in_2025 ≠ 0)
      by (intros E; apply Qc_of_Z_eq_0 in E; lia).
    split; [| exact Hne].
    unfold projection_factor, py_truediv.
    rewrite bool_decide_eq_true_2 by done.
    by rewrite bool_decide_eq_false_2 by done.
  - intros Hd.
    assert (Hf : projection_factor days_in_2025 = Some 1).
    { unfold projection_factor. by rewrite bool_decide_eq_false_2 by lia. }
    split; [exact Hf |]. split; [| split].
    + intros t b n. unfold project_spec, spec_factor.
      rewrite bool_decide_eq_true_2 by done. apply scale_bucket_1.
    + apply scaled_factor_1.
    + intros df. unfold Yearly.extract_yearly_data_by_category,
        Bike.extract_bike_data_by_year. by rewrite Hf.
  - destruct (projection_factor_Some days_in_2025) as [f ->]. eauto.
Qed.

Lemma projection_zero_guard_witness :
  (0 < 146)%Z ∧ (0 ≤ 0)%Z ∧
  projection_factor 146 = Some (Qc_of_Z 365 / Qc_of_Z 146) ∧
  projection_factor 0 = Some 1 ∧
  (∀ t, project_spec t 2025 0 365 = t).
Proof.
  assert (Hp : (0 < 146)%Z) by lia.
  assert (Hz : (0 ≤ 0)%Z) by lia.
  split; [exact Hp | split; [exact Hz |]].
  destruct (proj1 (projection_zero_guard 146) Hp) as [H146 _].
  destruct (proj1 (proj2 (projection_zero_guard 0)) Hz) as (H0 & Hproj & _).
  split; [exact H146 | split; [exact H0 |]].
  intros t. apply Hproj.
Defined.

(** ** The yearly table as a sum over the rows *)


Lemma sumQ_cons (q : Qc) (l : list Qc) : sumQ (q :: l) = q + sumQ l.
Proof. reflexivity. Qed.



(** ** The order of the rows, and the keys of the tables *)

Lemma add_tally_comm (c : tally) (a1 b1 a2 b2 : Qc) :
  add_tally (add_tally c a1 b1) a2 b2 = add_tally (add_tally c a2 b2) a1 b1.
Proof. unfold add_tally; simpl. f_equal; ring. Qed.

Lemma bump_comm `{Countable K} (m : gmap K tally) (k1 k2 : K)
    (a1 b1 a2 b2 : Qc) :
  bump (bump m k1 a1 b1) k2 a2 b2 = bump (bump m k2 a2 b2) k1 a1 b1.
Proof.
  unfold bump. destruct (decide (k1 = k2)) as [-> | Hk].
  - rewrite !lookup_insert_eq, !insert_insert_eq. simpl.
    by rewrite add_tally_comm.
  - rewrite (lookup_insert_ne m k1 k2) by done.
    rewrite (lookup_insert_ne m k2 k1) by done.
    by rewrite insert_insert_ne by done.
Qed.

Lemma bump_year_comm (t : gmap string (gmap Z tally)) c1 y1 a1 b1 c2 y2 a2 b2 :
  bump_year (bump_year t c1 y1 a1 b1) c2 y2 a2 b2
  = bump_year (bump_year t c2 y2 a2 b2) c1 y1 a1 b1.
Proof.
  unfold bump_year. destruct (decide (c1 = c2)) as [-> | Hc].
  - rewrite !lookup_insert_eq, !insert_insert_eq. simpl. by rewrite bump_comm.
  - rewrite (lookup_insert_ne t c1 c2) by done.
    rewrite (lookup_insert_ne t c2 c1) by done.
    by rewrite insert_insert_ne by done.
Qed.

Lemma foldl_comm {A B : Type} (f g : A → B → A) :
  (∀ a x y, f (g a x) y = g (f a y) x) →
  ∀ l1 l2 a, foldl f (foldl g a l1) l2 = foldl g (foldl f a l2) l1.
Proof.
  intros Hfg l1 l2. revert l1. induction l2 as [| y l2 IH]; intros l1 a; simpl.
  - done.
  - rewrite <- IH. f_equal. clear IH. revert a.
    induction l1 as [| x l1 IH1]; intros a; simpl; [done |].
    by rewrite IH1, Hfg.
Qed.

Lemma bucket_body_swap body touch (t : gmap string (gmap Z tally)) (r1 r2 : row) :
  bucket_body body touch →
  (t1 ← body t r1; body t1 r2) = (t2 ← body t r2; body t2 r1).
Proof.
  intros Hb.
  destruct (Hb r1) as (l1 & y1 & a1 & b1 & E1 & _).
  destruct (Hb r2) as (l2 & y2 & a2 & b2 & E2 & _).
  rewrite (E1 t), (E2 t). simpl. rewrite E1, E2. f_equal.
  apply foldl_comm. intros. apply bump_year_comm.
Qed.

Lemma iterrows_swap_perm {T : Type} (body : T → row → option T) :
  (∀ t r1 r2, (t1 ← body t r1; body t1 r2) = (t2 ← body t r2; body t2 r1)) →
  ∀ df df', df ≡ₚ df' → ∀ t, iterrows body t df = iterrows body t df'.
Proof.
  intros Hswap df df' Hp.
  induction Hp as [| r l l' _ IH | r1 r2 l | l l' l'' _ IH1 _ IH2]; intros t.
  - done.
  - cbn [iterrows]. destruct (body t r); simpl; [apply IH | done].
  - cbn [iterrows]. pose proof (Hswap t r1 r2) as Hs.
    destruct (body t r1) as [a |], (body t r2) as [b |]; simpl in *.
    + by rewrite Hs.
    + by rewrite Hs.
    + by rewrite <- Hs.
    + done.
  - by rewrite IH1, IH2.
Qed.

Lemma yearly_bucket_body (factor : Qc) :
  bucket_body (Yearly.body factor) yearly_touch.
Proof.
  intros r. unfold yearly_touch.
  destruct (Yearly.convert r) as [[[i k] y] |] eqn:Hc.
  - destruct (decide (Yearly.vehicles_in_collision r = [])) as [Hv | Hv].
    + exists [], 0%Z, 0, 0. split.
      * intros t. unfold Yearly.body. by rewrite Hc, Hv.
      * intros c y'. rewrite Hv. split.
        -- intros [Hin _]. by apply elem_of_nil in Hin.
        -- intros (? & ? & _ & Hin). by apply elem_of_nil in Hin.
    + eexists (dict_fromkeys (Yearly.vehicles_in_collision r)), y, _, _. split.
      * intros t. rewrite (yearly_body_rows _ _ _ _ _ _ Hc Hv).
        by apply distribute_Some.
      * intros c y'. rewrite elem_of_dict_fromkeys. split.
        -- intros [Hin <-]. eauto.
        -- intros (i' & k' & [= _ _ ->] & Hin). done.
  - exists [], 0%Z, 0, 0. split.
    + intros t. unfold Yearly.body. by rewrite Hc.
    + intros c y'. split.
      * intros [Hin _]. by apply elem_of_nil in Hin.
      * intros (? & ? & [=] & _).
Qed.

Lemma bike_bucket_body (factor : Qc) :
  bucket_body (Bike.body factor) bike_touch.
Proof.
  intros r. unfold bike_touch.
  destruct (Yearly.convert r) as [[[i k] y] |] eqn:Hc.
  - destruct (decide (y < 2020)%Z) as [Hy | Hy].
    { exists [], 0%Z, 0, 0. split.
      - intros t. unfold Bike.body. by rewrite Hc, bool_decide_eq_true_2.
      - intros c y'. split.
        + intros [Hin _]. by apply elem_of_nil in Hin.
        + intros (? & ? & [= _ _ ->] & ? & _). lia. }
    destruct (decide (Bike.bikes_in_collision r = [])) as [Hv | Hv].
    + exists [], 0%Z, 0, 0. split.
      * intros t. unfold Bike.body.
        by rewrite Hc, bool_decide_eq_false_2, Hv.
      * intros c y'. rewrite Hv. split.
        -- intros [Hin _]. by apply elem_of_nil in Hin.
        -- intros (? & ? & _ & _ & Hin). by apply elem_of_nil in Hin.
    + eexists (dict_fromkeys (Bike.bikes_in_collision r)), y, _, _. split.
      * intros t. rewrite (bike_body_rows _ _ _ _ _ _ Hc) by (done || lia).
        by apply distribute_Some.
      * intros c y'. rewrite elem_of_dict_fromkeys. split.
        -- intros [Hin <-]. exists i, k. split; [done | split; [lia | done]].
        -- intros (i' & k' & [= _ _ ->] & _ & Hin). done.
  - exists [], 0%Z, 0, 0. split.
    + intros t. unfold Bike.body. by rewrite Hc.
    + intros c y'. split.
      * intros [Hin _]. by apply elem_of_nil in Hin.
      * intros (? & ? & [=] & _).
Qed.

Lemma flat_bodies_swap (t : gmap string tally) (r1 r2 : row) :
  (t1 ← Flat.body_categories t r1; Flat.body_categories t1 r2)
  = (t2 ← Flat.body_categories t r2; Flat.body_categories t2 r1)
  ∧ (t1 ← Flat.body_vehicle_types t r1; Flat.body_vehicle_types t1 r2)
    = (t2 ← Flat.body_vehicle_types t r2; Flat.body_vehicle_types t2 r1).
Proof.
  assert (Hc : ∀ r, ∃ l di dk, ∀ t0 : gmap string tally,
    Flat.body_categories t0 r = Some (foldl (λ t c, bump t c di dk) t0 l)).
  { intros r.
    destruct (decide (Yearly.vehicles_in_collision r = [])) as [Hv | Hv].
    - exists [], 0, 0. intros t0. unfold Flat.body_categories. rewrite Hv.
      by destruct (Flat.convert r).
    - eexists _, _, _. intros t0. by apply body_categories_Some. }
  assert (Hl : ∀ r, ∃ l di dk, ∀ t0 : gmap string tally,
    Flat.body_vehicle_types t0 r = Some (foldl (λ t c, bump t c di dk) t0 l)).
  { intros r.
    destruct (decide (labels_in_collision r = [])) as [Hv | Hv].
    - exists [], 0, 0. intros t0. unfold Flat.body_vehicle_types.
      fold (labels_in_collision r). rewrite Hv. by destruct (Flat.convert r).
    - eexists _, _, _. intros t0. by apply body_vehicle_types_Some. }
  split.
  - destruct (Hc r1) as (l1 & a1 & b1 & E1), (Hc r2) as (l2 & a2 & b2 & E2).
    rewrite (E1 t), (E2 t). simpl. rewrite E1, E2. f_equal.
    apply foldl_comm. intros. apply bump_comm.
  - destruct (Hl r1) as (l1 & a1 & b1 & E1), (Hl r2) as (l2 & a2 & b2 & E2).
    rewrite (E1 t), (E2 t). simpl. rewrite E1, E2. f_equal.
    apply foldl_comm. intros. apply bump_comm.
Qed.

(** X2.  The order of the rows does not matter: two frames with the same
    rows in any order give the same table, in each of the four folds (in
    exact arithmetic). *)
Theorem fold_ignores_row_order (factor : Qc) (df df' : list row) :
  df ≡ₚ df' →
  Yearly.fold_rows factor df = Yearly.fold_rows factor df' ∧
  Bike.fold_rows factor df = Bike.fold_rows factor df' ∧
  Flat.extract_and_categorize_vehicles df
    = Flat.extract_and_categorize_vehicles df' ∧
  Flat.extract_vehicle_types df = Flat.extract_vehicle_types df'.
Proof.
  intros Hp. repeat split.
  - apply iterrows_swap_perm; [| done].
    intros t r1 r2. eapply bucket_body_swap, yearly_bucket_body.
  - apply iterrows_swap_perm; [| done].
    intros t r1 r2. eapply bucket_body_swap, bike_bucket_body.
  - apply iterrows_swap_perm; [| done]. intros. apply flat_bodies_swap.
  - apply iterrows_swap_perm; [| done]. intros. apply flat_bodies_swap.
Qed.

Lemma fold_ignores_row_order_witness :
  [sample_row; negative_row] ≡ₚ [negative_row; sample_row] ∧
  Yearly.fold_rows 1 [sample_row; negative_row]
  = Yearly.fold_rows 1 [negative_row; sample_row].
Proof.
  assert (Hp : [sample_row; negative_row] ≡ₚ [negative_row; sample_row])
    by apply perm_swap.
  split; [exact Hp |].
  exact (proj1 (fold_ignores_row_order 1 _ _ Hp)).
Defined.

Lemma has_bucket_bump_year (t : gmap string (gmap Z tally)) c y di dk c' y' :
  has_bucket (bump_year t c y di dk) c' y'
  ↔ (c = c' ∧ y = y') ∨ has_bucket t c' y'.
Proof.
  unfold has_bucket, bump_year, bump.
  destruct (decide (c = c')) as [<- | Hc].
  - rewrite lookup_insert_eq. simpl.
    destruct (decide (y = y')) as [<- | Hy].
    + rewrite lookup_insert_eq. split; [by left | eauto].
    + rewrite lookup_insert_ne by done. split; [by right | ].
      intros [[_ ?] | ?]; done.
  - rewrite lookup_insert_ne by done. split; [by right |].
    intros [[? _] | ?]; done.
Qed.

Lemma has_bucket_foldl (t : gmap string (gmap Z tally)) l y di dk c' y' :
  has_bucket (foldl (λ t c, bump_year t c y di dk) t l) c' y'
  ↔ (c' ∈ l ∧ y = y') ∨ has_bucket t c' y'.
Proof.
  revert t. induction l as [| c l IH]; intros t; simpl.
  - rewrite elem_of_nil. tauto.
  - rewrite IH, has_bucket_bump_year, elem_of_cons. split.
    + intros [[? ?] | [[-> ?] | ?]]; eauto.
    + intros [[[-> | ?] ?] | ?]; eauto.
Qed.

Lemma inner_nonempty_foldl (t : gmap string (gmap Z tally)) l y di dk :
  inner_nonempty t →
  inner_nonempty (foldl (λ t c, bump_year t c y di dk) t l).
Proof.
  revert t. induction l as [| c l IH]; intros t Ht; simpl; [done |].
  apply IH. intros c' m. unfold bump_year.
  destruct (decide (c = c')) as [<- | Hc].
  - rewrite lookup_insert_eq. intros [= <-]. exists y.
    unfold bump. rewrite lookup_insert_eq. eauto.
  - rewrite lookup_insert_ne by done. apply Ht.
Qed.

Lemma has_bucket_dom (t : gmap string (gmap Z tally)) c y :
  has_bucket t c y → c ∈ dom t.
Proof.
  unfold has_bucket. rewrite elem_of_dom.
  destruct (t !! c); [eauto |]. simpl. rewrite lookup_empty. by intros [? ?].
Qed.

Lemma iterrows_buckets body touch :
  bucket_body body touch →
  ∀ df (t : gmap string (gmap Z tally)),
    ∃ t', iterrows body t df = Some t' ∧
      (∀ c y, has_bucket t' c y
              ↔ has_bucket t c y ∨ ∃ r, r ∈ df ∧ touch r c y) ∧
      (inner_nonempty t → inner_nonempty t').
Proof.
  intros Hb df. induction df as [| r df IH]; intros t.
  - exists t. split; [done |]. split; [| done].
    intros c y. split; [by left |]. intros [? | (r & Hr & _)]; [done |].
    by apply elem_of_nil in Hr.
  - destruct (Hb r) as (l & y0 & di & dk & E & Ht).
    destruct (IH (foldl (λ t c, bump_year t c y0 di dk) t l))
      as (t' & Hit & Hbk & Hne).
    exists t'. split; [cbn [iterrows]; rewrite E; exact Hit |]. split.
    + intros c y. rewrite Hbk, has_bucket_foldl, Ht. split.
      * intros [[? | ?] | (r' & Hin & ?)]; [right | by left | right].
        -- exists r. split; [left | done].
        -- exists r'. split; [by right | done].
      * intros [? | (r' & Hin & Hr')]; [by left; right |].
        apply elem_of_cons in Hin as [-> | Hin]; [by left; left |].
        right. eauto.
    + intros Hi. by apply Hne, inner_nonempty_foldl.
Qed.

Lemma has_bucket_empty c y : ¬ has_bucket ∅ c y.
Proof. unfold has_bucket. rewrite lookup_empty. simpl. rewrite lookup_empty. by intros [? ?]. Qed.

Lemma inner_nonempty_empty : inner_nonempty ∅.
Proof. intros c m. by rewrite lookup_empty. Qed.

Lemma dom_has_bucket (t : gmap string (gmap Z tally)) c :
  inner_nonempty t → c ∈ dom t → ∃ y, has_bucket t c y.
Proof.
  intros Hi [m Hm]%elem_of_dom. destruct (Hi c m Hm) as [y Hy].
  exists y. unfold has_bucket. by rewrite Hm.
Qed.

Lemma category_items_range :
  Forall (λ kv : string * string, kv.2 ∈ coarse_categories)
         vehicle_category_items.
Proof. apply (bool_decide_unpack _). vm_compute. exact I. Qed.

Lemma bike_items_range :
  Forall (λ kv : string * string, kv.2 ∈ bike_categories) bike_mapping_items.
Proof. apply (bool_decide_unpack _). vm_compute. exact I. Qed.

Lemma classify_range (s : string) : classify s ∈ coarse_categories.
Proof.
  unfold classify.
  destruct (get_vehicle_category_mapping !! s) as [c |] eqn:E; simpl.
  - apply elem_of_list_to_map_2 in E.
    pose proof category_items_range as HF. rewrite Forall_forall in HF.
    exact (HF _ E).
  - mem_true.
Qed.

Lemma vehicles_in_collision_range (r : row) (c : string) :
  c ∈ Yearly.vehicles_in_collision r → c ∈ coarse_categories.
Proof.
  rewrite vehicles_in_collision_labels. intros (s & -> & _)%list_elem_of_fmap.
  apply classify_range.
Qed.

Lemma bikes_in_collision_range (r : row) (c : string) :
  c ∈ Bike.bikes_in_collision r → c ∈ bike_categories.
Proof.
  unfold Bike.bikes_in_collision. rewrite list_elem_of_omap.
  intros (v & _ & Hv). destruct v as [s |]; [| done]. simpl in Hv.
  apply elem_of_list_to_map_2 in Hv.
  pose proof bike_items_range as HF. rewrite Forall_forall in HF.
  exact (HF _ Hv).
Qed.

Lemma size_dom_le (t : gmap string (gmap Z tally)) (l : list string) :
  NoDup l → (∀ c, c ∈ dom t → c ∈ l) → (size (dom t) ≤ length l)%nat.
Proof.
  intros Hl Hsub. rewrite <- (size_list_to_set (C := gset string) l Hl).
  apply subseteq_size. intros c Hc. apply elem_of_list_to_set. auto.
Qed.

Lemma NoDup_coarse_categories : NoDup coarse_categories.
Proof. apply (bool_decide_unpack _). vm_compute. exact I. Qed.

Lemma NoDup_bike_categories : NoDup bike_categories.
Proof. apply (bool_decide_unpack _). vm_compute. exact I. Qed.

(** X3.  The yearly table has a tally for a category in a year exactly
    when some row whose conversions succeed has that year and lists the
    category; every category key is one of the seven categories of the
    coarse table (so the table has at most seven keys, the number of
    category charts the 4 x 2 grid leaves room for), and no category is
    stored with an empty dict of years. *)
Theorem yearly_table_buckets (factor : Qc) (df : list row) :
  ∃ t, Yearly.fold_rows factor df = Some t ∧
    (∀ c y, has_bucket t c y ↔ ∃ r, r ∈ df ∧ yearly_touch r c y) ∧
    (∀ c, c ∈ dom t → c ∈ coarse_categories) ∧
    (size (dom t) ≤ 7)%nat ∧
    inner_nonempty t.
Proof.
  destruct (iterrows_buckets _ _ (yearly_bucket_body factor) df ∅)
    as (t & Ht & Hb & Hne).
  assert (Hbk : ∀ c y, has_bucket t c y ↔ ∃ r, r ∈ df ∧ yearly_touch r c y).
  { intros c y. rewrite Hb. split; [| by right].
    intros [H0 | ?]; [by apply has_bucket_empty in H0 | done]. }
  assert (Hi : inner_nonempty t) by apply Hne, inner_nonempty_empty.
  assert (Hdom : ∀ c, c ∈ dom t → c ∈ coarse_categories).
  { intros c Hc. destruct (dom_has_bucket t c Hi Hc) as [y Hy].
    apply Hbk in Hy as (r & _ & i & k & _ & Hin).
    by eapply vehicles_in_collision_range. }
  exists t. split; [exact Ht |].
  split; [exact Hbk | split; [exact Hdom | split; [| exact Hi]]].
  exact (size_dom_le t coarse_categories NoDup_coarse_categories Hdom).
Qed.

(** X4.  The bike table has a tally for a bike type in a year exactly when
    some row whose conversions succeed has that year, the year is 2020 or
    later, and the row lists a label of that type; so it never holds a
    year before 2020, its keys are among Traditional Bicycle, E-Bike and
    E-Scooter, and it has at most three of them. *)
Theorem bike_table_buckets (factor : Qc) (df : list row) :
  ∃ t, Bike.fold_rows factor df = Some t ∧
    (∀ c y, has_bucket t c y ↔ ∃ r, r ∈ df ∧ bike_touch r c y) ∧
    (∀ c y, has_bucket t c y → (2020 ≤ y)%Z ∧ c ∈ bike_categories) ∧
    (∀ c, c ∈ dom t → c ∈ bike_categories) ∧
    (size (dom t) ≤ 3)%nat.
Proof.
  destruct (iterrows_buckets _ _ (bike_bucket_body factor) df ∅)
    as (t & Ht & Hb & Hne).
  assert (Hbk : ∀ c y, has_bucket t c y ↔ ∃ r, r ∈ df ∧ bike_touch r c y).
  { intros c y. rewrite Hb. split; [| by right].
    intros [H0 | ?]; [by apply has_bucket_empty in H0 | done]. }
  assert (Hi : inner_nonempty t) by apply Hne, inner_nonempty_empty.
  assert (Hrange : ∀ c y, has_bucket t c y
                          → (2020 ≤ y)%Z ∧ c ∈ bike_categories).
  { intros c y (r & _ & i & k & _ & Hy & Hin)%Hbk.
    split; [done | by eapply bikes_in_collision_range]. }
  assert (Hdom : ∀ c, c ∈ dom t → c ∈ bike_categories).
  { intros c Hc. destruct (dom_has_bucket t c Hi Hc) as [y Hy].
    by apply Hrange in Hy as [_ ?]. }
  exists t. split; [exact Ht |].
  split; [exact Hbk | split; [exact Hrange | split; [exact Hdom |]]].
  exact (size_dom_le t bike_categories NoDup_bike_categories Hdom).
Qed.

(** ** Totals *)

Section map_sum.
Context `{Countable K} {A : Type} (f : A → Qc).
Implicit Types (m : gmap K A).

Lemma map_sum_empty : map_sum f (∅ : gmap K A) = 0.
Proof. unfold map_sum. apply map_fold_empty. Qed.

Lemma map_sum_insert_None m k a :
  m !! k = None → map_sum f (<[k:=a]> m) = map_sum f m + f a.
Proof.
  intros Hk. unfold map_sum.
  rewrite (map_fold_insert_L (λ (_ : K) (a : A) (acc : Qc), acc + f a));
    [done | | done].
  intros. ring.
Qed.

Lemma map_sum_delete m k a :
  m !! k = Some a → map_sum f m = map_sum f (delete k m) + f a.
Proof.
  intros Hk. rewrite <- (insert_delete_id m k a Hk) at 1.
  apply map_sum_insert_None, lookup_delete_eq.
Qed.

Lemma map_sum_insert m k a :
  map_sum f (<[k:=a]> m) = map_sum f (delete k m) + f a.
Proof.
  rewrite <- insert_delete_eq. apply map_sum_insert_None, lookup_delete_eq.
Qed.

End map_sum.

Lemma map_sum_bump_injured `{Countable K} (t : gmap K tally) k di dk :
  map_sum injured (bump t k di dk) = map_sum injured t + di.
Proof.
  unfold bump. rewrite map_sum_insert.
  destruct (t !! k) as [old |] eqn:E; simpl.
  - rewrite (map_sum_delete injured t k old E). ring.
  - rewrite delete_id by done. ring.
Qed.

Lemma map_sum_bump_killed `{Countable K} (t : gmap K tally) k di dk :
  map_sum killed (bump t k di dk) = map_sum killed t + dk.
Proof.
  unfold bump. rewrite map_sum_insert.
  destruct (t !! k) as [old |] eqn:E; simpl.
  - rewrite (map_sum_delete killed t k old E). ring.
  - rewrite delete_id by done. ring.
Qed.

Lemma map_sum_foldl_bump (t : gmap string tally) (l : list string) di dk :
  map_sum injured (foldl (λ t c, bump t c di dk) t l)
  = map_sum injured t + times (length l) di
  ∧ map_sum killed (foldl (λ t c, bump t c di dk) t l)
    = map_sum killed t + times (length l) dk.
Proof.
  revert t. induction l as [| c l IH]; intros t; simpl.
  - rewrite !times_0. split; ring.
  - destruct (IH (bump t c di dk)) as [Ei Ek].
    rewrite Ei, Ek, map_sum_bump_injured, map_sum_bump_killed, !times_S.
    split; ring.
Qed.

Lemma labels_nil_iff (r : row) :
  labels_in_collision r = [] ↔ Yearly.vehicles_in_collision r = [].
Proof.
  rewrite vehicles_in_collision_labels. split.
  - by intros ->.
  - by intros ?%fmap_nil_inv.
Qed.

Lemma body_categories_total (t : gmap string tally) (r : row) :
  ∃ t', Flat.body_categories t r = Some t' ∧
    map_sum injured t' = map_sum injured t + labelled_count fst r ∧
    map_sum killed t' = map_sum killed t + labelled_count snd r.
Proof.
  unfold labelled_count.
  destruct (decide (Yearly.vehicles_in_collision r = [])) as [Hv | Hv].
  - exists t. split.
    { unfold Flat.body_categories. rewrite Hv. by destruct (Flat.convert r). }
    rewrite (proj2 (labels_nil_iff r) Hv). split; ring.
  - eexists. split; [by apply body_categories_Some |]. cbv zeta.
    destruct (map_sum_foldl_bump t (dict_fromkeys (Yearly.vehicles_in_collision r))
      (Qc_of_Z (Flat.convert r).1 / len (dict_fromkeys (Yearly.vehicles_in_collision r)))
      (Qc_of_Z (Flat.convert r).2 / len (dict_fromkeys (Yearly.vehicles_in_collision r))))
      as [Ei Ek].
    rewrite Ei, Ek, !times_len_div by (by apply dict_fromkeys_ne_nil).
    destruct (labels_in_collision r) eqn:El;
      [by apply labels_nil_iff in El | done].
Qed.

Lemma body_vehicle_types_total (t : gmap string tally) (r : row) :
  ∃ t', Flat.body_vehicle_types t r = Some t' ∧
    map_sum injured t' = map_sum injured t + labelled_count fst r ∧
    map_sum killed t' = map_sum killed t + labelled_count snd r.
Proof.
  unfold labelled_count.
  destruct (decide (labels_in_collision r = [])) as [Hv | Hv].
  - exists t. split.
    { unfold Flat.body_vehicle_types. fold (labels_in_collision r).
      rewrite Hv. by destruct (Flat.convert r). }
    rewrite Hv. split; ring.
  - eexists. split; [by apply body_vehicle_types_Some |].
    destruct (map_sum_foldl_bump t (labels_in_collision r)
      (Qc_of_Z (Flat.convert r).1 / len (labels_in_collision r))
      (Qc_of_Z (Flat.convert r).2 / len (labels_in_collision r)))
      as [Ei Ek].
    rewrite Ei, Ek, !times_len_div by done.
    by destruct (labels_in_collision r).
Qed.

Lemma iterrows_total_sum
    (body : gmap string tally → row → option (gmap string tally)) :
  (∀ t r, ∃ t', body t r = Some t' ∧
     map_sum injured t' = map_sum injured t + labelled_count fst r ∧
     map_sum killed t' = map_sum killed t + labelled_count snd r) →
  ∀ df t, ∃ t', iterrows body t df = Some t' ∧
     map_sum injured t' = map_sum injured t + sumQ (labelled_count fst <$> df) ∧
     map_sum killed t' = map_sum killed t + sumQ (labelled_count snd <$> df).
Proof.
  intros Hb df. induction df as [| r df IH]; intros t.
  - exists t. split; [done |]. rewrite !fmap_nil. unfold sumQ; simpl.
    split; ring.
  - destruct (Hb t r) as (t1 & E1 & Ei1 & Ek1).
    destruct (IH t1) as (t' & E' & Ei' & Ek').
    exists t'. split; [cbn [iterrows]; rewrite E1; exact E' |].
    rewrite Ei', Ek', Ei1, Ek1, !fmap_cons, !sumQ_cons. split; ring.
Qed.

(** X5.  The grand totals that the reports print (the sum of the injured,
    and of the killed, over all keys of the table) are, for the category
    fold of the consolidated script and for the per-label fold alike, the
    sum of the converted counts of the rows that have at least one usable
    label: the split moves casualties between keys and loses none; the
    rows without a label are left out of the totals. *)
Theorem flat_totals_are_labelled_counts (df : list row) :
  (∃ t, Flat.extract_and_categorize_vehicles df = Some t ∧
        map_sum injured t = sumQ (labelled_count fst <$> df) ∧
        map_sum killed t = sumQ (labelled_count snd <$> df)) ∧
  (∃ t, Flat.extract_vehicle_types df = Some t ∧
        map_sum injured t = sumQ (labelled_count fst <$> df) ∧
        map_sum killed t = sumQ (labelled_count snd <$> df)).
Proof.
  split.
  - destruct (iterrows_total_sum _ body_categories_total df ∅)
      as (t & Ht & Ei & Ek).
    exists t. split; [exact Ht |]. rewrite Ei, Ek, !map_sum_empty. split; ring.
  - destruct (iterrows_total_sum _ body_vehicle_types_total df ∅)
      as (t & Ht & Ei & Ek).
    exists t. split; [exact Ht |]. rewrite Ei, Ek, !map_sum_empty. split; ring.
Qed.

(** ** Cleaning the vehicle names *)

Lemma vehicle_mapping_values_fixed :
  Forall (λ kv : string * string, clean_name kv.2 = kv.2) vehicle_mapping_items.
Proof. apply (bool_decide_unpack _). vm_compute. exact I. Qed.

Lemma clean_name_idemp (v : string) : clean_name (clean_name v) = clean_name v.
Proof.
  unfold clean_name at 2 3.
  destruct (vehicle_mapping !! v) as [n |] eqn:E; simpl.
  - apply elem_of_list_to_map_2 in E.
    pose proof vehicle_mapping_values_fixed as HF. rewrite Forall_forall in HF.
    exact (HF _ E).
  - unfold clean_name. by rewrite E.
Qed.

Lemma clean_vehicle_types_reads (t : gmap string tally) :
  (∀ n, tally_of (clean_vehicle_types t) n
        = Tally (map_sum injured (filter (λ kv, clean_name kv.1 = n) t))
                (map_sum killed (filter (λ kv, clean_name kv.1 = n) t))) ∧
  (∀ n, n ∈ dom (clean_vehicle_types t) ↔ ∃ v, v ∈ dom t ∧ clean_name v = n).
Proof.
  unfold clean_vehicle_types.
  apply (map_fold_weak_ind (λ (r m : gmap string tally),
    (∀ n, tally_of r n
          = Tally (map_sum injured (filter (λ kv, clean_name kv.1 = n) m))
                  (map_sum killed (filter (λ kv, clean_name kv.1 = n) m))) ∧
    (∀ n, n ∈ dom r ↔ ∃ v, v ∈ dom m ∧ clean_name v = n))).
  - split.
    + intros n. rewrite map_filter_empty, !map_sum_empty. done.
    + intros n. rewrite !dom_empty_L. split; [set_solver |].
      intros (v & Hv & _). set_solver.
  - intros i x m r Hi [Hr Hd]. fold (clean_name i). split.
    + intros n. rewrite tally_of_bump.
      destruct (decide (clean_name i = n)) as [<- | En]; rewrite Hr.
      * rewrite map_filter_insert_True by done.
        rewrite !map_sum_insert_None
          by (apply map_lookup_filter_None_2; by left).
        unfold add_tally. simpl. reflexivity.
      * rewrite map_filter_insert_False by done.
        by rewrite delete_id by done.
    + intros n. unfold bump. rewrite !dom_insert_L, !elem_of_union,
        !elem_of_singleton, Hd. split.
      * intros [-> | (v & Hv & E)]; [exists i | exists v];
          rewrite elem_of_union, elem_of_singleton; eauto.
      * intros (v & Hv & E). rewrite elem_of_union, elem_of_singleton in Hv.
        destruct Hv as [-> | Hv]; eauto.
Qed.

Lemma clean_vehicle_types_totals (t : gmap string tally) :
  map_sum injured (clean_vehicle_types t) = map_sum injured t ∧
  map_sum killed (clean_vehicle_types t) = map_sum killed t.
Proof.
  unfold clean_vehicle_types.
  apply (map_fold_weak_ind (λ (r m : gmap string tally),
    map_sum injured r = map_sum injured m ∧ map_sum killed r = map_sum killed m)).
  - done.
  - intros i x m r Hi [Ei Ek].
    rewrite map_sum_bump_injured, map_sum_bump_killed, Ei, Ek.
    by rewrite !map_sum_insert_None by done.
Qed.

Lemma tally_map_eq (a b : gmap string tally) :
  (∀ n, n ∈ dom a ↔ n ∈ dom b) → (∀ n, tally_of a n = tally_of b n) → a = b.
Proof.
  intros Hd Ht. apply map_eq. intros n.
  specialize (Hd n). specialize (Ht n). rewrite !elem_of_dom in Hd.
  unfold tally_of in Ht.
  destruct (a !! n) as [x |], (b !! n) as [y |]; simpl in *.
  - by rewrite Ht.
  - destruct Hd as [Hd _]. by destruct Hd; [eauto |].
  - destruct Hd as [_ Hd]. by destruct Hd; [eauto |].
  - done.
Qed.

Lemma filter_fixed_keys (X : gmap string tally) (n : string) :
  (∀ v, v ∈ dom X → clean_name v = v) →
  filter (λ kv : string * tally, clean_name kv.1 = n) X
  = match X !! n with Some x => {[ n := x ]} | None => ∅ end.
Proof.
  intros Hfix. apply map_eq. intros v. apply option_eq. intros y.
  rewrite map_lookup_filter_Some. simpl. split.
  - intros [Hv E]. rewrite Hfix in E by (apply elem_of_dom; eauto). subst v.
    rewrite Hv. by rewrite lookup_singleton_eq.
  - destruct (X !! n) as [x |] eqn:En.
    + intros [<- <-]%lookup_singleton_Some. split; [done |].
      apply Hfix, elem_of_dom. eauto.
    + by rewrite lookup_empty.
Qed.

Lemma map_sum_singleton (f : tally → Qc) (n : string) (x : tally) :
  map_sum f ({[ n := x ]} : gmap string tally) = f x.
Proof.
  rewrite <- insert_empty, map_sum_insert_None by apply lookup_empty.
  rewrite map_sum_empty. ring.
Qed.

(** X6.  [clean_vehicle_types] merges the per-label tallies under the
    cleaned names and loses nothing: the tally of a cleaned name is the
    sum of the tallies of the labels that clean to it, a name is a key of
    the result exactly when some label of the input cleans to it, the
    grand totals of injured and killed are those of the input, cleaned
    names clean to themselves, and cleaning a cleaned table changes
    nothing. *)
Theorem clean_vehicle_types_merges (t : gmap string tally) :
  (∀ n, tally_of (clean_vehicle_types t) n
        = Tally (map_sum injured (filter (λ kv, clean_name kv.1 = n) t))
                (map_sum killed (filter (λ kv, clean_name kv.1 = n) t))) ∧
  (∀ n, n ∈ dom (clean_vehicle_types t) ↔ ∃ v, v ∈ dom t ∧ clean_name v = n) ∧
  map_sum injured (clean_vehicle_types t) = map_sum injured t ∧
  map_sum killed (clean_vehicle_types t) = map_sum killed t ∧
  (∀ v, clean_name (clean_name v) = clean_name v) ∧
  clean_vehicle_types (clean_vehicle_types t) = clean_vehicle_types t.
Proof.
  destruct (clean_vehicle_types_reads t) as [Hr Hd].
  destruct (clean_vehicle_types_totals t) as [Ei Ek].
  split; [exact Hr | split; [exact Hd | split; [exact Ei | split; [exact Ek |]]]].
  split; [apply clean_name_idemp |].
  set (X := clean_vehicle_types t) in *.
  assert (Hfix : ∀ v, v ∈ dom X → clean_name v = v).
  { intros v (v0 & _ & <-)%Hd. apply clean_name_idemp. }
  destruct (clean_vehicle_types_reads X) as [HrX HdX].
  apply tally_map_eq.
  - intros n. rewrite HdX. split.
    + intros (v & Hv & <-). by rewrite Hfix.
    + intros Hn. exists n. split; [done | by apply Hfix].
  - intros n. rewrite HrX, (filter_fixed_keys X n Hfix).
    unfold tally_of. destruct (X !! n) as [[i k] |]; simpl.
    + by rewrite !map_sum_singleton.
    + by rewrite !map_sum_empty.
Qed.

(** ** The yearly totals of the report *)

Lemma tally_of_empty `{Countable K} (k : K) :
  tally_of (∅ : gmap K tally) k = zero_tally.
Proof. unfold tally_of. by rewrite lookup_empty. Qed.

Lemma tally_of_None `{Countable K} (m : gmap K tally) (k : K) :
  m !! k = None → tally_of m k = zero_tally.
Proof. unfold tally_of. by intros ->. Qed.

Lemma tally_of_insert `{Countable K} (m : gmap K tally) (j k : K) (d : tally) :
  tally_of (<[j:=d]> m) k = if decide (j = k) then d else tally_of m k.
Proof.
  unfold tally_of. destruct (decide (j = k)) as [<- | Hjk].
  - by rewrite lookup_insert_eq.
  - by rewrite lookup_insert_ne.
Qed.

Lemma totals_inner (r x : gmap Z tally) (y : Z) :
  tally_of (map_fold (λ year data totals,
                        bump totals year (injured data) (killed data)) r x) y
  = add_tally (tally_of r y) (injured (tally_of x y)) (killed (tally_of x y)).
Proof.
  revert y.
  apply (map_fold_weak_ind (λ (r' x' : gmap Z tally), ∀ y,
    tally_of r' y
    = add_tally (tally_of r y) (injured (tally_of x' y)) (killed (tally_of x' y)))).
  - intros y. rewrite tally_of_empty. simpl. by rewrite add_tally_0.
  - intros j d x' r' Hj IH y. rewrite tally_of_bump, tally_of_insert.
    destruct (decide (j = y)) as [<- | Hy]; rewrite IH; [| done].
    rewrite (tally_of_None x' j Hj). simpl. by rewrite add_tally_0.
Qed.

Lemma totals_by_year_reads (t : gmap string (gmap Z tally)) (y : Z) :
  tally_of (totals_by_year t) y
  = Tally (map_sum (λ m, injured (tally_of m y)) t)
          (map_sum (λ m, killed (tally_of m y)) t).
Proof.
  revert y. unfold totals_by_year.
  apply (map_fold_weak_ind (λ (r : gmap Z tally) (m : gmap string (gmap Z tally)),
    ∀ y, tally_of r y
         = Tally (map_sum (λ m, injured (tally_of m y)) m)
                 (map_sum (λ m, killed (tally_of m y)) m))).
  - intros y. by rewrite !map_sum_empty.
  - intros c x m r Hc IH y. rewrite totals_inner, IH.
    rewrite !map_sum_insert_None by done.
    unfold add_tally. simpl. reflexivity.
Qed.

Lemma year_sum_bump_year (t : gmap string (gmap Z tally)) c y di dk y' :
  map_sum (λ m, injured (tally_of m y')) (bump_year t c y di dk)
  = map_sum (λ m, injured (tally_of m y')) t + (if decide (y = y') then di else 0)
  ∧ map_sum (λ m, killed (tally_of m y')) (bump_year t c y di dk)
    = map_sum (λ m, killed (tally_of m y')) t + (if decide (y = y') then dk else 0).
Proof.
  unfold bump_year. rewrite !map_sum_insert, !tally_of_bump.
  destruct (t !! c) as [m0 |] eqn:E; simpl.
  - rewrite (map_sum_delete (λ m, injured (tally_of m y')) t c m0 E).
    rewrite (map_sum_delete (λ m, killed (tally_of m y')) t c m0 E).
    destruct (decide (y = y')) as [<- | Hy]; simpl; split; ring.
  - rewrite delete_id by done. rewrite !tally_of_empty. simpl.
    destruct (decide (y = y')); simpl; split; ring.
Qed.

Lemma year_sum_foldl (t : gmap string (gmap Z tally)) l y di dk y' :
  map_sum (λ m, injured (tally_of m y')) (foldl (λ t c, bump_year t c y di dk) t l)
  = map_sum (λ m, injured (tally_of m y')) t
    + times (length l) (if decide (y = y') then di else 0)
  ∧ map_sum (λ m, killed (tally_of m y')) (foldl (λ t c, bump_year t c y di dk) t l)
    = map_sum (λ m, killed (tally_of m y')) t
      + times (length l) (if decide (y = y') then dk else 0).
Proof.
  revert t. induction l as [| c l IH]; intros t; simpl.
  - rewrite !times_0. split; ring.
  - destruct (IH (bump_year t c y di dk)) as [Ei Ek].
    destruct (year_sum_bump_year t c y di dk y') as [Bi Bk].
    rewrite Ei, Ek, Bi, Bk, !times_S. split; ring.
Qed.

Lemma yearly_body_year_sum (factor : Qc) (t : gmap string (gmap Z tally)) (r : row) :
  ∃ t', Yearly.body factor t r = Some t' ∧
    ∀ y, map_sum (λ m, injured (tally_of m y)) t'
         = map_sum (λ m, injured (tally_of m y)) t
           + row_total factor (λ x, x.1.1) r y
         ∧ map_sum (λ m, killed (tally_of m y)) t'
           = map_sum (λ m, killed (tally_of m y)) t
             + row_total factor (λ x, x.1.2) r y.
Proof.
  unfold row_total.
  destruct (Yearly.convert r) as [[[i k] y0] |] eqn:Hc.
  - destruct (decide (Yearly.vehicles_in_collision r = [])) as [Hv | Hv].
    + exists t. split; [unfold Yearly.body; by rewrite Hc, Hv |].
      intros y. rewrite bool_decide_eq_false_2 by tauto. split; ring.
    + eexists. split.
      { rewrite (yearly_body_rows _ _ _ _ _ _ Hc Hv). by apply distribute_Some. }
      intros y.
      set (u := dict_fromkeys (Yearly.vehicles_in_collision r)).
      destruct (year_sum_foldl t u y0
                  (Yearly.scaled factor y0 i / len u)
                  (Yearly.scaled factor y0 k / len u) y) as [Ei Ek].
      rewrite Ei, Ek. simpl.
      destruct (decide (y0 = y)) as [<- | Hy].
      * rewrite bool_decide_eq_true_2 by done.
        by rewrite !times_len_div by (by apply dict_fromkeys_ne_nil).
      * rewrite bool_decide_eq_false_2 by tauto.
        unfold times. split; ring.
  - exists t. split; [unfold Yearly.body; by rewrite Hc |].
    intros y. split; ring.
Qed.

(** X7.  The yearly totals of the report ([totals_by_year], all
    categories added up) are, year by year, the sum of the injured and of
    the killed counts (scaled in 2025) of the rows of that year whose
    conversions succeed and that have at least one category: no casualty
    of such a row is lost or counted twice by the split. *)
Theorem yearly_report_totals (factor : Qc) (df : list row) :
  ∃ t, Yearly.fold_rows factor df = Some t ∧
    ∀ y, tally_of (totals_by_year t) y
         = Tally (sumQ ((λ r, row_total factor (λ x, x.1.1) r y) <$> df))
                 (sumQ ((λ r, row_total factor (λ x, x.1.2) r y) <$> df)).
Proof.
  assert (Hgen : ∀ l (t0 : gmap string (gmap Z tally)),
    ∃ t, iterrows (Yearly.body factor) t0 l = Some t ∧
      ∀ y, map_sum (λ m, injured (tally_of m y)) t
           = map_sum (λ m, injured (tally_of m y)) t0
             + sumQ ((λ r, row_total factor (λ x, x.1.1) r y) <$> l)
           ∧ map_sum (λ m, killed (tally_of m y)) t
             = map_sum (λ m, killed (tally_of m y)) t0
               + sumQ ((λ r, row_total factor (λ x, x.1.2) r y) <$> l)).
  { induction l as [| r l IH]; intros t0.
    - exists t0. split; [done |]. intros y. rewrite !fmap_nil.
      unfold sumQ; simpl. split; ring.
    - destruct (yearly_body_year_sum factor t0 r) as (t1 & E1 & H1).
      destruct (IH t1) as (t & E & Ht).
      exists t. split; [cbn [iterrows]; rewrite E1; exact E |].
      intros y. destruct (Ht y) as [Ei Ek], (H1 y) as [Fi Fk].
      rewrite Ei, Ek, Fi, Fk, !fmap_cons, !sumQ_cons. split; ring. }
  destruct (Hgen df ∅) as (t & Ht & Hs).
  exists t. split; [exact Ht |].
  intros y. rewrite totals_by_year_reads.
  destruct (Hs y) as [Ei Ek]. rewrite Ei, Ek, !map_sum_empty.
  f_equal; ring.
Qed.

(** ** The rates of the reports *)

Lemma Qc_div_le_1 (a b : Qc) : 0 < b → a ≤ b → a / b ≤ 1.
Proof.
  intros Hb Hab. unfold Qcdiv.
  rewrite <- (Qcmult_inv_r b) by (by apply not_symmetry, Qclt_not_eq).
  apply Qcmult_le_mono_nonneg_r; [| done].
  apply Qclt_le_weak. by apply Qcinv_pos.
Qed.

Lemma Qc_le_add_l (a b : Qc) : 0 ≤ a → b ≤ a + b.
Proof.
  intros Ha. rewrite <- (Qcplus_0_l b) at 1. by apply Qcplus_le_mono_r.
Qed.

(** X8.  The guarded fatality rate of the reports never divides by zero
    and, for tallies that are not negative, lies between 0 and 100; the
    overall rate of [generate_console_report] has no guard: it is
    returned exactly when the grand total is not zero, so on the table of
    a frame whose labelled rows have counts summing to zero (for one, a
    frame without any usable label) the report stops with a division by
    zero. *)
Theorem fatality_rate_guards (i k : Qc) (df : list row) :
  (∃ rate, fatal_rate i k = Some rate ∧
     (0 ≤ i → 0 ≤ k → 0 ≤ rate ∧ rate ≤ Qc_of_Z 100) ∧
     (i + k ≤ 0 → rate = 0)) ∧
  (∀ t, is_Some (console_overall_rate t)
        ↔ map_sum injured t + map_sum killed t ≠ 0) ∧
  (∃ t, Flat.extract_and_categorize_vehicles df = Some t ∧
     (console_overall_rate t = None
      ↔ sumQ (labelled_count fst <$> df) + sumQ (labelled_count snd <$> df) = 0)) ∧
  console_overall_rate ∅ = None.
Proof.
  assert (Hiff : ∀ t : gmap string tally, is_Some (console_overall_rate t)
                      ↔ map_sum injured t + map_sum killed t ≠ 0).
  { intros t. unfold console_overall_rate, py_truediv. cbv zeta.
    case_bool_decide as E; simpl.
    - split; [by intros [? ?] | done].
    - split; [done | eauto]. }
  split; [| split; [exact Hiff | split]].
  - unfold fatal_rate, py_truediv. cbv zeta.
    case_bool_decide as Ht.
    + rewrite bool_decide_eq_false_2 by (by apply not_symmetry, Qclt_not_eq).
      simpl. eexists. split; [done |]. split.
      * intros Hi Hk. split.
        -- apply Qc_mul_nonneg; [by apply Qc_div_nonneg | by apply Qc_of_Z_nonneg].
        -- rewrite <- (Qcmult_1_l (Qc_of_Z 100)) at 2.
           apply Qcmult_le_mono_nonneg_r; [by apply Qc_of_Z_nonneg |].
           apply Qc_div_le_1; [done | by apply Qc_le_add_l].
      * intros Hle. exfalso. by apply (Qclt_not_le _ _ Ht).
    + exists 0. split; [done |]. split; [| done].
      intros _ _. split; [done | by apply Qc_of_Z_nonneg].
  - destruct (iterrows_total_sum _ body_categories_total df ∅)
      as (t & Ht & Ei & Ek).
    rewrite !map_sum_empty, !Qcplus_0_l in Ei, Ek.
    exists t. split; [exact Ht |].
    rewrite <- Ei, <- Ek, eq_None_not_Some, Hiff.
    destruct (decide (map_sum injured t + map_sum killed t = 0)); tauto.
  - apply eq_None_not_Some. rewrite Hiff, !map_sum_empty.
    intros Hne. apply Hne. ring.
Qed.

Lemma fatality_rate_guards_witness :
  0 ≤ Qc_of_Z 3 ∧ 0 ≤ Qc_of_Z 1 ∧
  ∃ rate, fatal_rate (Qc_of_Z 3) (Qc_of_Z 1) = Some rate
          ∧ 0 ≤ rate ∧ rate ≤ Qc_of_Z 100.
Proof.
  assert (H3 : 0 ≤ Qc_of_Z 3) by (by apply Qc_of_Z_nonneg).
  assert (H1 : 0 ≤ Qc_of_Z 1) by (by apply Qc_of_Z_nonneg).
  split; [exact H3 | split; [exact H1 |]].
  destruct (proj1 (fatality_rate_guards (Qc_of_Z 3) (Qc_of_Z 1) []))
    as (rate & Hr & Hrange & _).
  exists rate. split; [exact Hr | exact (Hrange H3 H1)].
Defined.

(** ** Bounds on the projection factor *)

Lemma Qc_div_mul_cancel (a b : Qc) : b ≠ 0 → a / b * b = a.
Proof. intros Hb. field. done. Qed.

(** X9.  The projection factor is always positive; with 1 to 365 observed
    days it is at least 1, so the projected count of a 2025 row is never
    below the count itself; with more than 365 days it is below 1 and
    shrinks the counts; and it is exactly 1 just when the days are 365 or
    not positive. *)
Theorem projection_factor_bounds (days_in_2025 : Z) (factor : Qc) (x : Z) :
  projection_factor days_in_2025 = Some factor →
  0 < factor ∧
  ((0 < days_in_2025 ≤ 365)%Z → 1 ≤ factor) ∧
  ((0 < days_in_2025 ≤ 365)%Z → (0 ≤ x)%Z →
     Qc_of_Z x ≤ Yearly.scaled factor 2025 x) ∧
  ((365 < days_in_2025)%Z → factor < 1) ∧
  (factor = 1 ↔ (days_in_2025 ≤ 0)%Z ∨ days_in_2025 = 365%Z).
Proof.
  unfold projection_factor, py_truediv. case_bool_decide as Hd.
  - case_bool_decide as Hz; [done |]. intros [= <-].
    assert (Hp : 0 < Qc_of_Z days_in_2025) by (by apply Qc_of_Z_pos).
    assert (Hc : Qc_of_Z 365 / Qc_of_Z days_in_2025 * Qc_of_Z days_in_2025
                 = Qc_of_Z 365) by (by apply Qc_div_mul_cancel).
    assert (Hge : (days_in_2025 ≤ 365)%Z
                  → 1 ≤ Qc_of_Z 365 / Qc_of_Z days_in_2025).
    { intros Hle. apply (Qcmult_le_mono_pos_r _ _ _ Hp).
      rewrite Hc, Qcmult_1_l. by apply (proj1 (Z2Qc_inj_le _ _)). }
    split; [| split; [| split; [| split]]].
    + unfold Qcdiv. apply Qcmult_pos_pos; [by apply Qc_of_Z_pos |].
      by apply Qcinv_pos.
    + intros [_ Hle]. by apply Hge.
    + intros [_ Hle] Hx. unfold Yearly.scaled.
      rewrite bool_decide_eq_true_2 by done.
      rewrite <- (Qcmult_1_r (Qc_of_Z x)) at 1.
      apply Qcmult_le_mono_nonneg_l; [by apply Qc_of_Z_nonneg | by apply Hge].
    + intros Hgt. apply (Qcmult_lt_mono_pos_r _ _ _ Hp).
      rewrite Hc, Qcmult_1_l. by apply (proj1 (Z2Qc_inj_lt _ _)).
    + split.
      * intros E. right. apply Z2Qc_inj.
        rewrite <- Hc, E. by rewrite Qcmult_1_l.
      * intros [Hle | ->]; [lia |]. field. done.
  - intros [= <-]. split; [done |]. split; [lia |]. split; [lia |].
    split; [lia |]. split; [intros _; left; lia | done].
Qed.

Lemma projection_factor_bounds_witness :
  projection_factor 236 = Some (Qc_of_Z 365 / Qc_of_Z 236) ∧
  (0 < 236 ≤ 365)%Z ∧ (0 ≤ 100)%Z ∧
  1 ≤ Qc_of_Z 365 / Qc_of_Z 236 ∧
  Qc_of_Z 100 ≤ Yearly.scaled (Qc_of_Z 365 / Qc_of_Z 236) 2025 100.
Proof.
  assert (Hf : projection_factor 236 = Some (Qc_of_Z 365 / Qc_of_Z 236))
    by (by vm_compute).
  assert (Hd : (0 < 236 ≤ 365)%Z) by lia.
  assert (Hx : (0 ≤ 100)%Z) by lia.
  split; [exact Hf | split; [exact Hd | split; [exact Hx |]]].
  destruct (projection_factor_bounds 236 _ 100 Hf) as (_ & H1 & Hs & _).
  split; [exact (H1 Hd) | exact (Hs Hd Hx)].
Defined.

(** ** The bike filter and the two classifiers *)

Lemma foldl_orb_true {A : Type} (p : A → bool) (l : list A) (b : bool) :
  foldl (λ mask a, mask || p a) b l = true ↔ b = true ∨ ∃ a, a ∈ l ∧ p a = true.
Proof.
  revert b. induction l as [| a l IH]; intros b; simpl.
  - split; [by left |]. intros [? | (a & Ha & _)]; [done |].
    by apply elem_of_nil in Ha.
  - rewrite IH, orb_true_iff. split.
    + intros [[? | ?] | (a' & Ha' & ?)]; [by left | right | right].
      * exists a. split; [left | done].
      * exists a'. split; [by right | done].
    + intros [? | (a' & Ha' & Hp)]; [by left; left |].
      apply elem_of_cons in Ha' as [-> | Ha']; [by left; right |].
      right. eauto.
Qed.

Lemma bike_types_are_keys :
  Forall (λ s : string, PyStr.strip s = s ∧ is_Some (bike_mapping !! s))
         bike_types.
Proof.
  repeat constructor; try (by vm_compute); by eexists; vm_compute.
Qed.

Lemma isin_bike_of (cell : option string) :
  isin cell bike_types = true → is_Some (Bike.bike_of cell).
Proof.
  destruct cell as [s |]; [| done]. simpl. intros Hs%bool_decide_eq_true.
  pose proof bike_types_are_keys as HF. rewrite Forall_forall in HF.
  destruct (HF s Hs) as [-> ?]. done.
Qed.

Lemma bike_keys_coarse :
  Forall (λ kv : string * string,
            kv.1 ≠ ""%string
            ∧ (PyStr.upper kv.1 ∉ [""; "UNKNOWN"; "NAN"]%string)
            ∧ classify kv.1 = Bicycles_Scooters)
         bike_mapping_items.
Proof. apply (bool_decide_unpack _). vm_compute. exact I. Qed.

Lemma bike_of_category_of (vehicle : option string) (c : string) :
  Bike.bike_of vehicle = Some c →
  Yearly.category_of vehicle = Some Bicycles_Scooters.
Proof.
  destruct vehicle as [s |]; [| done]. simpl. intros E.
  apply elem_of_list_to_map_2 in E.
  pose proof bike_keys_coarse as HF. rewrite Forall_forall in HF.
  destruct (HF _ E) as (H1 & H2 & H3). simpl in *.
  unfold Yearly.category_of, valid_vehicle.
  rewrite (bool_decide_eq_false_2 _ H1), (bool_decide_eq_false_2 _ H2).
  simpl. by rewrite H3.
Qed.

Lemma bikes_in_yearly (r : row) (c : string) :
  c ∈ Bike.bikes_in_collision r →
  Bicycles_Scooters ∈ Yearly.vehicles_in_collision r.
Proof.
  unfold Bike.bikes_in_collision, Yearly.vehicles_in_collision.
  rewrite !list_elem_of_omap. intros (v & Hv & Hb).
  exists v. split; [done | by eapply bike_of_category_of].
Qed.

(** X10.  A row that passes the bike filter of the loader has at least one
    label that the bike fold counts; so, when its conversions succeed and
    its year is 2020 or later, the fold gives it a bucket of its year
    under one of the three bike types.  The filter is the stricter of the
    two tests: it compares the raw text, the fold the trimmed one, so a
    label with blanks around it is counted by the fold but not let
    through by the filter. *)
Theorem bike_filter_rows_are_counted (factor : Qc)
    (t : gmap string (gmap Z tally)) (r : row) (i k y : Z) :
  bike_mask r = true →
  Bike.bikes_in_collision r ≠ [] ∧
  (Yearly.convert r = Some (i, k, y) → (2020 ≤ y)%Z →
     ∃ t' c, Bike.body factor t r = Some t' ∧ c ∈ bike_categories
             ∧ has_bucket t' c y) ∧
  (bike_mask padded_bike_row = false
   ∧ Bike.bikes_in_collision padded_bike_row = ["Traditional Bicycle"%string]).
Proof.
  intros Hm. unfold bike_mask in Hm. apply foldl_orb_true in Hm.
  destruct Hm as [? | (cell & Hcell & Hin)]; [done |].
  destruct (isin_bike_of cell Hin) as [c Hc].
  assert (Hmem : c ∈ Bike.bikes_in_collision r).
  { unfold Bike.bikes_in_collision. apply list_elem_of_omap. eauto. }
  assert (Hne : Bike.bikes_in_collision r ≠ []).
  { intros E. rewrite E in Hmem. by apply elem_of_nil in Hmem. }
  split; [exact Hne | split; [| by vm_compute]].
  intros Hcv Hy. eexists _, c. split; [| split].
  - rewrite (bike_body_rows _ _ _ _ _ _ Hcv Hy Hne). by apply distribute_Some.
  - by eapply bikes_in_collision_range.
  - apply has_bucket_foldl. left. split; [| done].
    by apply elem_of_dict_fromkeys.
Qed.

Lemma bike_filter_rows_are_counted_witness :
  bike_mask bike_row_2019 = true ∧
  Bike.bikes_in_collision bike_row_2019 ≠ [].
Proof.
  assert (Hm : bike_mask bike_row_2019 = true) by (by vm_compute).
  split; [exact Hm |].
  exact (proj1 (bike_filter_rows_are_counted 1 ∅ bike_row_2019 5 0 2019 Hm)).
Defined.

(** X11.  The two scripts agree on what a bike is: every label that the
    bike fold counts is classified as Bicycles/Scooters by the coarse
    table, so whenever the bike table of a frame has a bucket for a bike
    type in a year, the yearly table of the same frame has a
    Bicycles/Scooters bucket in that year. *)
Theorem bike_buckets_are_bicycle_scooter_buckets (factor factor' : Qc)
    (df : list row) :
  (∀ vehicle c, Bike.bike_of vehicle = Some c →
                Yearly.category_of vehicle = Some Bicycles_Scooters) ∧
  ∃ tb ty, Bike.fold_rows factor df = Some tb ∧
           Yearly.fold_rows factor' df = Some ty ∧
           ∀ c y, has_bucket tb c y → has_bucket ty Bicycles_Scooters y.
Proof.
  split; [apply bike_of_category_of |].
  destruct (iterrows_buckets _ _ (bike_bucket_body factor) df ∅)
    as (tb & Htb & Hb & _).
  destruct (iterrows_buckets _ _ (yearly_bucket_body factor') df ∅)
    as (ty & Hty & Hy & _).
  exists tb, ty. split; [exact Htb | split; [exact Hty |]].
  intros c y Hbk. apply Hb in Hbk as [H0 | (r & Hr & i & k & Hc & _ & Hin)];
    [by apply has_bucket_empty in H0 |].
  apply Hy. right. exists r. split; [done |].
  exists i, k. split; [done | by eapply bikes_in_yearly].
Qed.

Lemma category_items_case_variants :
  Forall (λ kv : string * string,
            PyStr.upper kv.1 ∈ dom get_vehicle_category_mapping →
            classify (PyStr.upper kv.1) = kv.2)
         vehicle_category_items.
Proof. apply (bool_decide_unpack _). vm_compute. exact I. Qed.

Lemma bike_items_case_variants :
  Forall (λ kv : string * string,
            PyStr.upper kv.1 ∈ dom bike_mapping →
            bike_mapping !! PyStr.upper kv.1 = Some kv.2)
         bike_mapping_items.
Proof. apply (bool_decide_unpack _). vm_compute. exact I. Qed.

Lemma category_items_functional :
  Forall (λ kv : string * string,
            get_vehicle_category_mapping !! kv.1 = Some kv.2)
         vehicle_category_items.
Proof. apply (bool_decide_unpack _). vm_compute. exact I. Qed.

(** X12.  Upper-case variants: whenever a key of the coarse table has its
    upper-case form in the table too, both get the same category, and the
    same holds for [bike_mapping]; the lookup itself is case-sensitive, so
    a key whose upper-case form is not in the table (Motorbike) loses its
    category to the fallback when written in capitals. *)
Theorem upper_case_variants_agree (s : string) :
  (s ∈ dom get_vehicle_category_mapping →
   PyStr.upper s ∈ dom get_vehicle_category_mapping →
   classify (PyStr.upper s) = classify s) ∧
  (s ∈ dom bike_mapping → PyStr.upper s ∈ dom bike_mapping →
   bike_mapping !! PyStr.upper s = bike_mapping !! s) ∧
  (classify "Motorbike" = "Motorcycles"%string
   ∧ classify (PyStr.upper "Motorbike") = Other_Unknown).
Proof.
  split; [| split; [| by vm_compute]].
  - intros [c Hc]%elem_of_dom Hu.
    pose proof category_items_case_variants as HF. rewrite Forall_forall in HF.
    pose proof (elem_of_list_to_map_2 _ _ _ Hc) as Hin.
    pose proof (HF _ Hin Hu) as E. simpl in E. rewrite E.
    unfold classify. by rewrite Hc.
  - intros [c Hc]%elem_of_dom Hu.
    pose proof bike_items_case_variants as HF. rewrite Forall_forall in HF.
    pose proof (elem_of_list_to_map_2 _ _ _ Hc) as Hin.
    pose proof (HF _ Hin Hu) as E. simpl in E. by rewrite E, Hc.
Qed.

Lemma upper_case_variants_agree_witness :
  "Sedan"%string ∈ dom get_vehicle_category_mapping ∧
  PyStr.upper "Sedan" ∈ dom get_vehicle_category_mapping ∧
  classify (PyStr.upper "Sedan") = classify "Sedan".
Proof.
  assert (H1 : "Sedan"%string ∈ dom get_vehicle_category_mapping) by mem_true.
  assert (H2 : PyStr.upper "Sedan" ∈ dom get_vehicle_category_mapping)
    by mem_true.
  split; [exact H1 | split; [exact H2 |]].
  exact (proj1 (upper_case_variants_agree "Sedan") H1 H2).
Defined.

(** ** The yearly totals of the bike analysis *)

Lemma bike_body_year_sum (factor : Qc) (t : gmap string (gmap Z tally)) (r : row) :
  ∃ t', Bike.body factor t r = Some t' ∧
    ∀ y, map_sum (λ m, injured (tally_of m y)) t'
         = map_sum (λ m, injured (tally_of m y)) t
           + bike_row_total factor (λ x, x.1.1) r y
         ∧ map_sum (λ m, killed (tally_of m y)) t'
           = map_sum (λ m, killed (tally_of m y)) t
             + bike_row_total factor (λ x, x.1.2) r y.
Proof.
  unfold bike_row_total.
  destruct (Yearly.convert r) as [[[i k] y0] |] eqn:Hc.
  - destruct (decide (y0 < 2020)%Z) as [Hlt | Hge].
    { exists t. split.
      - unfold Bike.body. by rewrite Hc, bool_decide_eq_true_2.
      - intros y. rewrite bool_decide_eq_false_2 by lia. split; ring. }
    destruct (decide (Bike.bikes_in_collision r = [])) as [Hv | Hv].
    + exists t. split.
      * unfold Bike.body. by rewrite Hc, bool_decide_eq_false_2, Hv.
      * intros y. rewrite bool_decide_eq_false_2 by tauto. split; ring.
    + eexists. split.
      { rewrite (bike_body_rows _ _ _ _ _ _ Hc) by (done || lia).
        by apply distribute_Some. }
      intros y.
      set (u := dict_fromkeys (Bike.bikes_in_collision r)).
      destruct (year_sum_foldl t u y0
                  (Yearly.scaled factor y0 i / len u)
                  (Yearly.scaled factor y0 k / len u) y) as [Ei Ek].
      rewrite Ei, Ek. simpl.
      destruct (decide (y0 = y)) as [<- | Hy].
      * rewrite bool_decide_eq_true_2 by (split; [done | split; [lia | done]]).
        by rewrite !times_len_div by (by apply dict_fromkeys_ne_nil).
      * rewrite bool_decide_eq_false_2 by tauto.
        unfold times. split; ring.
  - exists t. split; [unfold Bike.body; by rewrite Hc |].
    intros y. split; ring.
Qed.

(** X13.  The yearly totals that [generate_bike_analysis_data] sums over
    the bike types are, year by year, the sum of the injured and killed
    counts (scaled in 2025) of the rows of that year, 2020 or later,
    whose conversions succeed and that carry a bike label; for a year
    before 2020 they are zero. *)
Theorem bike_analysis_yearly_totals (factor : Qc) (df : list row) :
  ∃ t, Bike.fold_rows factor df = Some t ∧
    (∀ y, map_sum (λ m, injured (tally_of m y)) t
          = sumQ ((λ r, bike_row_total factor (λ x, x.1.1) r y) <$> df)
          ∧ map_sum (λ m, killed (tally_of m y)) t
            = sumQ ((λ r, bike_row_total factor (λ x, x.1.2) r y) <$> df)) ∧
    (∀ y, (y < 2020)%Z →
          map_sum (λ m, injured (tally_of m y)) t = 0
          ∧ map_sum (λ m, killed (tally_of m y)) t = 0).
Proof.
  assert (Hgen : ∀ l (t0 : gmap string (gmap Z tally)),
    ∃ t, iterrows (Bike.body factor) t0 l = Some t ∧
      ∀ y, map_sum (λ m, injured (tally_of m y)) t
           = map_sum (λ m, injured (tally_of m y)) t0
             + sumQ ((λ r, bike_row_total factor (λ x, x.1.1) r y) <$> l)
           ∧ map_sum (λ m, killed (tally_of m y)) t
             = map_sum (λ m, killed (tally_of m y)) t0
               + sumQ ((λ r, bike_row_total factor (λ x, x.1.2) r y) <$> l)).
  { induction l as [| r l IH]; intros t0.
    - exists t0. split; [done |]. intros y. rewrite !fmap_nil.
      unfold sumQ; simpl. split; ring.
    - destruct (bike_body_year_sum factor t0 r) as (t1 & E1 & H1).
      destruct (IH t1) as (t & E & Ht).
      exists t. split; [cbn [iterrows]; rewrite E1; exact E |].
      intros y. destruct (Ht y) as [Ei Ek], (H1 y) as [Fi Fk].
      rewrite Ei, Ek, Fi, Fk, !fmap_cons, !sumQ_cons. split; ring. }
  destruct (Hgen df ∅) as (t & Ht & Hs).
  assert (Hsum : ∀ y,
    map_sum (λ m, injured (tally_of m y)) t
    = sumQ ((λ r, bike_row_total factor (λ x, x.1.1) r y) <$> df)
    ∧ map_sum (λ m, killed (tally_of m y)) t
      = sumQ ((λ r, bike_row_total factor (λ x, x.1.2) r y) <$> df)).
  { intros y. destruct (Hs y) as [Ei Ek].
    rewrite Ei, Ek, !map_sum_empty. split; ring. }
  exists t. split; [exact Ht | split; [exact Hsum |]].
  intros y Hy. destruct (Hsum y) as [Ei Ek]. rewrite Ei, Ek.
  assert (Hz : ∀ field l,
    sumQ ((λ r, bike_row_total factor field r y) <$> l) = 0).
  { intros field l. induction l as [| r l IH]; [done |].
    rewrite fmap_cons, sumQ_cons, IH. unfold bike_row_total.
    destruct (Yearly.convert r) as [[[i k] y0] |]; [| ring].
    rewrite bool_decide_eq_false_2 by lia. ring. }
  by rewrite !Hz.
Qed.

Lemma bike_analysis_yearly_totals_witness :
  (2019 < 2020)%Z ∧
  ∃ t, Bike.fold_rows 1 [bike_row_2019] = Some t
       ∧ map_sum (λ m, injured (tally_of m 2019)) t = 0.
Proof.
  assert (Hy : (2019 < 2020)%Z) by lia.
  split; [exact Hy |].
  destruct (bike_analysis_yearly_totals 1 [bike_row_2019]) as (t & Ht & _ & Hz).
  exists t. split; [exact Ht | exact (proj1 (Hz 2019 Hy))].
Defined.

Example rates_years :
  match Rates.calculate_casualty_rates with
  | Some rs => Rates.r_year <$> rs
  | None => []
  end
  = (λ n, Z.of_nat n) <$> seq 2012 14.
Proof. vm_compute. reflexivity. Qed.

(** ** The casualty rates *)

Lemma map_sum_plus `{Countable K} {A : Type} (f g : A → Qc) (m : gmap K A) :
  map_sum (λ a, f a + g a) m = map_sum f m + map_sum g m.
Proof.
  induction m as [| k a m Hk IH] using map_ind.
  - rewrite !map_sum_empty. ring.
  - rewrite !map_sum_insert_None, IH by done. ring.
Qed.

Lemma has_bucket_insert (m : gmap string (gmap Z tally)) c x c' y :
  m !! c = None →
  has_bucket (<[c:=x]> m) c' y ↔ (c = c' ∧ is_Some (x !! y)) ∨ has_bucket m c' y.
Proof.
  intros Hc. unfold has_bucket. destruct (decide (c = c')) as [<- | Hne].
  - rewrite lookup_insert_eq, Hc. simpl. rewrite lookup_empty. split.
    + by left.
    + intros [[_ ?] | [? ?]]; done.
  - rewrite lookup_insert_ne by done. split; [by right |].
    intros [[? _] | ?]; done.
Qed.

Lemma rates_inner (acc : gmap Z Rates.totals) (x : gmap Z tally) :
  let acc' := map_fold (λ year casualties acc,
                          Rates.add_casualties acc year casualties) acc x in
  (∀ y, default Rates.zero_totals (acc' !! y)
        = let cur := default Rates.zero_totals (acc !! y) in
          Rates.Totals
            (Rates.total_injured cur + injured (tally_of x y))
            (Rates.total_killed cur + killed (tally_of x y))
            (Rates.total cur + (injured (tally_of x y) + killed (tally_of x y))))
  ∧ dom acc' = dom acc ∪ dom x.
Proof.
  cbv zeta.
  apply (map_fold_weak_ind (λ (acc' : gmap Z Rates.totals) (x' : gmap Z tally),
    (∀ y, default Rates.zero_totals (acc' !! y)
          = Rates.Totals
              (Rates.total_injured (default Rates.zero_totals (acc !! y))
               + injured (tally_of x' y))
              (Rates.total_killed (default Rates.zero_totals (acc !! y))
               + killed (tally_of x' y))
              (Rates.total (default Rates.zero_totals (acc !! y))
               + (injured (tally_of x' y) + killed (tally_of x' y))))
    ∧ dom acc' = dom acc ∪ dom x')).
  - split.
    + intros y. rewrite tally_of_empty. simpl.
      destruct (default Rates.zero_totals (acc !! y)) as [a b c]. simpl.
      f_equal; ring.
    + rewrite dom_empty_L. set_solver.
  - intros j d x' r' Hj [IH Hd]. split.
    + intros y. unfold Rates.add_casualties. rewrite tally_of_insert.
      destruct (decide (j = y)) as [<- | Hy].
      * rewrite lookup_insert_eq. simpl. rewrite IH, (tally_of_None x' j Hj).
        simpl. f_equal; ring.
      * rewrite lookup_insert_ne by done. apply IH.
    + unfold Rates.add_casualties. rewrite !dom_insert_L, Hd. set_solver.
Qed.

Lemma rates_yearly_totals (bc : gmap string (gmap Z tally)) :
  (∀ y, default Rates.zero_totals (Rates.yearly_totals bc !! y)
        = Rates.Totals
            (map_sum (λ m, injured (tally_of m y)) bc)
            (map_sum (λ m, killed (tally_of m y)) bc)
            (map_sum (λ m, injured (tally_of m y)) bc
             + map_sum (λ m, killed (tally_of m y)) bc))
  ∧ (∀ y, y ∈ dom (Rates.yearly_totals bc) ↔ ∃ c, has_bucket bc c y).
Proof.
  unfold Rates.yearly_totals.
  apply (map_fold_weak_ind
    (λ (r : gmap Z Rates.totals) (m : gmap string (gmap Z tally)),
      (∀ y, default Rates.zero_totals (r !! y)
            = Rates.Totals
                (map_sum (λ m, injured (tally_of m y)) m)
                (map_sum (λ m, killed (tally_of m y)) m)
                (map_sum (λ m, injured (tally_of m y)) m
                 + map_sum (λ m, killed (tally_of m y)) m))
      ∧ (∀ y, y ∈ dom r ↔ ∃ c, has_bucket m c y))).
  - split.
    + intros y. by rewrite lookup_empty, !map_sum_empty, Qcplus_0_l.
    + intros y. rewrite dom_empty_L. split; [set_solver |].
      intros [c Hc]. by apply has_bucket_empty in Hc.
  - intros c x m r Hc [IH Hd].
    destruct (rates_inner r x) as [Hr Hdom]. cbv zeta in Hr, Hdom. split.
    + intros y. rewrite Hr, IH, !map_sum_insert_None by done. simpl.
      f_equal. ring.
    + intros y. rewrite Hdom, elem_of_union, Hd, elem_of_dom. split.
      * intros [[c' Hc'] | Hx].
        -- exists c'. apply has_bucket_insert; [done | by right].
        -- exists c. apply has_bucket_insert; [done | by left].
      * intros [c' Hc']. apply has_bucket_insert in Hc'; [| done].
        destruct Hc' as [[_ ?] | ?]; [by right | left; eauto].
Qed.

Lemma rates_rate_of (year rides : Z) (tot : Rates.totals) :
  (0 < rides)%Z →
  ∃ r, Rates.rate_of year rides tot = Some r ∧
    Rates.r_year r = year ∧ Rates.r_rides r = rides ∧
    Rates.r_casualties r = Rates.total tot ∧
    Rates.r_injured r = Rates.total_injured tot ∧
    Rates.r_killed r = Rates.total_killed tot ∧
    Rates.casualty_rate_per_million r
      = Rates.total tot / Qc_of_Z rides * Rates.million ∧
    Rates.injury_rate_per_million r
      = Rates.total_injured tot / Qc_of_Z rides * Rates.million ∧
    Rates.fatality_rate_per_million r
      = Rates.total_killed tot / Qc_of_Z rides * Rates.million ∧
    Rates.is_projected r = bool_decide (year = 2025%Z).
Proof.
  intros Hr. unfold Rates.rate_of, py_truediv.
  rewrite (bool_decide_eq_false_2 (Qc_of_Z rides = 0))
    by (intros E; apply Qc_of_Z_eq_0 in E; lia).
  simpl. eexists. split; [done |]. simpl. repeat split.
Qed.

Lemma rates_loop_spec (ridership : gmap Z Z) (bc : gmap string (gmap Z tally))
    (years : list Z) :
  (∀ y, y ∈ years → y ∈ dom ridership) →
  ∃ rs, Rates.rates_loop ridership (Rates.yearly_totals bc) years = Some rs ∧
    Rates.r_year <$> rs
      = filter (λ y, y ∈ dom (Rates.yearly_totals bc)
                     ∧ (0 < default 0 (ridership !! y))%Z) years ∧
    Forall (rate_entry_ok ridership bc) rs.
Proof.
  destruct (rates_yearly_totals bc) as [Hyt _].
  induction years as [| y years IH]; intros Hsub.
  - exists []. done.
  - destruct IH as (rs & Hrs & Hy & Hok).
    { intros y' Hy'. apply Hsub. by right. }
    assert (Hyd : y ∈ dom ridership) by (apply Hsub; left).
    apply elem_of_dom in Hyd as [n Hn].
    cbn [Rates.rates_loop]. rewrite Hn. cbn [mbind option_bind].
    destruct (Rates.yearly_totals bc !! y) as [tot |] eqn:Et.
    + destruct (decide (0 < n)%Z) as [Hpos | Hnp].
      * rewrite bool_decide_eq_true_2 by done.
        destruct (rates_rate_of y n tot Hpos)
          as (r & Hr & E1 & E2 & E3 & E4 & E5 & E6 & E7 & E8 & E9).
        rewrite Hr, Hrs. cbn [mbind option_bind].
        exists (r :: rs). split; [done |]. split.
        -- rewrite fmap_cons, E1, filter_cons_True, Hy; [done |].
           split; [apply elem_of_dom; eauto | by rewrite Hn].
        -- constructor; [| done]. unfold rate_entry_ok.
           specialize (Hyt y). rewrite Et in Hyt. simpl in Hyt.
           rewrite E1, E2, E3, E4, E5, E6, E7, E8, E9, Hyt. simpl.
           repeat split; try done.
           unfold Qcdiv. ring.
      * rewrite bool_decide_eq_false_2 by done.
        exists rs. split; [done |]. split; [| done].
        rewrite filter_cons_False; [done |].
        intros [_ Hp]. by rewrite Hn in Hp.
    + exists rs. split; [done |]. split; [| done].
      rewrite filter_cons_False; [done |].
      intros [Hd _]. apply elem_of_dom in Hd as [? ?]. congruence.
Qed.

Lemma StronglySorted_filter {A : Type} (R : relation A) (P : A → Prop)
    `{∀ x, Decision (P x)} (l : list A) :
  StronglySorted R l → StronglySorted R (filter P l).
Proof.
  induction 1 as [| x l Hl IH Hx]; [constructor |].
  rewrite filter_cons. destruct (decide (P x)); [| done].
  constructor; [done |]. rewrite Forall_forall in Hx |- *.
  intros y [_ Hy]%list_elem_of_filter. auto.
Qed.

Lemma StronglySorted_le_lt (l : list Z) :
  NoDup l → StronglySorted Z.le l → StronglySorted Z.lt l.
Proof.
  intros Hnd Hs. induction Hs as [| x l Hl IH Hx]; [constructor |].
  apply NoDup_cons in Hnd as [Hx' Hnd]. constructor; [auto |].
  rewrite Forall_forall in Hx |- *. intros y Hy.
  specialize (Hx y Hy). assert (x ≠ y) by (intros ->; done). lia.
Qed.

Lemma sorted_keys_spec (ridership : gmap Z Z) :
  StronglySorted Z.lt (Rates.sorted_keys ridership) ∧
  ∀ y, y ∈ Rates.sorted_keys ridership ↔ y ∈ dom ridership.
Proof.
  unfold Rates.sorted_keys.
  pose proof (merge_sort_Permutation Z.le (elements (dom ridership))) as Hp.
  split.
  - apply StronglySorted_le_lt.
    + rewrite Hp. apply NoDup_elements.
    + apply StronglySorted_merge_sort; apply _.
  - intros y. rewrite Hp. apply elem_of_elements.
Qed.

(** X14.  [calculate_casualty_rates] never divides by zero and never
    misses a key: for any ridership table and any casualty table it
    returns its list.  The years of the list increase strictly; a year is
    in it exactly when its ridership is positive and some bike type has a
    tally for it; every entry carries the ridership of its year, the
    injured and killed summed over the bike types, casualties = injured +
    killed, the casualty rate casualties / rides * 1000000, which is the
    sum of the injury and the fatality rate, and the projected flag just
    for 2025. *)
Theorem casualty_rates_entries (ridership : gmap Z Z)
    (bike_casualties : gmap string (gmap Z tally)) :
  ∃ rs, Rates.casualty_rates_of ridership bike_casualties = Some rs ∧
    StronglySorted Z.lt (Rates.r_year <$> rs) ∧
    (∀ y, y ∈ Rates.r_year <$> rs ↔
            (∃ n, ridership !! y = Some n ∧ (0 < n)%Z)
            ∧ ∃ c, has_bucket bike_casualties c y) ∧
    Forall (rate_entry_ok ridership bike_casualties) rs.
Proof.
  destruct (sorted_keys_spec ridership) as [Hsorted Hkeys].
  destruct (rates_loop_spec ridership bike_casualties
              (Rates.sorted_keys ridership)) as (rs & Hrs & Hy & Hok).
  { intros y. apply Hkeys. }
  destruct (rates_yearly_totals bike_casualties) as [_ Hdom].
  exists rs. split; [exact Hrs |]. split; [| split; [| exact Hok]].
  - rewrite Hy. by apply StronglySorted_filter.
  - intros y. rewrite Hy, list_elem_of_filter, Hdom, Hkeys, elem_of_dom.
    split.
    + intros [[Hc Hp] [n Hn]]. rewrite Hn in Hp. eauto.
    + intros [(n & Hn & Hp) Hc]. rewrite Hn. eauto.
Qed.

(** ** The ridership projection *)

Lemma py_truediv_pos (a : Qc) (z : Z) :
  (0 < z)%Z → py_truediv a (Qc_of_Z z) = Some (a / Qc_of_Z z).
Proof.
  intros Hz. unfold py_truediv. rewrite bool_decide_eq_false_2; [done |].
  intros E. apply Qc_of_Z_eq_0 in E. lia.
Qed.

Lemma tm_yday_aug_24 : Ridership.tm_yday 2025 8 24 = 236%Z.
Proof. reflexivity. Qed.

(** X15.  [project_2025_ridership] stops with an [IndexError] exactly
    when the frame has no row for 2025; otherwise it returns the count of
    the first 2025 row as the ridership to date and, as the projection,
    that count times 6913 / 4720 (the 129 remaining days at 85 % of the
    daily rate of the first 236): for a count that is not negative the
    projection is at least the count to date and at most its plain
    extrapolation to 365 days. *)
Theorem ridership_projection (yearly_counts : list (Z * Z)) :
  (Ridership.project_2025_ridership yearly_counts = None
   ↔ ∀ row, row ∈ yearly_counts → row.1 ≠ 2025%Z) ∧
  (∀ p ytd, Ridership.project_2025_ridership yearly_counts = Some (p, ytd) →
     (∃ before after,
        yearly_counts = before ++ (2025%Z, ytd) :: after
        ∧ ∀ row, row ∈ before → row.1 ≠ 2025%Z) ∧
     p = Qc_of_Z ytd * (Qc_of_Z 6913 / Qc_of_Z 4720) ∧
     ((0 ≤ ytd)%Z →
        Qc_of_Z ytd ≤ p ∧ p ≤ Qc_of_Z ytd * (Qc_of_Z 365 / Qc_of_Z 236))).
Proof.
  unfold Ridership.project_2025_ridership. rewrite tm_yday_aug_24.
  assert (Hhead : ∀ l : list (Z * Z),
    match head (filter (λ row : Z * Z, row.1 = 2025%Z) l) with
    | Some row => ∃ before after, l = before ++ row :: after ∧ row.1 = 2025%Z
                    ∧ ∀ r, r ∈ before → r.1 ≠ 2025%Z
    | None => ∀ r, r ∈ l → r.1 ≠ 2025%Z
    end).
  { induction l as [| [y n] l IH]; simpl.
    - intros r Hr. by apply elem_of_nil in Hr.
    - rewrite filter_cons. simpl. destruct (decide (y = 2025%Z)) as [-> | Hy].
      + simpl. exists [], l. split; [done | split; [done |]].
        intros r Hr. by apply elem_of_nil in Hr.
      + destruct (head (filter (λ row : Z * Z, row.1 = 2025%Z) l)) as [row |].
        * destruct IH as (before & after & -> & H25 & Hb).
          exists ((y, n) :: before), after. split; [done | split; [done |]].
          intros r [-> | Hr]%elem_of_cons; [done | auto].
        * intros r [-> | Hr]%elem_of_cons; [done | auto]. }
  specialize (Hhead yearly_counts).
  destruct (head (filter (λ row : Z * Z, row.1 = 2025%Z) yearly_counts))
    as [[y n] |]; cbn [fmap option_fmap option_map mbind option_bind snd].
  - rewrite py_truediv_pos by lia. cbn [mbind option_bind].
    destruct Hhead as (before & after & -> & H25 & Hb). simpl in H25.
    subst y. split.
    + split; [done |]. intros Hall. exfalso. apply (Hall (2025%Z, n)); [| done].
      apply elem_of_app. right. left.
    + intros p ytd [= <- <-]. split; [eauto |].
      assert (Hform :
        Qc_of_Z n + Qc_of_Z n / Qc_of_Z 236 * Qc_of_Z (365 - 236)
                    * (Qc_of_Z 85 / Qc_of_Z 100)
        = Qc_of_Z n * (Qc_of_Z 6913 / Qc_of_Z 4720)).
      { apply Qc_is_canon. simpl.
        rewrite !Qred_correct. unfold Qdiv, Qmult, Qplus, Qinv, Qeq. simpl.
        lia. }
      split; [exact Hform |]. intros Hn. rewrite Hform.
      pose proof (Qc_of_Z_nonneg n Hn) as Hq. split.
      * rewrite <- (Qcmult_1_r (Qc_of_Z n)) at 1.
        apply Qcmult_le_mono_nonneg_l; [done |]. by vm_compute.
      * apply Qcmult_le_mono_nonneg_l; [done |]. by vm_compute.
  - split; [done |]. intros p ytd [=].
Qed.

Lemma ridership_projection_witness :
  (0 ≤ 4720)%Z ∧
  Ridership.project_2025_ridership [(2024, 100); (2025, 4720)]%Z
  = Some (Qc_of_Z 6913, 4720%Z).
Proof.
  assert (Hn : (0 ≤ 4720)%Z) by lia.
  split; [exact Hn |].
  destruct (Ridership.project_2025_ridership [(2024, 100); (2025, 4720)]%Z)
    as [[p ytd] |] eqn:E; [| by vm_compute in E].
  destruct (proj2 (ridership_projection [(2024, 100); (2025, 4720)]%Z) p ytd E)
    as (_ & Hp & _).
  assert (Hy : ytd = 4720%Z) by (vm_compute in E; congruence).
  subst ytd. rewrite Hp. f_equal. f_equal. apply Qc_is_canon. by vm_compute.
Defined.

(** ** Rows with a missing count *)






(** ** The number of shares *)

Lemma length_omap_le {A B : Type} (f : A → option B) (l : list A) :
  (length (omap f l) ≤ length l)%nat.
Proof.
  induction l as [| a l IH]; [done |]. cbn [omap list_omap].
  destruct (f a); simpl; lia.
Qed.

Lemma Qc_share_lower (a : Qc) (n m : Z) :
  0 ≤ a → (0 < n ≤ m)%Z → a / Qc_of_Z m ≤ a / Qc_of_Z n.
Proof.
  intros Ha [Hn Hm].
  assert (Hpn : 0 < Qc_of_Z n) by (by apply Qc_of_Z_pos).
  assert (Hpm : 0 < Qc_of_Z m) by (apply Qc_of_Z_pos; lia).
  assert (Hnn : Qc_of_Z n ≠ 0) by (by apply not_symmetry, Qclt_not_eq).
  assert (Hnm : Qc_of_Z m ≠ 0) by (by apply not_symmetry, Qclt_not_eq).
  apply (Qcmult_le_mono_pos_r _ _ (Qc_of_Z n * Qc_of_Z m));
    [by apply Qcmult_pos_pos |].
  replace (a / Qc_of_Z m * (Qc_of_Z n * Qc_of_Z m)) with (a * Qc_of_Z n)
    by (field; done).
  replace (a / Qc_of_Z n * (Qc_of_Z n * Qc_of_Z m)) with (a * Qc_of_Z m)
    by (field; done).
  apply Qcmult_le_mono_nonneg_l; [done |].
  apply (proj1 (Z2Qc_inj_le _ _)). lia.
Qed.

(** X17.  A row is split into at most five shares (it has five label
    cells), and into at most three in the bike fold (there are three bike
    types); so in the yearly fold every category a row lists receives at
    least a fifth of the row's injured value when that value is not
    negative. *)
Theorem number_of_shares (factor : Qc) (t : gmap string (gmap Z tally))
    (r : row) (i k y : Z) (c : string) :
  (length (dict_fromkeys (Yearly.vehicles_in_collision r)) ≤ 5)%nat ∧
  (length (labels_in_collision r) ≤ 5)%nat ∧
  (length (dict_fromkeys (Bike.bikes_in_collision r)) ≤ 3)%nat ∧
  (Yearly.convert r = Some (i, k, y) →
   c ∈ Yearly.vehicles_in_collision r →
   0 ≤ Yearly.scaled factor y i →
   ∃ t', Yearly.body factor t r = Some t' ∧
         injured (tally_at t c y) + Yearly.scaled factor y i / Qc_of_Z 5
         ≤ injured (tally_at t' c y)).
Proof.
  assert (H5 : (length (dict_fromkeys (Yearly.vehicles_in_collision r)) ≤ 5)%nat).
  { etrans; [apply dict_fromkeys_length |].
    unfold Yearly.vehicles_in_collision.
    etrans; [apply length_omap_le | done]. }
  split; [exact H5 |]. split; [| split].
  - unfold labels_in_collision. etrans; [apply length_omap_le | done].
  - change 3%nat with (length bike_categories).
    apply submseteq_length, NoDup_submseteq; [apply NoDup_dict_fromkeys |].
    intros c' Hc'. apply (proj1 (elem_of_dict_fromkeys _ _)) in Hc'.
    exact (bikes_in_collision_range r c' Hc').
  - intros Hc Hin Hpos.
    assert (Hv : Yearly.vehicles_in_collision r ≠ []).
    { intros E. rewrite E in Hin. by apply elem_of_nil in Hin. }
    eexists. split.
    { rewrite (yearly_body_rows _ _ _ _ _ _ Hc Hv). by apply distribute_Some. }
    rewrite tally_at_foldl_NoDup by apply NoDup_dict_fromkeys.
    rewrite decide_True by (by rewrite elem_of_dict_fromkeys).
    simpl. apply Qcplus_le_mono_l. unfold len.
    apply Qc_share_lower; [done |]. split; [| lia].
    pose proof (dict_fromkeys_ne_nil _ Hv) as Hu.
    destruct (dict_fromkeys (Yearly.vehicles_in_collision r)); [done |].
    simpl. lia.
Qed.

Lemma number_of_shares_witness :
  Yearly.convert sample_row = Some (6, 2, 2021)%Z ∧
  "Passenger Vehicles"%string ∈ Yearly.vehicles_in_collision sample_row ∧
  0 ≤ Yearly.scaled 1 2021 6 ∧
  ∃ t', Yearly.body 1 ∅ sample_row = Some t' ∧
        injured (tally_at ∅ "Passenger Vehicles" 2021)
        + Yearly.scaled 1 2021 6 / Qc_of_Z 5
        ≤ injured (tally_at t' "Passenger Vehicles" 2021).
Proof.
  assert (Hc : Yearly.convert sample_row = Some (6, 2, 2021)%Z)
    by (vm_compute; reflexivity).
  assert (Hin : "Passenger Vehicles"%string
                ∈ Yearly.vehicles_in_collision sample_row) by mem_true.
  assert (Hp : 0 ≤ Yearly.scaled 1 2021 6) by (by vm_compute).
  split; [exact Hc | split; [exact Hin | split; [exact Hp |]]].
  exact (proj2 (proj2 (proj2
    (number_of_shares 1 ∅ sample_row 6 2 2021 "Passenger Vehicles")))
    Hc Hin Hp).
Defined.

(** ** Which cells count *)

Lemma valid_vehicle_iff (vehicle : option string) :
  valid_vehicle vehicle = true ↔ ¬ sentinel_cell vehicle.
Proof.
  destruct vehicle as [s |]; simpl; [| split; [done | tauto]].
  rewrite andb_true_iff, !negb_true_iff, !bool_decide_eq_false.
  rewrite !elem_of_cons, elem_of_nil. split.
  - intros [H1 H2] [E | [E | E]]; [done | |]; apply H2; tauto.
  - intros Hn. split; [tauto |]. intros [E | [E | [E | []]]]; [| tauto | tauto].
    apply Hn. left. destruct (PyStr.strip s); [done | discriminate E].
Qed.

(** X18.  A label cell is used exactly when it is not missing, not blank
    and, trimmed and in capitals, neither UNKNOWN nor NAN; a row reaches
    the split of the yearly fold (and gets a bucket for each of its
    categories) exactly when its conversions succeed and one of its five
    cells is such a label. *)
Theorem rows_that_reach_the_split (factor : Qc)
    (t : gmap string (gmap Z tally)) (r : row) :
  (∀ vehicle, valid_vehicle vehicle = true ↔ ¬ sentinel_cell vehicle) ∧
  (Yearly.vehicles_in_collision r ≠ []
   ↔ ∃ vehicle, vehicle ∈ vehicle_cols r ∧ ¬ sentinel_cell vehicle) ∧
  ∃ t', Yearly.body factor t r = Some t' ∧
    ((∃ c y, has_bucket t' c y ∧ ¬ has_bucket t c y) →
     is_Some (Yearly.convert r)
     ∧ ∃ vehicle, vehicle ∈ vehicle_cols r ∧ ¬ sentinel_cell vehicle).
Proof.
  assert (Hne : Yearly.vehicles_in_collision r ≠ []
    ↔ ∃ vehicle, vehicle ∈ vehicle_cols r ∧ ¬ sentinel_cell vehicle).
  { unfold Yearly.vehicles_in_collision. split.
    - intros Hv.
      destruct (omap Yearly.category_of (vehicle_cols r)) as [| c l] eqn:E;
        [done |].
      assert (Hc : c ∈ omap Yearly.category_of (vehicle_cols r))
        by (rewrite E; left).
      apply list_elem_of_omap in Hc as (v & Hin & Hv').
      exists v. split; [done |]. apply valid_vehicle_iff.
      unfold Yearly.category_of in Hv'. by destruct (valid_vehicle v).
    - intros (v & Hin & Hs) E. apply valid_vehicle_iff in Hs.
      assert (Hc : is_Some (Yearly.category_of v)).
      { unfold Yearly.category_of. rewrite Hs. destruct v; [by eexists | done]. }
      destruct Hc as [c Hc].
      assert (Hm : c ∈ omap Yearly.category_of (vehicle_cols r))
        by (apply list_elem_of_omap; eauto).
      rewrite E in Hm. by apply elem_of_nil in Hm. }
  split; [apply valid_vehicle_iff | split; [exact Hne |]].
  destruct (yearly_bucket_body factor r) as (l & y0 & di & dk & E & Ht).
  eexists. split; [apply E |].
  intros (c & y & Hb & Hnb). apply has_bucket_foldl in Hb.
  destruct Hb as [Hb | Hb]; [| done].
  apply Ht in Hb as (i & k & Hc & Hin). split; [by rewrite Hc |].
  apply Hne. intros E'. rewrite E' in Hin. by apply elem_of_nil in Hin.
Qed.

(** ** Truncation of the counts *)

(** X19.  The conversion of a count keeps whole numbers as they are and
    cuts the fraction off any other finite value that is not negative:
    the count used is the largest whole number not above the cell. *)
Theorem counts_are_truncated (q : Qc) (z : Z) :
  safe_count (Fin (Qc_of_Z z)) = Some z ∧
  (0 ≤ q →
   ∃ n, safe_count (Fin q) = Some n ∧ (0 ≤ n)%Z
        ∧ Qc_of_Z n ≤ q ∧ q < Qc_of_Z n + 1).
Proof.
  split; [apply safe_count_of_Z |].
  intros Hq. unfold safe_count, or_zero, truthy.
  case_bool_decide as E; simpl.
  - subst q. exists 0%Z. split; [done |]. split; [done |].
    rewrite Z2Qc_inj_0. split; [done | by vm_compute].
  - eexists. split; [done |].
    destruct q as [[a b] Hcanon]. simpl.
    unfold Qcle, Qle in Hq. simpl in Hq.
    assert (Ha : (0 ≤ a)%Z) by lia.
    rewrite Z.quot_div_nonneg by lia.
    pose proof (Z.mul_div_le a (Z.pos b) ltac:(lia)) as Hlo.
    pose proof (Z.mul_succ_div_gt a (Z.pos b) ltac:(lia)) as Hhi.
    split; [apply Z.div_pos; lia |]. split.
    + unfold Qcle, Qle. simpl. lia.
    + rewrite <- Z2Qc_inj_1, <- Z2Qc_inj_add.
      unfold Qclt, Qlt. simpl. lia.
Qed.

Lemma counts_are_truncated_witness :
  0 ≤ Q2Qc (29 # 10) ∧
  safe_count (Fin (Q2Qc (29 # 10))) = Some 2%Z.
Proof.
  assert (Hq : 0 ≤ Q2Qc (29 # 10)) by (by vm_compute).
  split; [exact Hq |].
  destruct (proj2 (counts_are_truncated (Q2Qc (29 # 10)) 0) Hq)
    as (n & Hn & _).
  rewrite Hn. f_equal. vm_compute in Hn. congruence.
Defined.

(** ** Rows with infinite cells *)

Lemma wide_safe_count (x : number) :
  Wide.safe_count x =
    match x with
    | Num y => or_raise ValueError (safe_count y)
    | Inf _ => Raise OverflowError
    end.
Proof.
  destruct x as [[q |] | s]; [| done | done].
  unfold Wide.safe_count, Wide.or_zero, safe_count, or_zero; simpl.
  by destruct (bool_decide (q = 0)).
Qed.

Lemma wide_py_int (x : number) :
  Wide.py_int x =
    match x with
    | Num y => or_raise ValueError (py_int y)
    | Inf _ => Raise OverflowError
    end.
Proof. by destruct x as [[q |] | s]. Qed.

Lemma narrow_widen (r : row) : narrow (widen r) = r.
Proof. by destruct r. Qed.

(** The conversions of the yearly loop on any row: they reach an infinite
    cell, or they do what they do on the row with the infinite cells read
    as missing. *)
Lemma wide_convert_cases (r : Wide.row) :
  (Wide.convert r = Raise OverflowError ∧ infinite_first r)
  ∨ (Wide.convert r = or_raise ValueError (Yearly.convert (narrow r))
     ∧ ¬ infinite_first r).
Proof.
  destruct r as [a b c v1 v2 v3 v4 v5].
  unfold Wide.convert, Yearly.convert, narrow, infinite_first; simpl.
  rewrite !wide_safe_count, wide_py_int.
  destruct a as [a | sa]; simpl.
  2:{ left. split; [done |]. left. by eexists. }
  destruct (safe_count a) as [i |] eqn:Ea; simpl.
  2:{ right. split; [done |]. intros [[s H] | [[[q H] _] | [[q H] _]]];
        try discriminate H;
        injection H as ->; unfold safe_count, or_zero in Ea; simpl in Ea;
        by destruct (bool_decide (q = 0)). }
  assert (Hfa : finite (Num a)).
  { destruct a as [q |]; [by eexists | done]. }
  destruct b as [b | sb]; simpl.
  2:{ left. split; [done |]. right; left. split; [done | by eexists]. }
  destruct (safe_count b) as [k |] eqn:Eb; simpl.
  2:{ right. split; [done |].
      intros [[s H] | [[_ [s H]] | [_ [[q H] _]]]]; try discriminate H;
        injection H as ->; unfold safe_count, or_zero in Eb; simpl in Eb;
        by destruct (bool_decide (q = 0)). }
  assert (Hfb : finite (Num b)).
  { destruct b as [q |]; [by eexists | done]. }
  destruct c as [c | sc]; simpl.
  2:{ left. split; [done |]. right; right. split; [done |].
      split; [done | by eexists]. }
  right. split; [by destruct (py_int c) |].
  intros [[s H] | [[_ [s H]] | [_ [_ [s H]]]]]; discriminate H.
Qed.

Lemma convert_narrow (r : Wide.row) :
  Yearly.convert (narrow r) =
    match Wide.convert r with Return x => Some x | Raise _ => None end.
Proof.
  destruct r as [a b c v1 v2 v3 v4 v5].
  unfold Wide.convert, Yearly.convert, narrow; simpl.
  rewrite !wide_safe_count, wide_py_int.
  destruct a as [a | sa]; simpl; [| done].
  destruct (safe_count a) as [i |]; simpl; [| done].
  destruct b as [b | sb]; simpl; [| done].
  destruct (safe_count b) as [k |]; simpl; [| done].
  destruct c as [c | sc]; simpl; [| done].
  by destruct (py_int c).
Qed.

Lemma overflows_iff (r : Wide.row) : overflows r ↔ infinite_first r.
Proof.
  unfold overflows.
  destruct (wide_convert_cases r) as [[E Hi] | [E Hn]]; [done |].
  split; [| done]. rewrite E. by destruct (Yearly.convert (narrow r)).
Qed.

Lemma wide_safe_count_finite (q : Qc) :
  ∃ z, Wide.safe_count (Num (Fin q)) = Return z.
Proof.
  unfold Wide.safe_count, Wide.or_zero; simpl.
  destruct (bool_decide (q = 0)); simpl; eauto.
Qed.

Lemma missing_first_convert (r : Wide.row) :
  missing_first r → Wide.convert r = Raise ValueError.
Proof.
  destruct r as [a b c v1 v2 v3 v4 v5].
  unfold Wide.convert, missing_first, missing, finite; simpl.
  intros [-> | [[[qa ->] ->] | [[qa ->] [[qb ->] ->]]]]; [done | |].
  - by destruct (wide_safe_count_finite qa) as [i ->].
  - destruct (wide_safe_count_finite qa) as [i ->].
    by destruct (wide_safe_count_finite qb) as [k ->].
Qed.

(** The conversions of the flat loops on any row. *)
Lemma wide_flat_convert_cases (r : Wide.row) :
  (Wide.flat_convert r = Raise OverflowError ∧ infinite_count_first r)
  ∨ (Wide.flat_convert r = Return (Flat.convert (narrow r))
     ∧ ¬ infinite_count_first r).
Proof.
  destruct r as [a b c v1 v2 v3 v4 v5].
  unfold Wide.flat_convert, Flat.convert, narrow, infinite_count_first; simpl.
  rewrite !wide_safe_count.
  destruct a as [a | sa]; simpl.
  2:{ left. split; [done |]. left. by eexists. }
  destruct (safe_count a) as [i |] eqn:Ea; simpl.
  2:{ right. split; [done |]. intros [[s H] | [[q H] _]]; try discriminate H;
        injection H as ->; unfold safe_count, or_zero in Ea; simpl in Ea;
        by destruct (bool_decide (q = 0)). }
  assert (Hfa : finite (Num a)).
  { destruct a as [q |]; [by eexists | done]. }
  destruct b as [b | sb]; simpl.
  2:{ left. split; [done |]. right. split; [done | by eexists]. }
  right. split; [by destruct (safe_count b) |].
  intros [[s H] | [_ [s H]]]; discriminate H.
Qed.

Lemma wide_convert_not_zero_division (r : Wide.row) :
  Wide.convert r ≠ Raise ZeroDivisionError.
Proof.
  destruct (wide_convert_cases r) as [[E _] | [E _]]; rewrite E; [done |].
  by destruct (Yearly.convert (narrow r)).
Qed.

(** The body of the yearly loop on any row: it stops on an infinite cell
    that the conversions reach, and otherwise does what it does on the row
    with the infinite cells read as missing. *)
Lemma yearly_body_narrow (factor : Qc) (t : gmap string (gmap Z tally))
    (r : Wide.row) :
  Wide.yearly_body factor t r =
    match Wide.convert r with
    | Raise OverflowError => Raise OverflowError
    | _ => or_raise ZeroDivisionError (Yearly.body factor t (narrow r))
    end.
Proof.
  pose proof (wide_convert_not_zero_division r) as Hz.
  unfold Wide.yearly_body, Yearly.body. rewrite convert_narrow.
  destruct (Wide.convert r) as [[[i k] y] | e].
  - change (Yearly.vehicles_in_collision (narrow r))
      with (Wide.vehicles_in_collision r).
    by destruct (Wide.vehicles_in_collision r).
  - by destruct e.
Qed.

Lemma bike_body_narrow (factor : Qc) (t : gmap string (gmap Z tally))
    (r : Wide.row) :
  Wide.bike_body factor t r =
    match Wide.convert r with
    | Raise OverflowError => Raise OverflowError
    | _ => or_raise ZeroDivisionError (Bike.body factor t (narrow r))
    end.
Proof.
  pose proof (wide_convert_not_zero_division r) as Hz.
  unfold Wide.bike_body, Bike.body. rewrite convert_narrow.
  destruct (Wide.convert r) as [[[i k] y] | e].
  - case_bool_decide; [done |].
    change (Bike.bikes_in_collision (narrow r))
      with (Wide.bikes_in_collision r).
    by destruct (Wide.bikes_in_collision r).
  - by destruct e.
Qed.

Lemma body_categories_narrow (t : gmap string tally) (r : Wide.row) :
  Wide.body_categories t r =
    match Wide.flat_convert r with
    | Raise e => Raise e
    | Return _ => or_raise ZeroDivisionError (Flat.body_categories t (narrow r))
    end.
Proof.
  unfold Wide.body_categories, Flat.body_categories.
  destruct (wide_flat_convert_cases r) as [[E _] | [E _]]; rewrite E; [done |].
  destruct (Flat.convert (narrow r)) as [i k]; simpl.
  change (Yearly.vehicles_in_collision (narrow r))
    with (Wide.vehicles_in_collision r).
  by destruct (Wide.vehicles_in_collision r).
Qed.

Lemma body_vehicle_types_narrow (t : gmap string tally) (r : Wide.row) :
  Wide.body_vehicle_types t r =
    match Wide.flat_convert r with
    | Raise e => Raise e
    | Return _ =>
        or_raise ZeroDivisionError (Flat.body_vehicle_types t (narrow r))
    end.
Proof.
  unfold Wide.body_vehicle_types, Flat.body_vehicle_types.
  destruct (wide_flat_convert_cases r) as [[E _] | [E _]]; rewrite E; [done |].
  destruct (Flat.convert (narrow r)) as [i k]; cbn [mbind run_bind].
  change (omap Flat.label_of (vehicle_cols (narrow r)))
    with (Wide.labels_in_collision r).
  by destruct (Wide.labels_in_collision r).
Qed.

(** A loop whose body stops exactly on the rows of [Q] and returns on the
    others: it stops exactly when the frame has a row of [Q], and
    otherwise is the loop above on the narrowed frame. *)
Lemma wide_iterrows_cases {T : Type} (wb : T → Wide.row → run T)
    (b : T → row → option T) (Q : Wide.row → Prop) :
  (∀ r, Q r ∨ ¬ Q r) →
  (∀ t r, Q r → wb t r = Raise OverflowError) →
  (∀ t r, ¬ Q r → ∃ t', b t (narrow r) = Some t' ∧ wb t r = Return t') →
  ∀ df t,
    (Exists Q df ∧ Wide.iterrows wb t df = Raise OverflowError)
    ∨ (Forall (λ r, ¬ Q r) df
       ∧ ∃ t', iterrows b t (narrow <$> df) = Some t'
               ∧ Wide.iterrows wb t df = Return t').
Proof.
  intros Hdec Hstop Hstep df.
  induction df as [| r df IH]; intros t.
  - right. split; [constructor |]. by exists t.
  - destruct (Hdec r) as [Hq | Hq].
    + left. split; [by left |]. cbn [Wide.iterrows]. by rewrite Hstop.
    + destruct (Hstep t r Hq) as (t1 & E1 & W1).
      destruct (IH t1) as [[Hex E] | [Hall (t' & E & W)]].
      * left. split; [by right |]. cbn [Wide.iterrows]. by rewrite W1.
      * right. split; [by constructor |]. exists t'.
        rewrite fmap_cons. cbn [iterrows Wide.iterrows].
        rewrite E1, W1. by split.
Qed.

Lemma overflows_dec (r : Wide.row) : overflows r ∨ ¬ overflows r.
Proof.
  unfold overflows.
  destruct (Wide.convert r) as [x | []]; [right | right | left | right]; done.
Qed.

Lemma flat_overflows_dec (r : Wide.row) : flat_overflows r ∨ ¬ flat_overflows r.
Proof.
  unfold flat_overflows.
  destruct (Wide.flat_convert r) as [x | []];
    [right | right | left | right]; done.
Qed.

Lemma yearly_body_wide_step (factor : Qc) (t : gmap string (gmap Z tally))
    (r : Wide.row) :
  ¬ overflows r →
  ∃ t', Yearly.body factor t (narrow r) = Some t'
        ∧ Wide.yearly_body factor t r = Return t'.
Proof.
  intros Hq. destruct (yearly_body_total factor t (narrow r)) as [t' E].
  exists t'. split; [done |]. rewrite yearly_body_narrow, E.
  unfold overflows in Hq.
  destruct (Wide.convert r) as [x | []]; done.
Qed.

Lemma yearly_body_wide_stop (factor : Qc) (t : gmap string (gmap Z tally))
    (r : Wide.row) :
  overflows r → Wide.yearly_body factor t r = Raise OverflowError.
Proof. intros Hq. rewrite yearly_body_narrow. by rewrite Hq. Qed.
